(** * NFC_Tag_Front: the attendance pages and the attendance write proxy

    A shallow embedding of [src/app/page.tsx] (the page over generated mock
    data, followed in the same source file by the API route [handler]) and of
    [src/app/tmp.tsx] (the page over the remote API), with the parts of the
    JavaScript [Date] object, of the date-fns library, of [JSON] and of
    [fetch] that these files call, and with the body parser of the framework
    that calls the route. *)

From Stdlib Require Import ZArith QArith Qminmax Lia Lqa String Ascii DecimalString.
From Stdlib Require Import DecimalFacts DecimalPos.
From stdpp Require Import base option list list_numbers sorting gmap strings.

Local Open Scope string_scope.
Local Open Scope list_scope.
Local Open Scope Z_scope.

(** ** The JavaScript [Date] object

    A [Date] holds a time value in milliseconds.  The definitions below are the
    abstract operations of ECMAScript (ECMA-262, section "Date Objects") that
    the getters and setters of [Date] are specified with.  The getters and
    setters used by date-fns work in local time; the time value modelled here
    is the local one, for a zone with a fixed offset from UTC (no change of
    daylight saving time inside the ranges handled), so that [LocalTime] and
    [UTC] are the identity and comparisons of time values are unaffected. *)
Module JSDate.

Definition Date := Z.

Definition msPerDay : Z := 86400000.

Definition Day (t : Date) : Z := t / msPerDay.

Definition TimeWithinDay (t : Date) : Z := t mod msPerDay.

Definition DaysInYear (y : Z) : Z :=
  if negb (y mod 4 =? 0) then 365
  else if negb (y mod 100 =? 0) then 366
  else if negb (y mod 400 =? 0) then 365
  else 366.

Definition DayFromYear (y : Z) : Z :=
  365 * (y - 1970) + (y - 1969) / 4 - (y - 1901) / 100 + (y - 1601) / 400.

(** [YearFromTime t] is "the largest integer y such that
    [TimeFromYear y <= t]"; it is computed here from an estimate that is off
    by at most one year (lemma [yearFromDay_spec] shows that the result is
    the year the standard describes). *)
Definition yearFromDay (d : Z) : Z :=
  let y := 1970 + (400 * d) / 146097 in
  if d <? DayFromYear y then y - 1
  else if DayFromYear (y + 1) <=? d then y + 1
  else y.

Definition YearFromTime (t : Date) : Z := yearFromDay (Day t).

(** 1 for a leap year, 0 otherwise. *)
Definition leapDay (y : Z) : Z := if DaysInYear y =? 366 then 1 else 0.

Definition InLeapYear (t : Date) : Z := leapDay (YearFromTime t).

Definition DayWithinYear (t : Date) : Z :=
  Day t - DayFromYear (YearFromTime t).

(** Number of days of the year before month [m] (0 = January). *)
Definition daysBeforeMonth (leap m : Z) : Z :=
  match m with
  | 0 => 0
  | 1 => 31
  | 2 => 59 + leap
  | 3 => 90 + leap
  | 4 => 120 + leap
  | 5 => 151 + leap
  | 6 => 181 + leap
  | 7 => 212 + leap
  | 8 => 243 + leap
  | 9 => 273 + leap
  | 10 => 304 + leap
  | _ => 334 + leap
  end.

(** Number of days of month [m]. *)
Definition daysInMonth (leap m : Z) : Z :=
  match m with
  | 1 => 28 + leap
  | 3 | 5 | 8 | 10 => 30
  | _ => 31
  end.

Definition monthFromDayWithinYear (leap dwy : Z) : Z :=
  if dwy <? 31 then 0
  else if dwy <? 59 + leap then 1
  else if dwy <? 90 + leap then 2
  else if dwy <? 120 + leap then 3
  else if dwy <? 151 + leap then 4
  else if dwy <? 181 + leap then 5
  else if dwy <? 212 + leap then 6
  else if dwy <? 243 + leap then 7
  else if dwy <? 273 + leap then 8
  else if dwy <? 304 + leap then 9
  else if dwy <? 334 + leap then 10
  else 11.

Definition MonthFromTime (t : Date) : Z :=
  monthFromDayWithinYear (InLeapYear t) (DayWithinYear t).

Definition DateFromTime (t : Date) : Z :=
  DayWithinYear t - daysBeforeMonth (InLeapYear t) (MonthFromTime t) + 1.

(** 1 January 1970 was a Thursday. *)
Definition WeekDay (t : Date) : Z := (Day t + 4) mod 7.

Definition MakeTime (hour min sec ms : Z) : Z :=
  hour * 3600000 + min * 60000 + sec * 1000 + ms.

(** [MakeDay]: the day number of the first day of month [month mod 12] of
    year [year + floor (month / 12)], plus [date - 1]. *)
Definition MakeDay (year month date : Z) : Z :=
  let ym := year + month / 12 in
  let mn := month mod 12 in
  DayFromYear ym + daysBeforeMonth (leapDay ym) mn + date - 1.

Definition MakeDate (day time : Z) : Date := day * msPerDay + time.

(** Getters. *)
Definition getTime (t : Date) : Z := t.
Definition getFullYear (t : Date) : Z := YearFromTime t.
Definition getMonth (t : Date) : Z := MonthFromTime t.
Definition getDate (t : Date) : Z := DateFromTime t.
Definition getDay (t : Date) : Z := WeekDay t.

(** Setters, returning the new time value. *)
Definition setDate (t : Date) (dt : Z) : Date :=
  MakeDate (MakeDay (YearFromTime t) (MonthFromTime t) dt) (TimeWithinDay t).

Definition setHours (t : Date) (hour min sec ms : Z) : Date :=
  MakeDate (Day t) (MakeTime hour min sec ms).

Definition setMonth (t : Date) (month dt : Z) : Date :=
  MakeDate (MakeDay (YearFromTime t) month dt) (TimeWithinDay t).

Definition setFullYear (t : Date) (year month dt : Z) : Date :=
  MakeDate (MakeDay year month dt) (TimeWithinDay t).

(** The local time value of a calendar date and time of day
    ([new Date(year, monthIndex, day, hours, minutes, seconds, ms)]). *)
Definition mkDate (year month date hour min sec ms : Z) : Date :=
  MakeDate (MakeDay year month date) (MakeTime hour min sec ms).

End JSDate.

Import JSDate.

(** ** date-fns

    The functions of the date-fns library that the pages import, transcribed
    from the library (version 3 and later; the pages pass no options, so the
    defaults apply: weeks start on Sunday, the step of an interval is one
    day).  Dates are valid: no function is given an [Invalid Date], except
    [isBefore] in [getStatus], where the source may pass [undefined]. *)
Module DateFns.

(** The default of the option [weekStartsOn]: 0, Sunday. *)
Definition weekStartsOn : Z := 0.

Definition startOfWeek (date : Date) : Date :=
  let day := getDay date in
  let diff := (if day <? weekStartsOn then 7 else 0) + day - weekStartsOn in
  let date1 := setDate date (getDate date - diff) in
  setHours date1 0 0 0 0.

Definition endOfWeek (date : Date) : Date :=
  let day := getDay date in
  let diff := (if day <? weekStartsOn then -7 else 0) + 6 - (day - weekStartsOn) in
  let date1 := setDate date (getDate date + diff) in
  setHours date1 23 59 59 999.

Definition startOfMonth (date : Date) : Date :=
  let date1 := setDate date 1 in
  setHours date1 0 0 0 0.

Definition endOfMonth (date : Date) : Date :=
  let month := getMonth date in
  let date1 := setFullYear date (getFullYear date) (month + 1) 0 in
  setHours date1 23 59 59 999.

Definition addMonths (date : Date) (amount : Z) : Date :=
  if amount =? 0 then date
  else
    let dayOfMonth := getDate date in
    let endOfDesiredMonth := setMonth date (getMonth date + amount + 1) 0 in
    let daysInMonth := getDate endOfDesiredMonth in
    if daysInMonth <=? dayOfMonth then endOfDesiredMonth
    else setFullYear date (getFullYear endOfDesiredMonth)
                     (getMonth endOfDesiredMonth) dayOfMonth.

Definition subMonths (date : Date) (amount : Z) : Date :=
  addMonths date (- amount).

Definition isWeekend (date : Date) : bool :=
  let day := getDay date in
  (day =? 0) || (day =? 6).

Definition isBefore (date dateToCompare : Date) : bool :=
  date <? dateToCompare.

(** The loop of [eachDayOfInterval]:
    [while (+date <= endTime) { dates.push(date); date.setDate(date.getDate() + 1); date.setHours(0, 0, 0, 0) }].
    Every turn moves [date] to the next midnight, so the loop makes
    [Day endTime - Day date + 1] turns at most; [fuel] bounds the turns. *)
Fixpoint eachDay_loop (fuel : nat) (date : Date) (endTime : Z) : list Date :=
  match fuel with
  | O => []
  | S fuel' =>
      if date <=? endTime then
        let next := setHours (setDate date (getDate date + 1)) 0 0 0 0 in
        date :: eachDay_loop fuel' next endTime
      else []
  end.

Definition eachDayOfInterval (start end_ : Date) : list Date :=
  let reversed := end_ <? start in
  let endTime := if reversed then start else end_ in
  let date := setHours (if reversed then end_ else start) 0 0 0 0 in
  let dates := eachDay_loop (Z.to_nat (Day endTime - Day date + 1)) date endTime in
  if reversed then reverse dates else dates.

End DateFns.

Import DateFns.

(** ** JavaScript values shared by the pages and the proxy *)

(** [String(n)] for an integer [n]: decimal digits, as JavaScript writes a
    safe integer (of absolute value below 2^53). *)
Definition string_of_Z (n : Z) : string := NilZero.string_of_int (Z.to_int n).

(** Zero padding to two and four digits, as the tokens [MM], [dd] and [yyyy]
    of date-fns [format] print a month, a day and a year (none of them is
    negative). *)
Definition pad (width : nat) (n : Z) : string :=
  let digits := string_of_Z n in
  String.concat EmptyString (replicate (width - String.length digits) "0") +:+ digits.

(** [format(date, "yyyy-MM-dd")].  The token [yyyy] writes the year of the
    era: [signedYear > 0 ? signedYear : 1 - signedYear], so that year 0 of
    [getFullYear], which is 1 BC, is written 0001. *)
Definition format_yyyy_MM_dd (date : Date) : string :=
  let signedYear := getFullYear date in
  let year := if 0 <? signedYear then signedYear else 1 - signedYear in
  pad 4 year +:+ "-" +:+ pad 2 (getMonth date + 1) +:+ "-" +:+ pad 2 (getDate date).

(** The number that a text made of decimal digits writes (used to read back
    the fields of a formatted date). *)
Definition digitsValue (s : string) : Z :=
  (fix go (acc : Z) (s : string) : Z :=
     match s with
     | EmptyString => acc
     | String c s' => go (10 * acc + (Z.of_nat (nat_of_ascii c) - 48)) s'
     end) 0 s.

Module Json.

#[local] Set Warnings "-register-all".

(** The JSON values of the program.  A number is an integer; the ids the
    pages send are safe integers (of absolute value below 2^53), which
    JavaScript holds exactly and writes in decimal digits.  A string holds
    characters with codes below 256. *)
Inductive JSON :=
| JNull
| JBool (b : bool)
| JNumber (n : Z)
| JString (s : string)
| JArray (items : list JSON)
| JObject (members : list (string * JSON)).

Definition doubleQuote : string := String (ascii_of_nat 34) EmptyString.
Definition backslash : string := String (ascii_of_nat 92) EmptyString.

Definition hexDigit (n : nat) : string :=
  String.substring n 1 "0123456789abcdef".

(** One character of [QuoteJSONString]. *)
Definition quoteChar (c : ascii) : string :=
  let n := nat_of_ascii c in
  if (n =? 8)%nat then backslash +:+ "b"
  else if (n =? 9)%nat then backslash +:+ "t"
  else if (n =? 10)%nat then backslash +:+ "n"
  else if (n =? 12)%nat then backslash +:+ "f"
  else if (n =? 13)%nat then backslash +:+ "r"
  else if (n =? 34)%nat then backslash +:+ doubleQuote
  else if (n =? 92)%nat then backslash +:+ backslash
  else if (n <? 32)%nat then backslash +:+ "u00" +:+ hexDigit (n / 16) +:+ hexDigit (n mod 16)
  else String c EmptyString.

Fixpoint quoteChars (s : string) : string :=
  match s with
  | EmptyString => EmptyString
  | String c s' => quoteChar c +:+ quoteChars s'
  end.

Definition quote (s : string) : string :=
  doubleQuote +:+ quoteChars s +:+ doubleQuote.

(** [JSON.stringify] without indentation; the members of an object are
    written in the order in which the properties were created. *)
Fixpoint stringify (j : JSON) : string :=
  match j with
  | JNull => "null"
  | JBool b => if b then "true" else "false"
  | JNumber n => string_of_Z n
  | JString s => quote s
  | JArray items =>
      "[" +:+
      (fix go (l : list JSON) : string :=
         match l with
         | [] => EmptyString
         | x :: l' =>
             stringify x +:+ match l' with [] => EmptyString | _ => "," +:+ go l' end
         end) items +:+ "]"
  | JObject members =>
      "{" +:+
      (fix go (l : list (string * JSON)) : string :=
         match l with
         | [] => EmptyString
         | (k, v) :: l' =>
             quote k +:+ ":" +:+ stringify v +:+
             match l' with [] => EmptyString | _ => "," +:+ go l' end
         end) members +:+ "}"
  end.

(** *** [JSON.parse]

    The reader of JSON text, restricted to the values of [JSON]: the result
    is [None] for a text that is not JSON, and also for a JSON text that
    holds what [JSON] does not model (a number with a fraction or an
    exponent or that is not a safe integer, a [\u] escape above 00ff). *)

(** White space: tab, line feed, carriage return and space. *)
Definition isWhitespace (c : ascii) : bool :=
  let n := nat_of_ascii c in
  ((n =? 9) || (n =? 10) || (n =? 13) || (n =? 32))%nat.

Fixpoint skipWhitespace (s : string) : string :=
  match s with
  | String c s' => if isWhitespace c then skipWhitespace s' else s
  | EmptyString => s
  end.

Definition isDigit (c : ascii) : bool :=
  ((48 <=? nat_of_ascii c) && (nat_of_ascii c <=? 57))%nat.

Definition hexValue (c : ascii) : option nat :=
  let n := nat_of_ascii c in
  if ((48 <=? n) && (n <=? 57))%nat then Some (n - 48)%nat
  else if ((97 <=? n) && (n <=? 102))%nat then Some (n - 87)%nat
  else if ((65 <=? n) && (n <=? 70))%nat then Some (n - 55)%nat
  else None.

Definition consChar (c : ascii) (r : option (string * string)) : option (string * string) :=
  match r with
  | Some (str, rest) => Some (String c str, rest)
  | None => None
  end.

(** The characters of a string after its opening quotation mark, up to the
    closing one: the string read and the text that follows it. *)
Fixpoint parseChars (s : string) : option (string * string) :=
  match s with
  | EmptyString => None
  | String c s1 =>
      let n := nat_of_ascii c in
      if (n =? 34)%nat then Some (EmptyString, s1)
      else if (n =? 92)%nat then
        match s1 with
        | EmptyString => None
        | String e s2 =>
            let m := nat_of_ascii e in
            if ((m =? 34) || (m =? 92) || (m =? 47))%nat then consChar e (parseChars s2)
            else if (m =? 98)%nat then consChar (ascii_of_nat 8) (parseChars s2)
            else if (m =? 102)%nat then consChar (ascii_of_nat 12) (parseChars s2)
            else if (m =? 110)%nat then consChar (ascii_of_nat 10) (parseChars s2)
            else if (m =? 114)%nat then consChar (ascii_of_nat 13) (parseChars s2)
            else if (m =? 116)%nat then consChar (ascii_of_nat 9) (parseChars s2)
            else if (m =? 117)%nat then
              match s2 with
              | String h1 (String h2 (String h3 (String h4 s6))) =>
                  match hexValue h1, hexValue h2, hexValue h3, hexValue h4 with
                  | Some a, Some b, Some c, Some d =>
                      let code := (((a * 16 + b) * 16 + c) * 16 + d)%nat in
                      if (code <? 256)%nat then consChar (ascii_of_nat code) (parseChars s6)
                      else None
                  | _, _, _, _ => None
                  end
              | _ => None
              end
            else None
        end
      else if (n <? 32)%nat then None
      else consChar c (parseChars s1)
  end.

(** The longest prefix made of digits, and what follows it. *)
Fixpoint spanDigits (s : string) : string * string :=
  match s with
  | String c s' =>
      if isDigit c then let '(digits, rest) := spanDigits s' in (String c digits, rest)
      else (EmptyString, s)
  | EmptyString => (EmptyString, EmptyString)
  end.

(** What may follow the digits of an integer: anything but the start of a
    fraction or of an exponent. *)
Definition integerEnds (rest : string) : bool :=
  match rest with
  | String c _ =>
      let n := nat_of_ascii c in negb ((n =? 46) || (n =? 101) || (n =? 69))%nat
  | EmptyString => true
  end.

(** The digits of a number, after its sign if it has one: one digit at
    least, and no leading zero. *)
Definition parseDigits (negative : bool) (s : string) : option (Z * string) :=
  let '(digits, rest) := spanDigits s in
  let leadingZero :=
    match digits with
    | String d (String _ _) => (nat_of_ascii d =? 48)%nat
    | _ => false
    end in
  if leadingZero || negb (integerEnds rest) then None
  else
    match NilZero.uint_of_string digits with
    | Some d =>
        let n := Z.of_uint d in
        if n <? 2 ^ 53 then Some (if negative then - n else n, rest) else None
    | None => None
    end.

(** A number: an optional minus sign and digits. *)
Definition parseNumber (s : string) : option (Z * string) :=
  match s with
  | String c s' => if (nat_of_ascii c =? 45)%nat then parseDigits true s' else parseDigits false s
  | EmptyString => None
  end.

Fixpoint stripPrefix (word s : string) : option string :=
  match word, s with
  | EmptyString, _ => Some s
  | String a word', String b s' => if Ascii.eqb a b then stripPrefix word' s' else None
  | String _ _, EmptyString => None
  end.

(** The order of the properties of an object: the keys that are array
    indices (the texts of the integers from 0 to 2^32 - 2) come first, in
    ascending order, then the other keys in the order in which they were
    created.  A property that is defined again keeps its place and takes the
    new value. *)
Definition arrayIndex (key : string) : option Z :=
  match NilZero.uint_of_string key with
  | Some d =>
      let n := Z.of_uint d in
      if String.eqb (string_of_Z n) key && (n <? 2 ^ 32 - 1) then Some n else None
  | None => None
  end.

Definition keyBefore (key k : string) : bool :=
  match arrayIndex key, arrayIndex k with
  | Some i, Some j => i <? j
  | Some _, None => true
  | None, _ => false
  end.

Fixpoint insertKey (key : string) (v : JSON) (members : list (string * JSON))
    : list (string * JSON) :=
  match members with
  | [] => [(key, v)]
  | (k, x) :: rest =>
      if keyBefore key k then (key, v) :: (k, x) :: rest
      else (k, x) :: insertKey key v rest
  end.

Definition defineProperty (key : string) (v : JSON) (members : list (string * JSON))
    : list (string * JSON) :=
  if existsb (fun m => String.eqb m.1 key) members
  then (fun m => if String.eqb m.1 key then (m.1, v) else m) <$> members
  else insertKey key v members.

(** A value, with the text that follows it.  [fuel] bounds the number of
    nested calls; [2 * length + 2] is enough for a text: of two calls in a
    row, one consumes a character at least. *)
Fixpoint parseValue (fuel : nat) (s : string) : option (JSON * string) :=
  match fuel with
  | O => None
  | S fuel' =>
      match skipWhitespace s with
      | EmptyString => None
      | String c rest =>
          let n := nat_of_ascii c in
          if (n =? 34)%nat then
            match parseChars rest with
            | Some (str, r) => Some (JString str, r)
            | None => None
            end
          else if (n =? 91)%nat then
            match skipWhitespace rest with
            | String c' r' =>
                if (nat_of_ascii c' =? 93)%nat then Some (JArray [], r')
                else parseElements fuel' rest []
            | EmptyString => None
            end
          else if (n =? 123)%nat then
            match skipWhitespace rest with
            | String c' r' =>
                if (nat_of_ascii c' =? 125)%nat then Some (JObject [], r')
                else parseMembers fuel' rest []
            | EmptyString => None
            end
          else if (n =? 110)%nat then
            match stripPrefix "ull" rest with Some r => Some (JNull, r) | None => None end
          else if (n =? 116)%nat then
            match stripPrefix "rue" rest with Some r => Some (JBool true, r) | None => None end
          else if (n =? 102)%nat then
            match stripPrefix "alse" rest with Some r => Some (JBool false, r) | None => None end
          else
            match parseNumber (String c rest) with
            | Some (z, r) => Some (JNumber z, r)
            | None => None
            end
      end
  end
with parseElements (fuel : nat) (s : string) (acc : list JSON) : option (JSON * string) :=
  match fuel with
  | O => None
  | S fuel' =>
      match parseValue fuel' s with
      | Some (v, r) =>
          match skipWhitespace r with
          | String c r' =>
              if (nat_of_ascii c =? 44)%nat then parseElements fuel' r' (acc ++ [v])
              else if (nat_of_ascii c =? 93)%nat then Some (JArray (acc ++ [v]), r')
              else None
          | EmptyString => None
          end
      | None => None
      end
  end
with parseMembers (fuel : nat) (s : string) (acc : list (string * JSON))
    : option (JSON * string) :=
  match fuel with
  | O => None
  | S fuel' =>
      match skipWhitespace s with
      | String q r0 =>
          if (nat_of_ascii q =? 34)%nat then
            match parseChars r0 with
            | Some (key, r1) =>
                match skipWhitespace r1 with
                | String colon r2 =>
                    if (nat_of_ascii colon =? 58)%nat then
                      match parseValue fuel' r2 with
                      | Some (v, r3) =>
                          match skipWhitespace r3 with
                          | String c r4 =>
                              if (nat_of_ascii c =? 44)%nat
                              then parseMembers fuel' r4 (defineProperty key v acc)
                              else if (nat_of_ascii c =? 125)%nat
                              then Some (JObject (defineProperty key v acc), r4)
                              else None
                          | EmptyString => None
                          end
                      | None => None
                      end
                    else None
                | EmptyString => None
                end
            | None => None
            end
          else None
      | EmptyString => None
      end
  end.

Definition JSON_parse (text : string) : option JSON :=
  match parseValue (2 * String.length text + 2) text with
  | Some (v, rest) =>
      match skipWhitespace rest with
      | EmptyString => Some v
      | String _ _ => None
      end
  | None => None
  end.

End Json.

Import Json.

(** The [fetch] API: a call settles with a [Response] or rejects; reading the
    body of a response ([response.json()], [response.text()]) settles or
    rejects as well. *)
Module Fetch.

Inductive JSError :=
| Error (message : string)
| TypeError (message : string)
| SyntaxError (message : string).

(** [String(error)], as a template literal prints an error. *)
Definition errorToString (e : JSError) : string :=
  match e with
  | Error m => "Error: " +:+ m
  | TypeError m => "TypeError: " +:+ m
  | SyntaxError m => "SyntaxError: " +:+ m
  end.

Inductive Settled (A : Type) :=
| Fulfilled (value : A)
| Rejected (reason : JSError).
Arguments Fulfilled {A} value.
Arguments Rejected {A} reason.

Record Request := {
  url : string;
  method : string;
  headers : list (string * string);
  body : option string;
}.

(** A response whose body holds JSON that decodes to a value of [A]. *)
Record Response (A : Type) := {
  status : Z;
  contentType : option string;
  json : Settled A;
  text : Settled string;
}.
Arguments status {A} _.
Arguments contentType {A} _.
Arguments json {A} _.
Arguments text {A} _.

(** [response.ok]: the status is in the range 200-299. *)
Definition ok {A : Type} (response : Response A) : bool :=
  (200 <=? status response) && (status response <=? 299).

(** [Promise.all]: fulfilled with all the values, in order, when every
    promise is fulfilled; rejected as soon as one is.  Which rejection
    comes first in time is not modelled: the reason kept is that of the
    first rejected promise of the list. *)
Fixpoint Promise_all {A : Type} (promises : list (Settled A)) : Settled (list A) :=
  match promises with
  | [] => Fulfilled []
  | Rejected e :: _ => Rejected e
  | Fulfilled v :: rest =>
      match Promise_all rest with
      | Fulfilled vs => Fulfilled (v :: vs)
      | Rejected e => Rejected e
      end
  end.

(** What a handler does besides computing its result. *)
Inductive Event :=
| Fetched (request : Request)
| ConsoleLog (label : string)
| ConsoleError (label : string) (error : JSError)
| Alert (message : string).

End Fetch.

Import Fetch.

(** Both pages declare the same [ViewMode] and keep the same range state. *)
Inductive ViewMode := day | week | month | all.

Record DateRange := { from : Date; to : Date }.

(** ** [src/app/page.tsx]: the page over generated mock data *)
Module Page.

Inductive AttendanceStatus :=
| Present | Absent | Vacation | Late | OfficialLeave | NotYet.

Definition AttendanceStatus_eqb (a b : AttendanceStatus) : bool :=
  match a, b with
  | Present, Present | Absent, Absent | Vacation, Vacation
  | Late, Late | OfficialLeave, OfficialLeave | NotYet, NotYet => true
  | _, _ => false
  end.

(** The string each status is in the source. *)
Definition statusText (s : AttendanceStatus) : string :=
  match s with
  | Present => "Present"
  | Absent => "Absent"
  | Vacation => "Vacation"
  | Late => "Late"
  | OfficialLeave => "OfficialLeave"
  | NotYet => "Not Yet"
  end.

Record Employee := {
  id : Z;
  name : string;
  remainingVacationDays : Q;
  accumulatedFine : Z;
}.

(** What [getStatus] returns: [{ status, checkInTime?, comment? }]. *)
Record StatusInfo := {
  status : AttendanceStatus;
  checkInTime : option string;
  comment : option string;
}.

(** An element of an employee's [attendance] array.  The generator writes
    [date], [status] and [checkInTime]; the cells also read [comment],
    which an element may carry. *)
Record AttendanceEntry := {
  a_date : Date;
  a_status : AttendanceStatus;
  a_checkInTime : option string;
  a_comment : option string;
}.

(** An element of [attendanceData]: [{ ...employee, attendance }]. *)
Record EmployeeRow := {
  employee : Employee;
  attendance : list AttendanceEntry;
}.

Definition employees : list Employee := [
  {| id := 1; name := "John Doe"; remainingVacationDays := 3; accumulatedFine := 50000 |};
  {| id := 2; name := "Jane Smith"; remainingVacationDays := 5; accumulatedFine := 30000 |};
  {| id := 3; name := "Bob Johnson"; remainingVacationDays := 1; accumulatedFine := 75000 |}
].

Definition weekDaysOf (start end_ : Date) : list Date :=
  List.filter (fun day => negb (isWeekend day)) (eachDayOfInterval start end_).

Definition statuses : list AttendanceStatus :=
  [Present; Absent; Late; Vacation; OfficialLeave].

(** [getStatus] is a closure over [weekDays] and [today].  [weekDays[index]]
    is [undefined] past the end of the array, and [isBefore(undefined, today)]
    is [false] (the comparison of an invalid date).  [statuses[index % 5]]
    is always inside the array ([None] is never reached). *)
Definition getStatus (weekDays : list Date) (today : Date)
    (employeeId : Z) (index : nat) : StatusInfo :=
  let before :=
    match weekDays !! index with
    | Some date => isBefore date today
    | None => false
    end in
  if negb before then {| status := NotYet; checkInTime := None; comment := None |}
  else
    match employeeId with
    | 1 =>
        if (index mod 10 =? 0)%nat
        then {| status := Vacation; checkInTime := None; comment := None |}
        else {| status := Present; checkInTime := Some "09:40"; comment := None |}
    | 2 =>
        if (index mod 5 =? 0)%nat
        then {| status := Late; checkInTime := Some "10:15"; comment := None |}
        else {| status := Absent; checkInTime := None; comment := None |}
    | 3 =>
        match statuses !! (index mod 5)%nat with
        | Some Present => {| status := Present; checkInTime := Some "09:50"; comment := None |}
        | Some Late => {| status := Late; checkInTime := Some "10:15"; comment := None |}
        | Some status => {| status := status; checkInTime := None; comment := None |}
        | None => {| status := NotYet; checkInTime := None; comment := None |}
        end
    | _ => {| status := NotYet; checkInTime := None; comment := None |}
    end.

(** The object [{ date, status, checkInTime }] built for a day from the
    result of [getStatus] (its [comment] is not copied). *)
Definition entryOf (date : Date) (s : StatusInfo) : AttendanceEntry :=
  {| a_date := date; a_status := status s;
     a_checkInTime := checkInTime s; a_comment := None |}.

(** [fetchAttendanceData(start, end)]; [today] is the [new Date()] it reads. *)
Definition fetchAttendanceData (today : Date) (start end_ : Date) : list EmployeeRow :=
  let weekDays := weekDaysOf start end_ in
  (fun employee =>
     {| employee := employee;
        attendance :=
          imap (fun index date => entryOf date (getStatus weekDays today (id employee) index))
               weekDays |}) <$> employees.

(** The state slots of [AttendancePage]. *)
Record State := {
  attendanceData : list EmployeeRow;
  editDate : option Date;
  editEmployeeId : option Z;
  editStatus : AttendanceStatus;
  dateRange : DateRange;
  viewMode : ViewMode;
  isLoading : bool;
  showFines : gmap Z bool;
}.

Definition set_attendanceData (f : list EmployeeRow -> list EmployeeRow) (st : State) : State :=
  {| attendanceData := f (attendanceData st); editDate := editDate st;
     editEmployeeId := editEmployeeId st; editStatus := editStatus st;
     dateRange := dateRange st; viewMode := viewMode st;
     isLoading := isLoading st; showFines := showFines st |}.

Definition set_edit (d : option Date) (e : option Z) (s : AttendanceStatus) (st : State) : State :=
  {| attendanceData := attendanceData st; editDate := d;
     editEmployeeId := e; editStatus := s;
     dateRange := dateRange st; viewMode := viewMode st;
     isLoading := isLoading st; showFines := showFines st |}.

Definition set_view (m : ViewMode) (r : DateRange) (st : State) : State :=
  {| attendanceData := attendanceData st; editDate := editDate st;
     editEmployeeId := editEmployeeId st; editStatus := editStatus st;
     dateRange := r; viewMode := m;
     isLoading := isLoading st; showFines := showFines st |}.

Definition set_isLoading (b : bool) (st : State) : State :=
  {| attendanceData := attendanceData st; editDate := editDate st;
     editEmployeeId := editEmployeeId st; editStatus := editStatus st;
     dateRange := dateRange st; viewMode := viewMode st;
     isLoading := b; showFines := showFines st |}.

(** The effect that runs when [dateRange.from] or [dateRange.to] changes. *)
Definition loadEffect (today : Date) (st : State) : State :=
  let data := fetchAttendanceData today (from (dateRange st)) (to (dateRange st)) in
  set_isLoading false (set_attendanceData (fun _ => data) (set_isLoading true st)).

(** [handleViewModeChange(mode)]; [today] is the [new Date()] it reads. *)
Definition handleViewModeChange (today : Date) (mode : ViewMode) (st : State) : State :=
  let '(newFrom, newTo) :=
    match mode with
    | day => (today, today)
    | week => (startOfWeek today, endOfWeek today)
    | month => (startOfMonth today, endOfMonth today)
    | all => (subMonths today 12, today)
    end in
  set_view mode {| from := newFrom; to := newTo |} st.

Definition handleEdit (employeeId : Z) (date : Date) (status : AttendanceStatus)
    (st : State) : State :=
  if negb (AttendanceStatus_eqb status NotYet)
  then set_edit (Some date) (Some employeeId) status st
  else st.

(** [setEditStatus], called by the status selector of the dialog. *)
Definition setEditStatus (status : AttendanceStatus) (st : State) : State :=
  set_edit (editDate st) (editEmployeeId st) status st.

(** [editEmployeeId && editDate && editStatus]: a number is truthy unless it
    is 0, a [Date] object and a status string (never empty) always are. *)
Definition editGuard (st : State) : option (Z * Date) :=
  match editEmployeeId st, editDate st with
  | Some e, Some d => if e =? 0 then None else Some (e, d)
  | _, _ => None
  end.

Definition saveEdit (st : State) : State :=
  match editGuard st with
  | Some (editEmployeeId, editDate) =>
      set_edit None None Present
        (set_attendanceData
           (fun prevData =>
              (fun row =>
                 if id (employee row) =? editEmployeeId
                 then {| employee := employee row;
                         attendance :=
                           (fun a =>
                              if getTime (a_date a) =? getTime editDate
                              then {| a_date := a_date a; a_status := editStatus st;
                                      a_checkInTime := a_checkInTime a;
                                      a_comment := a_comment a |}
                              else a) <$> attendance row |}
                 else row) <$> prevData)
           st)
  | None => st
  end.

(** [Math.max] on numbers that are not [NaN].  Numbers are exact rationals
    here; the numbers of the source are floating-point numbers, on which the
    additions and comparisons below are exact for the multiples of one half
    below 2^51, the values that leave days take. *)
Definition Math_max (a b : Q) : Q := Qmax a b.

Definition handleVacationDayChange (employeeId : Z) (change : Q) (st : State) : State :=
  set_attendanceData
    (fun prevData =>
       (fun row =>
          if id (employee row) =? employeeId
          then {| employee :=
                    {| id := id (employee row); name := name (employee row);
                       remainingVacationDays :=
                         Math_max 0 (remainingVacationDays (employee row) + change);
                       accumulatedFine := accumulatedFine (employee row) |};
                  attendance := attendance row |}
          else row) <$> prevData)
    st.

(** [a < b] on numbers. *)
Definition lessThan (a b : Q) : bool := negb (Qle_bool b a).

(** The four leave-day buttons of a row: label, the change their click
    applies, and their [disabled] attribute. *)
Record VacationControl := {
  label : string;
  change : Q;
  disabled : bool;
}.

Definition vacationControls (row : EmployeeRow) : list VacationControl :=
  let balance := remainingVacationDays (employee row) in
  [ {| label := "+1"; change := 1; disabled := false |};
    {| label := "+0.5"; change := 1 # 2; disabled := false |};
    {| label := "-0.5"; change := - (1 # 2); disabled := lessThan balance (1 # 2) |};
    {| label := "-1"; change := - (1); disabled := lessThan balance 1 |} ].

(** The button of an attendance cell: its [disabled] attribute and the text
    fragments it shows. *)
Definition cellDisabled (a : AttendanceEntry) : bool :=
  AttendanceStatus_eqb (a_status a) NotYet.

Definition cellText (a : AttendanceEntry) : list string :=
  if AttendanceStatus_eqb (a_status a) NotYet then []
  else
    [statusText (a_status a)]
    ++ match a_checkInTime a with
       | Some t => if String.eqb t EmptyString then [] else ["(" +:+ t +:+ ")"]
       | None => []
       end
    ++ match a_status a, a_comment a with
       | OfficialLeave, Some c => if String.eqb c EmptyString then [] else ["(" +:+ c +:+ ")"]
       | _, _ => []
       end.

(** [{ status: "Not Yet" }]. *)
Definition notYetInfo : StatusInfo :=
  {| status := NotYet; checkInTime := None; comment := None |}.

Definition balance (row : EmployeeRow) : Q := remainingVacationDays (employee row).

(** The initial values of the state slots; [now] is the [new Date()] of the
    first render. *)
Definition initialState (now : Date) : State :=
  {| attendanceData := []; editDate := None; editEmployeeId := None;
     editStatus := Present; dateRange := {| from := now; to := now |};
     viewMode := week; isLoading := true; showFines := ∅ |}.

(** Sample data: the page on Wednesday 6 March 2024 at 10:30, showing the
    week, then with the dialog open on the cell of employee 1 for Tuesday
    5 March (status Present) and Absent selected. *)
Definition sampleToday : Date := mkDate 2024 2 6 10 30 0 0.

Definition sampleLoaded : State :=
  loadEffect sampleToday (handleViewModeChange sampleToday week (initialState sampleToday)).

Definition sampleEditing : State :=
  setEditStatus Absent (handleEdit 1 (mkDate 2024 2 5 0 0 0 0) Present sampleLoaded).

(** *** The rest of the page *)

Definition getStatusColor (status : AttendanceStatus) : string :=
  match status with
  | Present => "bg-green-100 hover:bg-green-200"
  | Absent => "bg-red-100 hover:bg-red-200"
  | Vacation => "bg-blue-100 hover:bg-blue-200"
  | Late => "bg-yellow-100 hover:bg-yellow-200"
  | OfficialLeave => "bg-purple-100 hover:bg-purple-200"
  | NotYet => "bg-black text-white hover:bg-gray-800"
  end.

Definition set_showFines (m : gmap Z bool) (st : State) : State :=
  {| attendanceData := attendanceData st; editDate := editDate st;
     editEmployeeId := editEmployeeId st; editStatus := editStatus st;
     dateRange := dateRange st; viewMode := viewMode st;
     isLoading := isLoading st; showFines := m |}.

(** [showFines[employeeId]] read as a condition: a key that is absent gives
    [undefined], which is falsy. *)
Definition fineShown (st : State) (employeeId : Z) : bool :=
  default false (showFines st !! employeeId).

(** [setShowFines((prev) => ({ ...prev, [employeeId]: !prev[employeeId] }))]. *)
Definition toggleFine (employeeId : Z) (st : State) : State :=
  set_showFines (<[employeeId := negb (fineShown st employeeId)]> (showFines st)) st.

(** The dates of the header cells:
    [attendanceData[0]?.attendance.map((a) => a.date)], nothing when there is
    no first row. *)
Definition headerDates (st : State) : list Date :=
  match attendanceData st !! 0%nat with
  | Some row => a_date <$> attendance row
  | None => []
  end.

(** The click on the button of a cell: [handleEdit(employee.id, a.date, a.status)]. *)
Definition cellClick (row : EmployeeRow) (a : AttendanceEntry) (st : State) : State :=
  handleEdit (id (employee row)) (a_date a) (a_status a) st.

End Page.

(** ** [src/app/tmp.tsx]: the page over the remote API *)
Module Tmp.

Inductive AttendanceStatus :=
| PRESENT | ABSENT | VACATION | LATE | OFFICIAL_LEAVE | NOT_YET.

Definition statusText (s : AttendanceStatus) : string :=
  match s with
  | PRESENT => "PRESENT"
  | ABSENT => "ABSENT"
  | VACATION => "VACATION"
  | LATE => "LATE"
  | OFFICIAL_LEAVE => "OFFICIAL_LEAVE"
  | NOT_YET => "NOT_YET"
  end.

Record Employee := {
  id : Z;
  name : string;
  remainingLeaveDays : Q;
  latePenaltyPoints : Z;
}.

Record AttendanceRecord := {
  attendanceDate : string;
  status : AttendanceStatus;
  time : option string;
  comment : option string;
}.

(** The state slots of [AttendancePage]; [attendanceData] is an object used
    as a map from employee id to records. *)
Record State := {
  employees : list Employee;
  attendanceData : gmap Z (list AttendanceRecord);
  editDate : option string;
  editEmployeeId : option Z;
  editStatus : AttendanceStatus;
  editTime : string;
  editComment : string;
  dateRange : DateRange;
  viewMode : ViewMode;
  isLoading : bool;
  showPenalties : gmap Z bool;
}.

Definition set_attendanceData (m : gmap Z (list AttendanceRecord)) (st : State) : State :=
  {| employees := employees st; attendanceData := m;
     editDate := editDate st; editEmployeeId := editEmployeeId st;
     editStatus := editStatus st; editTime := editTime st;
     editComment := editComment st; dateRange := dateRange st;
     viewMode := viewMode st; isLoading := isLoading st;
     showPenalties := showPenalties st |}.

Definition set_isLoading (b : bool) (st : State) : State :=
  {| employees := employees st; attendanceData := attendanceData st;
     editDate := editDate st; editEmployeeId := editEmployeeId st;
     editStatus := editStatus st; editTime := editTime st;
     editComment := editComment st; dateRange := dateRange st;
     viewMode := viewMode st; isLoading := b;
     showPenalties := showPenalties st |}.

Definition set_edit (d : option string) (e : option Z) (s : AttendanceStatus)
    (t c : string) (st : State) : State :=
  {| employees := employees st; attendanceData := attendanceData st;
     editDate := d; editEmployeeId := e;
     editStatus := s; editTime := t;
     editComment := c; dateRange := dateRange st;
     viewMode := viewMode st; isLoading := isLoading st;
     showPenalties := showPenalties st |}.

Definition set_view (m : ViewMode) (r : DateRange) (st : State) : State :=
  {| employees := employees st; attendanceData := attendanceData st;
     editDate := editDate st; editEmployeeId := editEmployeeId st;
     editStatus := editStatus st; editTime := editTime st;
     editComment := editComment st; dateRange := r;
     viewMode := m; isLoading := isLoading st;
     showPenalties := showPenalties st |}.

(** What the page reaches with [fetch]: the value of
    [process.env.API_BASE_URL], the records endpoint (by URL) and the
    attendance write route [/api/attendance] (by request body).  During one
    load the records endpoint gives one answer per URL. *)
Record World := {
  API_BASE_URL : string;
  getRecords : string -> Settled (Response (list AttendanceRecord));
  putAttendance : string -> Settled (Response JSON);
}.

Definition recordsUrl (w : World) (range : DateRange) (employee : Employee) : string :=
  API_BASE_URL w +:+ "/attendance/records?userId=" +:+ string_of_Z (id employee)
  +:+ "&startDate=" +:+ format_yyyy_MM_dd (from range)
  +:+ "&endDate=" +:+ format_yyyy_MM_dd (to range).

Definition recordsRequest (w : World) (range : DateRange) (employee : Employee) : Request :=
  {| url := recordsUrl w range employee; method := "GET"; headers := []; body := None |}.

(** One element of [promises]:
    [fetch(url).then(response => { if (!response.ok) throw ...; return response.json() }).then(data => ({ [employee.id]: data }))]. *)
Definition fetchRecords (w : World) (range : DateRange) (employee : Employee)
    : Settled (gmap Z (list AttendanceRecord)) :=
  match getRecords w (recordsUrl w range employee) with
  | Rejected e => Rejected e
  | Fulfilled response =>
      if negb (ok response) then Rejected (Error "Failed to fetch attendance data")
      else
        match json response with
        | Rejected e => Rejected e
        | Fulfilled data => Fulfilled {[ id employee := data ]}
        end
  end.

(** [Object.assign(target, ...sources)]: the properties of each source are
    copied in turn, a later source overwriting an earlier one. *)
Definition Object_assign (target : gmap Z (list AttendanceRecord))
    (sources : list (gmap Z (list AttendanceRecord))) : gmap Z (list AttendanceRecord) :=
  foldl (fun acc source => source ∪ acc) target sources.

(** [fetchAttendanceData()], run to completion: the events and the state
    once every promise has settled.  All requests are issued before any
    result is awaited. *)
Definition fetchAttendanceData (w : World) (st : State) : list Event * State :=
  let st1 := set_isLoading true st in
  let requests := (fun employee => Fetched (recordsRequest w (dateRange st) employee)) <$> employees st in
  let promises := fetchRecords w (dateRange st) <$> employees st in
  match Promise_all promises with
  | Fulfilled results =>
      let combinedData := Object_assign ∅ results in
      (requests, set_isLoading false (set_attendanceData combinedData st1))
  | Rejected error =>
      (requests ++ [ConsoleError "Error fetching attendance data:" error],
       set_isLoading false st1)
  end.

Definition handleViewModeChange (today : Date) (mode : ViewMode) (st : State) : State :=
  let '(newFrom, newTo) :=
    match mode with
    | day => (today, today)
    | week => (startOfWeek today, endOfWeek today)
    | month => (startOfMonth today, endOfMonth today)
    | all => (subMonths today 12, today)
    end in
  set_view mode {| from := newFrom; to := newTo |} st.

(** The default of [time] and of [comment] when absent: the empty string. *)
Definition orEmpty (o : option string) : string :=
  match o with Some s => s | None => EmptyString end.

Definition handleEdit (employeeId : Z) (date : string) (status : AttendanceStatus)
    (time comment : option string) (st : State) : State :=
  set_edit (Some date) (Some employeeId) status (orEmpty time) (orEmpty comment) st.

(** [editEmployeeId && editDate && editStatus]: a number is truthy unless it
    is 0, a string unless it is empty (a status never is). *)
Definition editGuard (st : State) : option (Z * string) :=
  match editEmployeeId st, editDate st with
  | Some e, Some d =>
      if (e =? 0) || String.eqb d EmptyString then None else Some (e, d)
  | _, _ => None
  end.

Definition requestBody (editEmployeeId : Z) (editDate : string) (st : State) : JSON :=
  JObject [ ("userId", JNumber editEmployeeId);
            ("attendanceDate", JString editDate);
            ("status", JString (statusText (editStatus st)));
            ("comment", JString (editComment st));
            ("time", JString (editTime st)) ].

Definition putRequest (requestBody : JSON) : Request :=
  {| url := "/api/attendance"; method := "PUT";
     headers := [("Content-Type", "application/json")];
     body := Some (stringify requestBody) |}.

(** The [catch] block of [saveEdit]. *)
Definition saveEdit_catch (error : JSError) : list Event :=
  [ ConsoleError "Error updating attendance:" error;
    Alert ("Failed to update attendance: " +:+ errorToString error) ].

(** [saveEdit()], run to completion ([fetchAttendanceData()] is started,
    not awaited; it works on the state slots of the render [saveEdit]
    belongs to, and the slots it sets are not those of the edit session). *)
Definition saveEdit (w : World) (st : State) : list Event * State :=
  match editGuard st with
  | Some (editEmployeeId, editDate) =>
      let requestBody := requestBody editEmployeeId editDate st in
      let sent := [ConsoleLog "Request body:"; Fetched (putRequest requestBody)] in
      match putAttendance w (stringify requestBody) with
      | Rejected error => (sent ++ saveEdit_catch error, st)
      | Fulfilled response =>
          if negb (ok response) then
            match text response with
            | Rejected error => (sent ++ saveEdit_catch error, st)
            | Fulfilled errorText =>
                (sent ++ saveEdit_catch
                   (Error ("HTTP error! status: " +:+ string_of_Z (Fetch.status response)
                           +:+ ", message: " +:+ errorText)),
                 st)
            end
          else
            match json response with
            | Rejected error => (sent ++ saveEdit_catch error, st)
            | Fulfilled data =>
                let '(events, st1) := fetchAttendanceData w st in
                (sent ++ [ConsoleLog "Server response:"] ++ events,
                 set_edit None None PRESENT EmptyString EmptyString st1)
            end
      end
  | None => ([], st)
  end.

Definition dateRangeArray (st : State) : list Date :=
  List.filter (fun date => negb (isWeekend date))
              (eachDayOfInterval (from (dateRange st)) (to (dateRange st))).

(** A [fetch] event whose method is PUT. *)
Definition isPut (e : Event) : bool :=
  match e with
  | Fetched r => String.eqb (method r) "PUT"
  | _ => false
  end.

(** A text between quotation marks. *)
Definition quoted (s : string) : string := doubleQuote +:+ s +:+ doubleQuote.

(** The body of the scenario of employee 2 on 2024-03-05, character by
    character: an object with the members userId (the number 2),
    attendanceDate, status, comment and time (the empty string), in this
    order, without any space. *)

Definition scenarioBody : string :=
  "{" +:+ quoted "userId" +:+ ":2,"
  +:+ quoted "attendanceDate" +:+ ":" +:+ quoted "2024-03-05" +:+ ","
  +:+ quoted "status" +:+ ":" +:+ quoted "OFFICIAL_LEAVE" +:+ ","
  +:+ quoted "comment" +:+ ":" +:+ quoted "medical" +:+ ","
  +:+ quoted "time" +:+ ":" +:+ quoted EmptyString +:+ "}".

(** Sample data: two employees, the week of Wednesday 6 March 2024, a
    records endpoint that answers 500 for employee 2 and one record for
    anybody else, and a write route that answers 200. *)
Definition sampleEmployees : list Employee :=
  [ {| id := 1; name := "John Doe"; remainingLeaveDays := 3; latePenaltyPoints := 0 |};
    {| id := 2; name := "Jane Smith"; remainingLeaveDays := 5; latePenaltyPoints := 1 |} ].

Definition sampleRecords : list AttendanceRecord :=
  [ {| attendanceDate := "2024-03-05"; status := PRESENT; time := Some "09:40"; comment := None |} ].

Definition sampleWorld : World :=
  {| API_BASE_URL := "http://api";
     getRecords := fun url =>
       if String.eqb url "http://api/attendance/records?userId=2&startDate=2024-03-03&endDate=2024-03-09"
       then Fulfilled {| Fetch.status := 500; contentType := Some "text/plain";
                         json := Rejected (SyntaxError "Unexpected token");
                         text := Fulfilled "Internal Server Error" |}
       else Fulfilled {| Fetch.status := 200; contentType := Some "application/json";
                         json := Fulfilled sampleRecords;
                         text := Fulfilled "[...]" |};
     putAttendance := fun _ =>
       Fulfilled {| Fetch.status := 200; contentType := Some "application/json";
                    json := Fulfilled (JObject [("message", JString "updated")]);
                    text := Fulfilled "{...}" |} |}.

Definition sampleState : State :=
  {| employees := sampleEmployees; attendanceData := ∅;
     editDate := Some "2024-03-05"; editEmployeeId := Some 2;
     editStatus := OFFICIAL_LEAVE; editTime := EmptyString; editComment := "medical";
     dateRange := {| from := startOfWeek (mkDate 2024 2 6 10 30 0 0);
                     to := endOfWeek (mkDate 2024 2 6 10 30 0 0) |};
     viewMode := week; isLoading := false; showPenalties := ∅ |}.

(** The same week once the server has the edit of the scenario: every fetch
    succeeds, and the records of employee 2 hold the day that was saved. *)
Definition savedRecords : list AttendanceRecord :=
  [ {| attendanceDate := "2024-03-05"; status := OFFICIAL_LEAVE;
       time := None; comment := Some "medical" |} ].

Definition savedWorld : World :=
  {| API_BASE_URL := "http://api";
     getRecords := fun url =>
       Fulfilled {| Fetch.status := 200; contentType := Some "application/json";
                    json := Fulfilled
                      (if String.eqb url "http://api/attendance/records?userId=2&startDate=2024-03-03&endDate=2024-03-09"
                       then savedRecords else sampleRecords);
                    text := Fulfilled "[...]" |};
     putAttendance := putAttendance sampleWorld |}.

(** *** The rest of the page *)

Definition getStatusColor (status : AttendanceStatus) : string :=
  match status with
  | PRESENT => "bg-green-100 hover:bg-green-200"
  | ABSENT => "bg-red-100 hover:bg-red-200"
  | VACATION => "bg-blue-100 hover:bg-blue-200"
  | LATE => "bg-yellow-100 hover:bg-yellow-200"
  | OFFICIAL_LEAVE => "bg-purple-100 hover:bg-purple-200"
  | NOT_YET => "bg-gray-100 hover:bg-gray-200"
  end.

Definition set_employees (l : list Employee) (st : State) : State :=
  {| employees := l; attendanceData := attendanceData st;
     editDate := editDate st; editEmployeeId := editEmployeeId st;
     editStatus := editStatus st; editTime := editTime st;
     editComment := editComment st; dateRange := dateRange st;
     viewMode := viewMode st; isLoading := isLoading st;
     showPenalties := showPenalties st |}.

Definition set_showPenalties (m : gmap Z bool) (st : State) : State :=
  {| employees := employees st; attendanceData := attendanceData st;
     editDate := editDate st; editEmployeeId := editEmployeeId st;
     editStatus := editStatus st; editTime := editTime st;
     editComment := editComment st; dateRange := dateRange st;
     viewMode := viewMode st; isLoading := isLoading st;
     showPenalties := m |}.

(** [showPenalties[employeeId]] read as a condition. *)
Definition penaltyShown (st : State) (employeeId : Z) : bool :=
  default false (showPenalties st !! employeeId).

(** [setShowPenalties((prev) => ({ ...prev, [employeeId]: !prev[employeeId] }))]. *)
Definition togglePenalty (employeeId : Z) (st : State) : State :=
  set_showPenalties (<[employeeId := negb (penaltyShown st employeeId)]> (showPenalties st)) st.

(** The initial values of the state slots; [now] is the [new Date()] of the
    first render. *)
Definition initialState (now : Date) : State :=
  {| employees := []; attendanceData := ∅;
     editDate := None; editEmployeeId := None;
     editStatus := PRESENT; editTime := EmptyString; editComment := EmptyString;
     dateRange := {| from := startOfWeek now; to := endOfWeek now |};
     viewMode := week; isLoading := true; showPenalties := ∅ |}.

Definition usersRequest (w : World) : Request :=
  {| url := API_BASE_URL w +:+ "/users"; method := "GET"; headers := []; body := None |}.

(** [fetchEmployees()], run to completion; [users] is what the [fetch] of
    the users endpoint settles with. *)
Definition fetchEmployees (users : Settled (Response (list Employee)))
    (w : World) (st : State) : list Event * State :=
  let failed error :=
    ([Fetched (usersRequest w); ConsoleError "Error fetching employees:" error], st) in
  match users with
  | Rejected error => failed error
  | Fulfilled response =>
      if negb (ok response) then failed (Error "Failed to fetch employees")
      else
        match json response with
        | Rejected error => failed error
        | Fulfilled data => ([Fetched (usersRequest w)], set_employees data st)
        end
  end.

(** The effect of the page, [fetchEmployees(); fetchAttendanceData()], which
    runs after the first render and when [dateRange] or [viewMode] changes.
    Both functions belong to the render that started the effect: they read
    the state slots of [st].  They set different slots, so the state once
    both have settled does not depend on which settles first; their events
    are kept apart. *)
Definition effect (users : Settled (Response (list Employee)))
    (w : World) (st : State) : (list Event * list Event) * State :=
  let '(events1, st1) := fetchEmployees users w st in
  let '(events2, st2) := fetchAttendanceData w st in
  ((events1, events2),
   set_isLoading (isLoading st2) (set_attendanceData (attendanceData st2) st1)).

(** The record of a cell:
    [attendanceData[employee.id]?.find((r) => r.attendanceDate === format(date, "yyyy-MM-dd")) || { status: "NOT_YET" }]. *)
Inductive CellRecord :=
| Found (record : AttendanceRecord)
| Placeholder.

Definition cellRecord (st : State) (employee : Employee) (date : Date) : CellRecord :=
  match attendanceData st !! id employee with
  | Some records =>
      match List.find (fun r => String.eqb (attendanceDate r) (format_yyyy_MM_dd date)) records with
      | Some r => Found r
      | None => Placeholder
      end
  | None => Placeholder
  end.

Definition cellStatus (c : CellRecord) : AttendanceStatus :=
  match c with Found r => status r | Placeholder => NOT_YET end.

(** ["time" in record ? record.time : undefined], and the same for the comment. *)
Definition cellTime (c : CellRecord) : option string :=
  match c with Found r => time r | Placeholder => None end.

Definition cellComment (c : CellRecord) : option string :=
  match c with Found r => comment r | Placeholder => None end.

(** The click on the button of a cell (the button is never disabled). *)
Definition cellClick (employee : Employee) (date : Date) (st : State) : State :=
  let record := cellRecord st employee date in
  handleEdit (id employee) (format_yyyy_MM_dd date)
             (cellStatus record) (cellTime record) (cellComment record) st.

Definition vacationRequest (w : World) (employeeId : Z) (body : string) : Request :=
  {| url := API_BASE_URL w +:+ "/attendance/" +:+ string_of_Z employeeId +:+ "/vacation-days";
     method := "PUT"; headers := [("Content-Type", "application/json")];
     body := Some body |}.

(** [handleVacationDayChange(employeeId, change)], run to completion.
    [numberText] is the text [JSON.stringify] writes for a number;
    [answer] is what the [fetch] of the vacation-days endpoint settles with
    and [users] what the [fetch] of the users endpoint does when the
    employees are fetched again. *)
Definition handleVacationDayChange (numberText : Q -> string)
    (answer : Settled (Response JSON)) (users : Settled (Response (list Employee)))
    (w : World) (employeeId : Z) (change : Q) (st : State) : list Event * State :=
  let request :=
    vacationRequest w employeeId
      ("{" +:+ quoted "change" +:+ ":" +:+ numberText change +:+ "}") in
  let failed error :=
    ([Fetched request; ConsoleError "Error updating vacation days:" error], st) in
  match answer with
  | Rejected error => failed error
  | Fulfilled response =>
      if negb (ok response) then failed (Error "Failed to update vacation days")
      else
        let '(events, st1) := fetchEmployees users w st in
        (Fetched request :: events, st1)
  end.

End Tmp.

(** ** The API route [handler] (second part of [src/app/page.tsx]) *)
Module Proxy.

Record NextApiRequest := {
  req_method : string;
  req_body : JSON;
}.

Inductive Sent :=
| SentJson (data : JSON)
| SentText (text : string).

(** What [res] has been given when the handler returns. *)
Record NextApiResponse := {
  statusCode : Z;
  res_headers : list (string * list string);
  sent : Sent;
}.

Definition upstreamRequest (API_BASE_URL : string) (req : NextApiRequest) : Request :=
  {| url := API_BASE_URL +:+ "/attendance"; method := "PUT";
     headers := [("Content-Type", "application/json")];
     body := Some (stringify (req_body req)) |}.

(** [contentType && contentType.indexOf("application/json") !== -1]. *)
Definition isJson (contentType : option string) : bool :=
  match contentType with
  | Some ct =>
      negb (String.eqb ct EmptyString)
      && match String.index 0 "application/json" ct with Some _ => true | None => false end
  | None => false
  end.

(** [res.status(500).json({ message: "Failed to update attendance", error: error })].
    [res.json] serializes [error]: an [Error] object has no enumerable
    property of its own and is written as an empty object. *)
Definition errorResponse : NextApiResponse :=
  {| statusCode := 500; res_headers := [];
     sent := SentJson (JObject [ ("message", JString "Failed to update attendance");
                                 ("error", JObject []) ]) |}.

(** The [catch] block. *)
Definition handler_catch (error : JSError) : list Event * NextApiResponse :=
  ([ConsoleError "Error updating attendance:" error], errorResponse).

Definition prepend (events : list Event) (r : list Event * NextApiResponse)
    : list Event * NextApiResponse :=
  (events ++ r.1, r.2).

(** [handler(req, res)]; [API_BASE_URL] is [process.env.API_BASE_URL] and
    [upstream] answers the [fetch] of the handler. *)
Definition handler (API_BASE_URL : string)
    (upstream : Request -> Settled (Response JSON))
    (req : NextApiRequest) : list Event * NextApiResponse :=
  if String.eqb (req_method req) "PUT" then
    let request := upstreamRequest API_BASE_URL req in
    prepend [Fetched request]
      match upstream request with
      | Rejected error => handler_catch error
      | Fulfilled response =>
          if negb (ok response) then
            handler_catch (Error ("HTTP error! status: " +:+ string_of_Z (status response)))
          else if isJson (contentType response) then
            match json response with
            | Rejected error => handler_catch error
            | Fulfilled data =>
                ([], {| statusCode := 200; res_headers := []; sent := SentJson data |})
            end
          else
            match text response with
            | Rejected error => handler_catch error
            | Fulfilled text =>
                ([], {| statusCode := 200; res_headers := [];
                        sent := SentJson (JObject [("message", JString text)]) |})
            end
      end
  else
    ([], {| statusCode := 405; res_headers := [("Allow", ["PUT"])];
            sent := SentText ("Method " +:+ req_method req +:+ " Not Allowed") |}).

(** What failing means for the exchange with the upstream service: the
    [fetch] rejects, the response is not 2xx, or reading the body of a 2xx
    response (as JSON when the content type says so, as text otherwise)
    rejects. *)
Definition upstreamFailure (outcome : Settled (Response JSON)) : bool :=
  match outcome with
  | Rejected _ => true
  | Fulfilled response =>
      if negb (ok response) then true
      else if isJson (contentType response)
           then match json response with Rejected _ => true | Fulfilled _ => false end
           else match text response with Rejected _ => true | Fulfilled _ => false end
  end.

(** From Next.js, which calls the handler: [req.body] is not the text that
    was received but what the body parser of the framework made of it.  For
    a request of content type [application/json] this is [parseJson]: an
    empty text gives an empty object and any other text is read by
    [JSON.parse] (for a text that [JSON.parse] refuses, the framework
    answers 400 and the handler is not called).  [None] is that case, or a
    text with a value that [JSON] does not model. *)
Definition parseJson (str : string) : option JSON :=
  if String.eqb str EmptyString then Some (JObject []) else JSON_parse str.

(** The request the handler is called with, for a request of content type
    [application/json] that arrived with this method and this text as its
    body. *)
Definition apiRequest (method text : string) : option NextApiRequest :=
  match parseJson text with
  | Some body => Some {| req_method := method; req_body := body |}
  | None => None
  end.

(** A request whose body is written with a space after the colon. *)
Definition spacedBody : string := "{" +:+ Tmp.quoted "userId" +:+ ": 2}".

(** What is relayed from a 2xx response: its JSON, or its text wrapped in
    [{ message }]. *)
Definition relayed (response : Response JSON) : option JSON :=
  if isJson (contentType response)
  then match json response with Fulfilled data => Some data | Rejected _ => None end
  else match text response with
       | Fulfilled t => Some (JObject [("message", JString t)])
       | Rejected _ => None
       end.

End Proxy.

(** Linear arithmetic with the divisions and remainders by constants turned
    into their defining equations. *)
Ltac dlia := unfold msPerDay in *; Z.div_mod_to_equations; lia.

Ltac case_leap :=
  repeat match goal with
         | |- context [negb (?a =? ?b)] => destruct (Z.eqb_spec a b); cbn [negb]
         end.

Lemma DayFromYear_succ (y : Z) : DayFromYear (y + 1) = DayFromYear y + DaysInYear y.
Proof. unfold DayFromYear, DaysInYear. case_leap; dlia. Qed.

Lemma DaysInYear_cases (y : Z) : DaysInYear y = 365 \/ DaysInYear y = 366.
Proof. unfold DaysInYear. case_leap; lia. Qed.

Lemma yearFromDay_spec (d : Z) :
  DayFromYear (yearFromDay d) <= d < DayFromYear (yearFromDay d + 1).
Proof.
  unfold yearFromDay.
  set (y := 1970 + 400 * d / 146097).
  destruct (Z.ltb_spec d (DayFromYear y)) as [H1|H1].
  - replace (y - 1 + 1) with y by lia. split; [|lia].
    unfold DayFromYear in *. subst y. dlia.
  - destruct (Z.leb_spec (DayFromYear (y + 1)) d) as [H2|H2]; [|lia].
    split; [lia|].
    unfold DayFromYear in *. subst y. dlia.
Qed.

(** ** Calendar facts *)

Lemma TimeWithinDay_bounds (t : Date) : 0 <= TimeWithinDay t < msPerDay.
Proof. unfold TimeWithinDay. dlia. Qed.

Lemma Day_MakeDate (d time : Z) : 0 <= time < msPerDay -> Day (MakeDate d time) = d.
Proof. unfold Day, MakeDate. intros H. dlia. Qed.

Lemma TimeWithinDay_MakeDate (d time : Z) :
  0 <= time < msPerDay -> TimeWithinDay (MakeDate d time) = time.
Proof. unfold TimeWithinDay, MakeDate. intros H. dlia. Qed.

Lemma MakeDate_Day (t : Date) : MakeDate (Day t) (TimeWithinDay t) = t.
Proof. unfold MakeDate, Day, TimeWithinDay. dlia. Qed.

Lemma DayFromYear_mono (a b : Z) : a <= b -> DayFromYear a <= DayFromYear b.
Proof. unfold DayFromYear. intros H. dlia. Qed.

(** [YearFromTime t] is the largest year that starts on or before [t]. *)
Lemma YearFromTime_largest (t : Date) :
  DayFromYear (YearFromTime t) <= Day t
  /\ forall y, DayFromYear y <= Day t -> y <= YearFromTime t.
Proof.
  unfold YearFromTime. pose proof (yearFromDay_spec (Day t)) as Hs.
  split; [lia|]. intros y Hy.
  destruct (Z.le_gt_cases y (yearFromDay (Day t))) as [H|H]; [exact H|].
  pose proof (DayFromYear_mono (yearFromDay (Day t) + 1) y ltac:(lia)). lia.
Qed.

Lemma yearFromDay_unique (y d : Z) :
  DayFromYear y <= d < DayFromYear (y + 1) -> yearFromDay d = y.
Proof.
  intros H. pose proof (yearFromDay_spec d) as Hs.
  destruct (Z.lt_trichotomy (yearFromDay d) y) as [Hlt|[Heq|Hgt]]; [|exact Heq|].
  - pose proof (DayFromYear_mono (yearFromDay d + 1) y ltac:(lia)). lia.
  - pose proof (DayFromYear_mono (y + 1) (yearFromDay d) ltac:(lia)). lia.
Qed.

Lemma leapDay_cases (y : Z) :
  (leapDay y = 0 /\ DaysInYear y = 365) \/ (leapDay y = 1 /\ DaysInYear y = 366).
Proof. unfold leapDay. destruct (DaysInYear_cases y) as [-> | ->]; cbn; auto. Qed.

Lemma DayWithinYear_bounds (t : Date) :
  0 <= DayWithinYear t < 365 + InLeapYear t.
Proof.
  unfold DayWithinYear, InLeapYear, YearFromTime.
  pose proof (yearFromDay_spec (Day t)) as Hs.
  rewrite DayFromYear_succ in Hs.
  destruct (leapDay_cases (yearFromDay (Day t))) as [[-> E]|[-> E]]; lia.
Qed.

Ltac case_ltb :=
  repeat match goal with
         | |- context [?a <? ?b] => destruct (Z.ltb_spec a b)
         end.

Lemma month_bounds (leap dwy : Z) :
  0 <= leap <= 1 -> 0 <= dwy < 365 + leap ->
  let m := monthFromDayWithinYear leap dwy in
  0 <= m <= 11
  /\ daysBeforeMonth leap m <= dwy < daysBeforeMonth leap m + daysInMonth leap m.
Proof.
  intros Hl Hd. unfold monthFromDayWithinYear. case_ltb; cbn; lia.
Qed.

Lemma month_of_offset (leap m k : Z) :
  0 <= leap <= 1 -> 0 <= m <= 11 -> 0 <= k < daysInMonth leap m ->
  monthFromDayWithinYear leap (daysBeforeMonth leap m + k) = m.
Proof.
  intros Hl Hm Hk.
  assert (Hc : m = 0 \/ m = 1 \/ m = 2 \/ m = 3 \/ m = 4 \/ m = 5 \/ m = 6
               \/ m = 7 \/ m = 8 \/ m = 9 \/ m = 10 \/ m = 11) by lia.
  unfold monthFromDayWithinYear.
  repeat (destruct Hc as [-> | Hc]); try subst m; cbn in Hk |- *; case_ltb; lia.
Qed.

(** The year, month, day of the month and time of day of the time value made
    from them. *)
Lemma civil_MakeDate (y m dt time : Z) :
  0 <= m <= 11 -> 1 <= dt <= daysInMonth (leapDay y) m -> 0 <= time < msPerDay ->
  let t := MakeDate (MakeDay y m dt) time in
  YearFromTime t = y /\ MonthFromTime t = m /\ DateFromTime t = dt
  /\ TimeWithinDay t = time.
Proof.
  intros Hm Hdt Htime t.
  assert (Hday : Day t = DayFromYear y + daysBeforeMonth (leapDay y) m + dt - 1).
  { subst t. rewrite Day_MakeDate by assumption. unfold MakeDay.
    replace (m / 12) with 0 by dlia. replace (m mod 12) with m by dlia.
    rewrite Z.add_0_r. reflexivity. }
  assert (Hleap : 0 <= leapDay y <= 1) by (destruct (leapDay_cases y) as [[-> _]|[-> _]]; lia).
  assert (Hoff : 0 <= daysBeforeMonth (leapDay y) m + dt - 1 < DaysInYear y).
  { assert (Hc : m = 0 \/ m = 1 \/ m = 2 \/ m = 3 \/ m = 4 \/ m = 5 \/ m = 6
                 \/ m = 7 \/ m = 8 \/ m = 9 \/ m = 10 \/ m = 11) by lia.
    destruct (leapDay_cases y) as [[E1 E2]|[E1 E2]]; rewrite E1 in *; rewrite E2;
      repeat (destruct Hc as [-> | Hc]); try subst m; cbn in Hdt |- *; lia. }
  assert (Hy : YearFromTime t = y).
  { unfold YearFromTime. apply yearFromDay_unique. rewrite DayFromYear_succ. lia. }
  assert (Hmo : MonthFromTime t = m).
  { unfold MonthFromTime, InLeapYear, DayWithinYear. rewrite Hy, Hday.
    replace (DayFromYear y + daysBeforeMonth (leapDay y) m + dt - 1 - DayFromYear y)
      with (daysBeforeMonth (leapDay y) m + (dt - 1)) by lia.
    apply month_of_offset; lia. }
  split; [exact Hy|]. split; [exact Hmo|]. split.
  - unfold DateFromTime. rewrite Hmo. unfold InLeapYear, DayWithinYear. rewrite Hy, Hday. lia.
  - subst t. apply TimeWithinDay_MakeDate. assumption.
Qed.

(** Every time value is made from its own year, month, day and time of day. *)
Lemma civil_fields (t : Date) :
  0 <= MonthFromTime t <= 11
  /\ 1 <= DateFromTime t <= daysInMonth (InLeapYear t) (MonthFromTime t)
  /\ Day t = MakeDay (YearFromTime t) (MonthFromTime t) (DateFromTime t).
Proof.
  pose proof (DayWithinYear_bounds t) as Hb.
  assert (Hl : 0 <= InLeapYear t <= 1).
  { unfold InLeapYear. destruct (leapDay_cases (YearFromTime t)) as [[-> _]|[-> _]]; lia. }
  pose proof (month_bounds (InLeapYear t) (DayWithinYear t) Hl Hb) as [Hm Hd].
  fold (MonthFromTime t) in Hm, Hd.
  split; [exact Hm|]. unfold DateFromTime. split; [lia|].
  unfold MakeDay. replace (MonthFromTime t / 12) with 0 by dlia.
  replace (MonthFromTime t mod 12) with (MonthFromTime t) by dlia.
  rewrite Z.add_0_r. fold (InLeapYear t). unfold DayWithinYear. lia.
Qed.

Lemma MakeDay_own (t : Date) (dt : Z) :
  MakeDay (YearFromTime t) (MonthFromTime t) dt = Day t + dt - DateFromTime t.
Proof.
  destruct (civil_fields t) as (_ & _ & ->). unfold MakeDay. lia.
Qed.

Lemma setDate_shift (t : Date) (dt : Z) :
  setDate t dt = t + (dt - getDate t) * msPerDay.
Proof.
  unfold setDate, getDate. rewrite MakeDay_own.
  rewrite <- (MakeDate_Day t) at 4. unfold MakeDate. lia.
Qed.

Lemma WeekDay_bounds (t : Date) : 0 <= WeekDay t < 7.
Proof. unfold WeekDay. dlia. Qed.

Lemma Day_shift (t k : Z) : Day (t + k * msPerDay) = Day t + k.
Proof. unfold Day. dlia. Qed.

Lemma setHours_midnight (t : Date) : setHours t 0 0 0 0 = MakeDate (Day t) 0.
Proof. reflexivity. Qed.

Lemma setHours_last (t : Date) : setHours t 23 59 59 999 = MakeDate (Day t) (msPerDay - 1).
Proof. reflexivity. Qed.

Lemma startOfWeek_eq (t : Date) : startOfWeek t = MakeDate (Day t - WeekDay t) 0.
Proof.
  unfold startOfWeek, weekStartsOn, getDay. pose proof (WeekDay_bounds t) as Hw.
  destruct (Z.ltb_spec (WeekDay t) 0); [lia|].
  rewrite setHours_midnight, setDate_shift.
  rewrite Day_shift. f_equal. lia.
Qed.

Lemma endOfWeek_eq (t : Date) : endOfWeek t = MakeDate (Day t + 6 - WeekDay t) (msPerDay - 1).
Proof.
  unfold endOfWeek, weekStartsOn, getDay. pose proof (WeekDay_bounds t) as Hw.
  destruct (Z.ltb_spec (WeekDay t) 0); [lia|].
  rewrite setHours_last, setDate_shift.
  rewrite Day_shift. f_equal. lia.
Qed.

(** [startOfWeek]: the midnight that starts the Sunday on or before the date. *)
Lemma startOfWeek_spec (t : Date) :
  WeekDay (startOfWeek t) = 0
  /\ TimeWithinDay (startOfWeek t) = 0
  /\ startOfWeek t <= t < startOfWeek t + 7 * msPerDay.
Proof.
  rewrite startOfWeek_eq. pose proof (WeekDay_bounds t) as Hw.
  split; [|split].
  - unfold WeekDay at 1. rewrite Day_MakeDate by (unfold msPerDay; lia).
    unfold WeekDay. dlia.
  - apply TimeWithinDay_MakeDate. unfold msPerDay; lia.
  - pose proof (MakeDate_Day t) as Ht. pose proof (TimeWithinDay_bounds t) as Hb.
    unfold MakeDate in *. unfold msPerDay in *. lia.
Qed.

(** [endOfWeek]: the last millisecond of the Saturday that ends that week. *)
Lemma endOfWeek_spec (t : Date) :
  endOfWeek t = startOfWeek t + 7 * msPerDay - 1
  /\ WeekDay (endOfWeek t) = 6
  /\ TimeWithinDay (endOfWeek t) = msPerDay - 1.
Proof.
  rewrite endOfWeek_eq, startOfWeek_eq. pose proof (WeekDay_bounds t) as Hw.
  split; [|split].
  - unfold MakeDate. lia.
  - unfold WeekDay at 1. rewrite Day_MakeDate by (unfold msPerDay; lia).
    unfold WeekDay. dlia.
  - apply TimeWithinDay_MakeDate. unfold msPerDay; lia.
Qed.

Lemma MakeDay_date (y m d1 d2 : Z) : MakeDay y m d1 = MakeDay y m d2 + (d1 - d2).
Proof. unfold MakeDay. lia. Qed.

(** [startOfMonth]: the midnight that starts day 1 of the month of the date. *)
Lemma startOfMonth_spec (t : Date) :
  getFullYear (startOfMonth t) = getFullYear t
  /\ getMonth (startOfMonth t) = getMonth t
  /\ getDate (startOfMonth t) = 1
  /\ TimeWithinDay (startOfMonth t) = 0
  /\ startOfMonth t <= t.
Proof.
  destruct (civil_fields t) as (Hm & Hd & Hday).
  assert (E : startOfMonth t = MakeDate (MakeDay (YearFromTime t) (MonthFromTime t) 1) 0).
  { unfold startOfMonth. rewrite setHours_midnight, setDate_shift, Day_shift.
    f_equal. unfold getDate.
    pose proof (MakeDay_date (YearFromTime t) (MonthFromTime t) (DateFromTime t) 1). lia. }
  unfold getFullYear, getMonth, getDate. rewrite E.
  destruct (civil_MakeDate (YearFromTime t) (MonthFromTime t) 1 0) as (Hy & Hmo & Hdt & Ht);
    [lia | fold (InLeapYear t); lia | unfold msPerDay; lia |].
  repeat (split; [assumption|]).
  pose proof (MakeDate_Day t) as Ht0.
  pose proof (MakeDay_date (YearFromTime t) (MonthFromTime t) (DateFromTime t) 1).
  pose proof (TimeWithinDay_bounds t). unfold MakeDate, msPerDay in *. lia.
Qed.

Lemma MakeDay_next_month (y m : Z) :
  0 <= m <= 11 -> MakeDay y (m + 1) 0 = MakeDay y m (daysInMonth (leapDay y) m).
Proof.
  intros Hm. unfold MakeDay.
  assert (Hc : m = 11 \/ m = 0 \/ m = 1 \/ m = 2 \/ m = 3 \/ m = 4 \/ m = 5 \/ m = 6
               \/ m = 7 \/ m = 8 \/ m = 9 \/ m = 10) by lia.
  destruct Hc as [-> | Hc].
  - change ((11 + 1) / 12) with 1. change ((11 + 1) mod 12) with 0.
    change (11 / 12) with 0. change (11 mod 12) with 11.
    rewrite DayFromYear_succ. replace (y + 0) with y by lia. cbn [daysBeforeMonth daysInMonth].
    destruct (leapDay_cases y) as [[-> ->]|[-> ->]]; lia.
  - rewrite (Z.div_small (m + 1) 12), (Z.mod_small (m + 1) 12),
      (Z.div_small m 12), (Z.mod_small m 12) by lia.
    replace (y + 0) with y by lia.
    repeat (destruct Hc as [-> | Hc]); try subst m;
      match goal with
      | |- context [daysBeforeMonth _ (?a + 1)] =>
          let v := eval compute in (a + 1) in change (a + 1) with v
      end;
      cbn [daysBeforeMonth daysInMonth]; lia.
Qed.

(** [endOfMonth]: the last millisecond of the last day of the month of the date. *)
Lemma endOfMonth_spec (t : Date) :
  getFullYear (endOfMonth t) = getFullYear t
  /\ getMonth (endOfMonth t) = getMonth t
  /\ getDate (endOfMonth t) = daysInMonth (InLeapYear t) (getMonth t)
  /\ TimeWithinDay (endOfMonth t) = msPerDay - 1
  /\ t <= endOfMonth t.
Proof.
  destruct (civil_fields t) as (Hm & Hd & Hday).
  pose proof (TimeWithinDay_bounds t) as Hb.
  assert (E : endOfMonth t =
              MakeDate (MakeDay (YearFromTime t) (MonthFromTime t)
                                (daysInMonth (InLeapYear t) (MonthFromTime t)))
                       (msPerDay - 1)).
  { unfold endOfMonth, getMonth, getFullYear. rewrite setHours_last. f_equal.
    unfold setFullYear. rewrite Day_MakeDate by exact Hb.
    apply MakeDay_next_month. exact Hm. }
  unfold getFullYear, getMonth, getDate. rewrite E.
  destruct (civil_MakeDate (YearFromTime t) (MonthFromTime t)
              (daysInMonth (InLeapYear t) (MonthFromTime t)) (msPerDay - 1))
    as (Hy & Hmo & Hdt & Ht);
    [lia | fold (InLeapYear t); lia | unfold msPerDay; lia |].
  repeat (split; [assumption|]).
  pose proof (MakeDate_Day t) as Ht0.
  pose proof (MakeDay_date (YearFromTime t) (MonthFromTime t) (DateFromTime t) (daysInMonth (InLeapYear t) (MonthFromTime t))).
  unfold MakeDate, msPerDay in *. lia.
Qed.

Lemma MakeDay_month_shift (y k d : Z) : MakeDay y (k - 12) d = MakeDay (y - 1) k d.
Proof.
  unfold MakeDay.
  replace ((k - 12) / 12) with (k / 12 - 1) by dlia.
  replace ((k - 12) mod 12) with (k mod 12) by dlia.
  replace (y + (k / 12 - 1)) with (y - 1 + k / 12) by lia. reflexivity.
Qed.

Lemma daysBeforeMonth_leap (l1 l2 m : Z) :
  0 <= l1 <= 1 -> 0 <= l2 <= 1 -> daysBeforeMonth l1 m <= daysBeforeMonth l2 m + 1.
Proof.
  intros H1 H2. unfold daysBeforeMonth.
  destruct m as [|p|p]; try lia.
  do 4 (try destruct p as [p|p|]); lia.
Qed.

Lemma leapDay_bounds (y : Z) : 0 <= leapDay y <= 1.
Proof. destruct (leapDay_cases y) as [[-> _]|[-> _]]; lia. Qed.

(** [subMonths(date, 12)]: the same month, day of the month and time of day
    one year earlier; the day is the last one of that month when the month
    is shorter there (29 February becomes 28 February). *)
Lemma subMonths_12_spec (t : Date) :
  getFullYear (subMonths t 12) = getFullYear t - 1
  /\ getMonth (subMonths t 12) = getMonth t
  /\ getDate (subMonths t 12)
     = Z.min (getDate t) (daysInMonth (leapDay (getFullYear t - 1)) (getMonth t))
  /\ TimeWithinDay (subMonths t 12) = TimeWithinDay t
  /\ subMonths t 12 <= t.
Proof.
  destruct (civil_fields t) as (Hm & Hd & Hday).
  pose proof (TimeWithinDay_bounds t) as Hb.
  set (y := YearFromTime t) in *. set (m := MonthFromTime t) in *.
  set (dim := daysInMonth (leapDay (y - 1)) m).
  assert (Hdim : 28 <= dim).
  { subst dim. pose proof (leapDay_bounds (y - 1)). unfold daysInMonth.
    destruct m as [|p|p]; try lia. do 4 (try destruct p as [p|p|]); lia. }
  assert (Eend : setMonth t (getMonth t + - (12) + 1) 0 = MakeDate (MakeDay (y - 1) m dim) (TimeWithinDay t)).
  { unfold setMonth, getMonth. fold y m. f_equal.
    replace (m + - (12) + 1) with (m + 1 - 12) by lia.
    rewrite MakeDay_month_shift. apply MakeDay_next_month. exact Hm. }
  destruct (civil_MakeDate (y - 1) m dim (TimeWithinDay t)) as (Hy1 & Hm1 & Hd1 & Ht1);
    [lia | subst dim; lia | exact Hb |].
  assert (Hle : forall d, d <= DateFromTime t ->
                  MakeDate (MakeDay (y - 1) m d) (TimeWithinDay t) <= t).
  { intros d Hdle. pose proof (MakeDate_Day t) as Ht0.
    assert (MakeDay (y - 1) m d <= Day t).
    { rewrite Hday. unfold MakeDay.
      replace (m / 12) with 0 by dlia. replace (m mod 12) with m by dlia.
      replace (y - 1 + 0) with (y - 1) by lia. replace (y + 0) with y by lia.
      pose proof (DayFromYear_succ (y - 1)) as Hs. replace (y - 1 + 1) with y in Hs by lia.
      pose proof (DaysInYear_cases (y - 1)).
      pose proof (daysBeforeMonth_leap (leapDay (y - 1)) (leapDay y) m
                    (leapDay_bounds _) (leapDay_bounds _)).
      lia. }
    unfold MakeDate in *. unfold msPerDay in *. nia. }
  assert (E : subMonths t 12
              = MakeDate (MakeDay (y - 1) m (Z.min (DateFromTime t) dim)) (TimeWithinDay t)).
  { unfold subMonths, addMonths. change (- (12) =? 0) with false. cbv iota zeta.
    rewrite Eend. unfold getDate, getFullYear, getMonth. rewrite Hy1, Hm1, Hd1.
    destruct (Z.leb_spec dim (DateFromTime t)) as [Hc|Hc].
    - rewrite Z.min_r by lia. reflexivity.
    - rewrite Z.min_l by lia. reflexivity. }
  destruct (civil_MakeDate (y - 1) m (Z.min (DateFromTime t) dim) (TimeWithinDay t))
    as (Hy2 & Hm2 & Hd2 & Ht2); [lia | subst dim; lia | exact Hb |].
  unfold getFullYear, getMonth, getDate. fold y m dim. rewrite E.
  repeat (split; [assumption|]). apply Hle. lia.
Qed.

(** ** The days of an interval *)

Lemma next_midnight (date : Date) :
  setHours (setDate date (getDate date + 1)) 0 0 0 0 = MakeDate (Day date + 1) 0.
Proof.
  rewrite setHours_midnight, setDate_shift, Day_shift. f_equal. lia.
Qed.

Lemma midnight_le (d : Z) (t : Date) : MakeDate d 0 <= t <-> d <= Day t.
Proof. unfold MakeDate, Day. split; intros H; dlia. Qed.

(** With enough fuel the loop stops on its own test, and yields the midnights
    of the days from [d] to the day of [endTime]. *)
Lemma eachDay_loop_spec (fuel : nat) (d : Z) (endTime : Z) :
  Day endTime - d + 1 <= Z.of_nat fuel ->
  eachDay_loop fuel (MakeDate d 0) endTime
  = (fun k => MakeDate k 0) <$> seqZ d (Day endTime - d + 1).
Proof.
  revert d. induction fuel as [|fuel IH]; intros d Hfuel.
  - rewrite seqZ_nil by lia. reflexivity.
  - cbn [eachDay_loop]. destruct (Z.leb_spec (MakeDate d 0) endTime) as [Hle|Hgt].
    + apply midnight_le in Hle.
      rewrite seqZ_cons by lia. cbn [fmap list_fmap]. f_equal.
      rewrite next_midnight, Day_MakeDate by (unfold msPerDay; lia).
      rewrite IH by lia. f_equal. f_equal; lia.
    + rewrite seqZ_nil; [reflexivity|].
      destruct (Z.le_gt_cases d (Day endTime)) as [H|H]; [|lia].
      apply midnight_le in H. lia.
Qed.

Lemma eachDay_loop_fuel (fuel1 fuel2 : nat) (d : Z) (endTime : Z) :
  Day endTime - d + 1 <= Z.of_nat fuel1 ->
  Day endTime - d + 1 <= Z.of_nat fuel2 ->
  eachDay_loop fuel1 (MakeDate d 0) endTime = eachDay_loop fuel2 (MakeDate d 0) endTime.
Proof. intros H1 H2. rewrite !eachDay_loop_spec by assumption. reflexivity. Qed.

Lemma Day_mono (a b : Z) : a <= b -> Day a <= Day b.
Proof. unfold Day. intros H. dlia. Qed.

Lemma eachDayOfInterval_spec (start end_ : Date) :
  start <= end_ ->
  eachDayOfInterval start end_
  = (fun k => MakeDate k 0) <$> seqZ (Day start) (Day end_ - Day start + 1).
Proof.
  intros Hle. unfold eachDayOfInterval.
  destruct (Z.ltb_spec end_ start); [lia|].
  rewrite setHours_midnight, Day_MakeDate by (unfold msPerDay; lia).
  apply eachDay_loop_spec. pose proof (Day_mono _ _ Hle). lia.
Qed.

Lemma isWeekend_spec (t : Date) :
  isWeekend t = true <-> WeekDay t = 0 \/ WeekDay t = 6.
Proof.
  unfold isWeekend, getDay. rewrite orb_true_iff, !Z.eqb_eq. reflexivity.
Qed.

Lemma StronglySorted_List_filter {A : Type} (R : relation A) (f : A -> bool) (l : list A) :
  StronglySorted R l -> StronglySorted R (List.filter f l).
Proof.
  induction 1 as [|x l Hs IH Hall]; cbn; [constructor|].
  destruct (f x); [|exact IH].
  constructor; [exact IH|].
  apply Forall_forall. intros y Hy. apply list_elem_of_In, List.filter_In in Hy.
  rewrite Forall_forall in Hall. apply Hall, list_elem_of_In, Hy.
Qed.

Lemma StronglySorted_seqZ (m n : Z) : StronglySorted Z.lt (seqZ m n).
Proof.
  destruct (Z.le_gt_cases n 0) as [Hn|Hn]; [rewrite seqZ_nil by lia; constructor|].
  rewrite <- (Z2Nat.id n) by lia. generalize (Z.to_nat n) as k. clear. intros k.
  revert m. induction k as [|k IH]; intros m.
  - rewrite seqZ_nil by lia. constructor.
  - rewrite seqZ_cons by lia. constructor.
    + replace (Z.pred (Z.of_nat (S k))) with (Z.of_nat k) by lia. apply IH.
    + apply Forall_forall. intros x Hx. apply elem_of_seqZ in Hx. lia.
Qed.

(** The workdays of [start, end_], [start <= end_]: the midnights of the days
    from the day of [start] to the day of [end_], without those of Saturdays
    and Sundays. *)
Lemma weekDaysOf_spec (start end_ : Date) :
  start <= end_ ->
  Page.weekDaysOf start end_
  = List.filter (fun day => negb (isWeekend day))
                ((fun k => MakeDate k 0) <$> seqZ (Day start) (Day end_ - Day start + 1)).
Proof. intros H. unfold Page.weekDaysOf. rewrite eachDayOfInterval_spec by exact H. reflexivity. Qed.

Lemma isWeekend_midnight (k : Z) :
  isWeekend (MakeDate k 0) = (((k + 4) mod 7 =? 0) || ((k + 4) mod 7 =? 6)).
Proof.
  unfold isWeekend, getDay, WeekDay. rewrite Day_MakeDate by (unfold msPerDay; lia).
  reflexivity.
Qed.

(** Seven days in a row hold five workdays. *)
Lemma seven_days_five_workdays (d : Z) :
  length (List.filter (fun day => negb (isWeekend day))
                      ((fun k => MakeDate k 0) <$> seqZ d 7)) = 5%nat.
Proof.
  set (r := (d + 4) mod 7).
  assert (Hr : 0 <= r < 7) by (subst r; dlia).
  assert (Hw : forall i, 0 <= i < 7 ->
             isWeekend (MakeDate (i + d) 0) = (((r + i) mod 7 =? 0) || ((r + i) mod 7 =? 6))).
  { intros i Hi. rewrite isWeekend_midnight.
    replace ((i + d + 4) mod 7) with ((r + i) mod 7) by (subst r; dlia). reflexivity. }
  change (seqZ d 7) with [0 + d; 1 + d; 2 + d; 3 + d; 4 + d; 5 + d; 6 + d].
  cbn [fmap list_fmap List.filter].
  rewrite !Hw by lia. clearbody r. clear Hw.
  assert (Hc : r = 0 \/ r = 1 \/ r = 2 \/ r = 3 \/ r = 4 \/ r = 5 \/ r = 6) by lia.
  repeat (destruct Hc as [-> | Hc]); try subst r; reflexivity.
Qed.

(** The sample day, and the table generated for its week: the columns are
    Monday 4 to Friday 8 March, and Thursday and Friday have not come yet. *)
Example sampleToday_fields :
  Page.sampleToday = 1709721000000
  /\ (getFullYear Page.sampleToday, getMonth Page.sampleToday,
      getDate Page.sampleToday, getDay Page.sampleToday) = (2024, 2, 6, 3).
Proof. split; reflexivity. Qed.

Example sampleLoaded_table :
  (fun row => (fun a => (getDate (Page.a_date a), Page.a_status a)) <$> Page.attendance row)
    <$> Page.attendanceData Page.sampleLoaded
  = [ [(4, Page.Vacation); (5, Page.Present); (6, Page.Present); (7, Page.NotYet); (8, Page.NotYet)];
      [(4, Page.Late); (5, Page.Absent); (6, Page.Absent); (7, Page.NotYet); (8, Page.NotYet)];
      [(4, Page.Present); (5, Page.Absent); (6, Page.Late); (7, Page.NotYet); (8, Page.NotYet)] ].
Proof. vm_compute. reflexivity. Qed.

(** ** JSON text read back

    What [JSON.stringify] writes is read back by [JSON.parse]: strings with
    their escapes, safe integers, and the object of an edit. *)

Lemma string_append_assoc (a b c : string) : (a +:+ b) +:+ c = a +:+ (b +:+ c).
Proof.
  induction a as [|x a IH]; [reflexivity|].
  change (String x ((a +:+ b) +:+ c) = String x (a +:+ (b +:+ c))). rewrite IH. reflexivity.
Qed.

Lemma parseChars_quoteChar (c : ascii) (t : string) :
  parseChars (quoteChar c +:+ t) = consChar c (parseChars t).
Proof. destruct c as [[] [] [] [] [] [] [] []]; reflexivity. Qed.

Lemma parseChars_quoteChars (s rest : string) :
  parseChars (quoteChars s +:+ doubleQuote +:+ rest) = Some (s, rest).
Proof.
  induction s as [|c s IH]; [reflexivity|].
  change (quoteChars (String c s)) with (quoteChar c +:+ quoteChars s).
  rewrite string_append_assoc, parseChars_quoteChar, IH. reflexivity.
Qed.

Lemma spanDigits_uint (d : Decimal.uint) (c : ascii) (rest : string) :
  isDigit c = false ->
  spanDigits (NilEmpty.string_of_uint d +:+ String c rest)
  = (NilEmpty.string_of_uint d, String c rest).
Proof.
  intros Hc. induction d; simpl; try rewrite IHd; try reflexivity.
  rewrite Hc. reflexivity.
Qed.

Lemma to_uint_no_leading_zero (p : positive) (u : Decimal.uint) : Pos.to_uint p <> Decimal.D0 u.
Proof.
  intros H.
  assert (Hn : Decimal.unorm (Pos.to_uint p) = Pos.to_uint p).
  { rewrite <- (DecimalPos.Unsigned.to_of (Pos.to_uint p)), DecimalPos.Unsigned.of_to. reflexivity. }
  rewrite H, DecimalFacts.unorm_D0 in Hn.
  destruct (Decimal.uint_eq_dec u Decimal.Nil) as [->|Hu].
  - apply (DecimalPos.Unsigned.to_uint_nonzero p). rewrite H. reflexivity.
  - pose proof (DecimalFacts.nb_digits_unorm u Hu) as Hle.
    rewrite Hn in Hle. simpl in Hle. lia.
Qed.

Lemma parseDigits_positive (negative : bool) (p : positive) (c : ascii) (rest : string) :
  Z.pos p < 2 ^ 53 -> isDigit c = false -> integerEnds (String c rest) = true ->
  parseDigits negative (NilEmpty.string_of_uint (Pos.to_uint p) +:+ String c rest)
  = Some (if negative then Z.neg p else Z.pos p, String c rest).
Proof.
  intros Hp Hc He. unfold parseDigits.
  rewrite (spanDigits_uint _ c rest Hc), He. cbn [negb].
  assert (Hlz : match NilEmpty.string_of_uint (Pos.to_uint p) with
                | String d (String _ _) => (nat_of_ascii d =? 48)%nat
                | _ => false
                end = false).
  { pose proof (to_uint_no_leading_zero p) as Hz.
    destruct (Pos.to_uint p) as [|u|u|u|u|u|u|u|u|u|u]; try reflexivity;
      try (destruct u; reflexivity).
    destruct (Hz u eq_refl). }
  rewrite Hlz. cbn [orb].
  assert (Hu : NilZero.uint_of_string (NilEmpty.string_of_uint (Pos.to_uint p))
               = Some (Pos.to_uint p)).
  { pose proof (NilZero.usu (Pos.to_uint p) (DecimalPos.Unsigned.to_uint_nonnil p)) as H.
    unfold NilZero.string_of_uint in H.
    destruct (Pos.to_uint p) eqn:E; try exact H.
    destruct (DecimalPos.Unsigned.to_uint_nonnil p E). }
  rewrite Hu. cbv zeta.
  assert (Hv : Z.of_uint (Pos.to_uint p) = Z.pos p).
  { unfold Z.of_uint. rewrite DecimalPos.Unsigned.of_to. reflexivity. }
  rewrite Hv. apply Z.ltb_lt in Hp. rewrite Hp. destruct negative; reflexivity.
Qed.

Lemma parseValue_digit (fuel : nat) (c0 : ascii) (s : string) :
  isDigit c0 = true ->
  parseValue (S fuel) (String c0 s)
  = match parseDigits false (String c0 s) with
    | Some (z, r) => Some (JNumber z, r)
    | None => None
    end.
Proof. intros H. destruct c0 as [[] [] [] [] [] [] [] []]; try discriminate H; reflexivity. Qed.

Lemma parseValue_minus (fuel : nat) (s : string) :
  parseValue (S fuel) (String "-" s)
  = match parseDigits true s with
    | Some (z, r) => Some (JNumber z, r)
    | None => None
    end.
Proof. reflexivity. Qed.

Lemma string_of_uint_head (d : Decimal.uint) :
  d <> Decimal.Nil ->
  exists c0 s0, NilEmpty.string_of_uint d = String c0 s0 /\ isDigit c0 = true.
Proof. intros Hd. destruct d; [destruct (Hd eq_refl)| ..]; simpl; eauto. Qed.

Lemma parseValue_number (fuel : nat) (n : Z) (c : ascii) (rest : string) :
  Z.abs n < 2 ^ 53 -> isDigit c = false -> integerEnds (String c rest) = true ->
  parseValue (S fuel) (string_of_Z n +:+ String c rest) = Some (JNumber n, String c rest).
Proof.
  intros Hn Hc He.
  assert (Hs : forall p, NilZero.string_of_uint (Pos.to_uint p)
                         = NilEmpty.string_of_uint (Pos.to_uint p)).
  { intros p. unfold NilZero.string_of_uint. destruct (Pos.to_uint p) eqn:E; try reflexivity.
    destruct (DecimalPos.Unsigned.to_uint_nonnil p E). }
  unfold string_of_Z. destruct n as [|p|p]; cbn [Z.to_int NilZero.string_of_int].
  - change (NilZero.string_of_uint Decimal.zero +:+ String c rest)
      with (String "0" (String c rest)).
    rewrite parseValue_digit by reflexivity.
    change (String "0" (String c rest))
      with (NilEmpty.string_of_uint (Decimal.D0 Decimal.Nil) +:+ String c rest).
    unfold parseDigits. rewrite (spanDigits_uint _ c rest Hc), He. reflexivity.
  - rewrite Hs.
    destruct (string_of_uint_head (Pos.to_uint p) (DecimalPos.Unsigned.to_uint_nonnil p))
      as (c0 & s0 & Hhead & Hd).
    pose proof (parseDigits_positive false p c rest Hn Hc He) as Hp.
    rewrite Hhead in *.
    change (String c0 s0 +:+ String c rest) with (String c0 (s0 +:+ String c rest)) in *.
    rewrite (parseValue_digit _ _ _ Hd), Hp. reflexivity.
  - rewrite Hs.
    change (String "-" (NilEmpty.string_of_uint (Pos.to_uint p)) +:+ String c rest)
      with (String "-" (NilEmpty.string_of_uint (Pos.to_uint p) +:+ String c rest)).
    rewrite parseValue_minus, (parseDigits_positive true p c rest Hn Hc He). reflexivity.
Qed.

Lemma parseValue_string (fuel : nat) (s rest : string) :
  parseValue (S fuel) (quote s +:+ rest) = Some (JString s, rest).
Proof.
  unfold quote. rewrite !string_append_assoc.
  change (doubleQuote +:+ quoteChars s +:+ doubleQuote +:+ rest)
    with (String (ascii_of_nat 34) (quoteChars s +:+ doubleQuote +:+ rest)).
  cbn [parseValue skipWhitespace]. 
  change (isWhitespace (ascii_of_nat 34)) with false. cbv iota.
  change (nat_of_ascii (ascii_of_nat 34) =? 34)%nat with true. cbv iota.
  rewrite parseChars_quoteChars. reflexivity.
Qed.

(** One member of an object that is followed by another one, and the last
    member of an object. *)
Lemma parseMembers_next (fuel : nat) (key : string) (v : JSON) (text more : string)
    (acc : list (string * JSON)) :
  parseValue fuel (text +:+ String "," more) = Some (v, String "," more) ->
  parseMembers (S fuel) (quote key +:+ ":" +:+ text +:+ String "," more) acc
  = parseMembers fuel more (defineProperty key v acc).
Proof.
  intros Hv. unfold quote. rewrite !string_append_assoc.
  change (doubleQuote +:+ quoteChars key +:+ doubleQuote +:+ ":" +:+ text +:+ String "," more)
    with (String (ascii_of_nat 34)
            (quoteChars key +:+ doubleQuote +:+ String ":" (text +:+ String "," more))).
  cbn [parseMembers skipWhitespace].
  change (isWhitespace (ascii_of_nat 34)) with false. cbv iota.
  change (nat_of_ascii (ascii_of_nat 34) =? 34)%nat with true. cbv iota.
  rewrite parseChars_quoteChars.
  cbn [skipWhitespace]. change (isWhitespace ":") with false. cbv iota.
  change (nat_of_ascii ":" =? 58)%nat with true. cbv iota.
  rewrite Hv. reflexivity.
Qed.

Lemma parseMembers_last (fuel : nat) (key : string) (v : JSON) (text more : string)
    (acc : list (string * JSON)) :
  parseValue fuel (text +:+ String "}" more) = Some (v, String "}" more) ->
  parseMembers (S fuel) (quote key +:+ ":" +:+ text +:+ String "}" more) acc
  = Some (JObject (defineProperty key v acc), more).
Proof.
  intros Hv. unfold quote. rewrite !string_append_assoc.
  change (doubleQuote +:+ quoteChars key +:+ doubleQuote +:+ ":" +:+ text +:+ String "}" more)
    with (String (ascii_of_nat 34)
            (quoteChars key +:+ doubleQuote +:+ String ":" (text +:+ String "}" more))).
  cbn [parseMembers skipWhitespace].
  change (isWhitespace (ascii_of_nat 34)) with false. cbv iota.
  change (nat_of_ascii (ascii_of_nat 34) =? 34)%nat with true. cbv iota.
  rewrite parseChars_quoteChars.
  cbn [skipWhitespace]. change (isWhitespace ":") with false. cbv iota.
  change (nat_of_ascii ":" =? 58)%nat with true. cbv iota.
  rewrite Hv. reflexivity.
Qed.

Lemma length_append (a b : string) :
  String.length (a +:+ b) = (String.length a + String.length b)%nat.
Proof. induction a as [|c a IH]; [reflexivity|]. simpl. rewrite IH. reflexivity. Qed.

Lemma parseValue_object (fuel : nat) (key tail : string) :
  parseValue (S fuel) (String "{" (quote key +:+ tail)) = parseMembers fuel (quote key +:+ tail) [].
Proof.
  unfold quote. rewrite !string_append_assoc.
  change (doubleQuote +:+ quoteChars key +:+ doubleQuote +:+ tail)
    with (String (ascii_of_nat 34) (quoteChars key +:+ doubleQuote +:+ tail)).
  reflexivity.
Qed.

(** The text that [JSON.stringify] writes for the edit of the remote page is
    read back as the same object. *)
Lemma JSON_parse_requestBody (E : Z) (D : string) (st : Tmp.State) :
  Z.abs E < 2 ^ 53 ->
  JSON_parse (stringify (Tmp.requestBody E D st)) = Some (Tmp.requestBody E D st).
Proof.
  intros HE.
  assert (Htext : stringify (Tmp.requestBody E D st)
                  = String "{"
                      (quote "userId" +:+ ":" +:+ string_of_Z E +:+ String ","
                         (quote "attendanceDate" +:+ ":" +:+ quote D +:+ String ","
                            (quote "status" +:+ ":"
                               +:+ quote (Tmp.statusText (Tmp.editStatus st)) +:+ String ","
                               (quote "comment" +:+ ":" +:+ quote (Tmp.editComment st)
                                  +:+ String ","
                                  (quote "time" +:+ ":" +:+ quote (Tmp.editTime st)
                                     +:+ String "}" EmptyString)))))).
  { unfold Tmp.requestBody. cbn [stringify]. rewrite !string_append_assoc. reflexivity. }
  unfold JSON_parse.
  assert (Hfuel : exists fuel, (2 * String.length (stringify (Tmp.requestBody E D st)) + 2
                                = 7 + fuel)%nat).
  { exists (2 * String.length (stringify (Tmp.requestBody E D st)) + 2 - 7)%nat.
    rewrite Htext.
    change (String "{" ?x) with ("{" +:+ x).
    rewrite !length_append.
    change (String.length (quote "userId")) with 8%nat.
    change (String.length "{") with 1%nat. lia. }
  destruct Hfuel as [fuel ->]. rewrite Htext.
  change (7 + fuel)%nat with (S (S (S (S (S (S (S fuel))))))).
  rewrite parseValue_object.
  rewrite (parseMembers_next _ "userId" (JNumber E))
    by (apply parseValue_number; [exact HE|reflexivity|reflexivity]).
  rewrite (parseMembers_next _ "attendanceDate" (JString D)) by apply parseValue_string.
  rewrite (parseMembers_next _ "status" (JString (Tmp.statusText (Tmp.editStatus st))))
    by apply parseValue_string.
  rewrite (parseMembers_next _ "comment" (JString (Tmp.editComment st)))
    by apply parseValue_string.
  rewrite (parseMembers_last _ "time" (JString (Tmp.editTime st))) by apply parseValue_string.
  reflexivity.
Qed.

(** ** The API route *)
Section ProxyFacts.
Import Proxy.

Variable API_BASE_URL : string.
Variable upstream : Request -> Settled (Response JSON).

(** C8: a request whose method is not PUT is answered with status 405 and
    the header [Allow: PUT], and no request is made to the upstream
    service (the handler has no event at all). *)
Theorem C8_method_not_allowed (req : NextApiRequest) :
  req_method req <> "PUT" ->
  handler API_BASE_URL upstream req =
    ([], {| statusCode := 405; res_headers := [("Allow", ["PUT"])];
            sent := SentText ("Method " +:+ req_method req +:+ " Not Allowed") |}).
Proof.
  intros Hm. unfold handler.
  destruct (String.eqb_spec (req_method req) "PUT") as [E|_]; [contradiction|reflexivity].
Qed.


End ProxyFacts.

(** A GET request. *)
Lemma C8_method_not_allowed_witness :
  let req := {| Proxy.req_method := "GET"; Proxy.req_body := JNull |} in
  Proxy.req_method req <> "PUT"
  /\ Proxy.handler "http://upstream" (fun _ => Rejected (TypeError "fetch failed")) req =
       ([], {| Proxy.statusCode := 405; Proxy.res_headers := [("Allow", ["PUT"])];
               Proxy.sent := Proxy.SentText "Method GET Not Allowed" |}).
Proof.
  split; [discriminate|].
  apply (C8_method_not_allowed "http://upstream"
           (fun _ => Rejected (TypeError "fetch failed"))
           {| Proxy.req_method := "GET"; Proxy.req_body := JNull |}).
  discriminate.
Defined.



(** The reader on other texts: white space is skipped; a key that is
    written twice keeps its first place and its last value, and keys that
    are array indices come first; what is not JSON is refused. *)
Example JSON_parse_samples :
  JSON_parse Proxy.spacedBody = Some (JObject [("userId", JNumber 2)])
  /\ JSON_parse "[1, -20 ,[ ],{}, null,true]"
     = Some (JArray [JNumber 1; JNumber (-20); JArray []; JObject []; JNull; JBool true])
  /\ JSON_parse ("{" +:+ Tmp.quoted "b" +:+ ":1," +:+ Tmp.quoted "a" +:+ ":2,"
                 +:+ Tmp.quoted "7" +:+ ":3," +:+ Tmp.quoted "b" +:+ ":4}")
     = Some (JObject [("7", JNumber 3); ("b", JNumber 4); ("a", JNumber 2)])
  /\ JSON_parse "01" = None
  /\ JSON_parse "[1,]" = None
  /\ JSON_parse "{}x" = None
  /\ Proxy.parseJson EmptyString = Some (JObject []).
Proof. vm_compute. repeat split. Qed.

(** ** The page over generated mock data *)
Section PageFacts.
Import Page.

(** C10: with an employee id other than 1, 2 and 3, [getStatus] returns
    [{ status: "Not Yet" }] (no check-in time, no comment) for a workday
    before today too; the cell built from it is disabled and empty, and
    [handleEdit] on it opens no edit session. *)
Theorem C10_unknown_employee (weekDays : list Date) (today : Date)
    (employeeId : Z) (index : nat) (date : Date) :
  weekDays !! index = Some date ->
  date < today ->
  employeeId <> 1 -> employeeId <> 2 -> employeeId <> 3 ->
  let cell := entryOf date (getStatus weekDays today employeeId index) in
  getStatus weekDays today employeeId index = notYetInfo
  /\ cellDisabled cell = true
  /\ cellText cell = []
  /\ (forall st, handleEdit employeeId (a_date cell) (a_status cell) st = st).
Proof.
  intros Hd Hlt H1 H2 H3 cell.
  assert (E : getStatus weekDays today employeeId index = notYetInfo).
  { unfold getStatus. rewrite Hd. unfold isBefore.
    destruct (Z.ltb_spec date today); [|lia]. cbn [negb].
    destruct employeeId as [|p|p]; try reflexivity.
    destruct p as [[p|p|]|[p|p|]|]; try reflexivity; congruence. }
  subst cell. rewrite E. auto.
Qed.

Lemma lessThan_spec (a b : Q) : lessThan a b = true <-> (a < b)%Q.
Proof.
  unfold lessThan. rewrite negb_true_iff, <- not_true_iff_false, Qle_bool_iff.
  split; [apply Qnot_le_lt | apply Qlt_not_le].
Qed.

(** C5: [handleVacationDayChange] sets the balance of the rows of the
    employee to [max 0 (balance + change)] and leaves the other rows as they
    are, so balances that are not negative stay so, for the four changes of
    the buttons as for any other; the button -1 is disabled when the balance
    is below 1 and the button -0.5 when it is below 0.5. *)
Theorem C5_vacation_days_floor (st : State) (employeeId : Z) (change : Q) :
  Forall (fun row => (0 <= balance row)%Q) (attendanceData st) ->
  let st' := handleVacationDayChange employeeId change st in
  Forall (fun row => (0 <= balance row)%Q) (attendanceData st')
  /\ length (attendanceData st') = length (attendanceData st)
  /\ (forall i row, attendanceData st !! i = Some row ->
        exists row', attendanceData st' !! i = Some row'
          /\ (id (employee row) = employeeId ->
              balance row' = Math_max 0 (balance row + change)
              /\ (0 <= balance row')%Q)
          /\ (id (employee row) <> employeeId -> row' = row))
  /\ (forall row control, control ∈ vacationControls row ->
        (label control = "-1" -> (balance row < 1)%Q -> disabled control = true)
        /\ (label control = "-0.5" -> (balance row < 1 # 2)%Q -> disabled control = true)).
Proof.
  intros Hpos st'. subst st'. unfold handleVacationDayChange. cbn [attendanceData set_attendanceData].
  split; [|split; [|split]].
  - apply Forall_fmap. eapply Forall_impl; [exact Hpos|].
    intros row Hrow. cbn. destruct (id (employee row) =? employeeId); [|exact Hrow].
    unfold balance. cbn. apply Q.le_max_l.
  - apply length_fmap.
  - intros i row Hi. rewrite list_lookup_fmap, Hi. cbn.
    eexists; split; [reflexivity|].
    destruct (Z.eqb_spec (id (employee row)) employeeId) as [E|E].
    + split; [|contradiction]. intros _. unfold balance. cbn.
      split; [reflexivity|apply Q.le_max_l].
    + split; [contradiction|reflexivity].
  - intros row control Hc. unfold vacationControls in Hc.
    repeat (apply elem_of_cons in Hc; destruct Hc as [->|Hc]);
      [| | | |apply elem_of_nil in Hc; contradiction]; cbn;
      (split; [intros Hl Hb | intros Hl Hb]); try discriminate Hl;
      apply lessThan_spec; exact Hb.
Qed.

(** C6: with an edit session open on employee [E], date [D] and status
    [S], [saveEdit] gives status [S] to the records of [E] whose date is [D]
    and changes nothing else: every row keeps its employee and the number of
    its records, every record keeps its date, check-in time and comment,
    every other record keeps its status, the rows of other employees are
    the same; the session is then closed and the other state slots are as
    before. *)
Theorem C6_saveEdit_frame (st : State) (E : Z) (D : Date) :
  editGuard st = Some (E, D) ->
  let S := editStatus st in
  let st' := saveEdit st in
  length (attendanceData st') = length (attendanceData st)
  /\ (forall i row, attendanceData st !! i = Some row ->
        exists row', attendanceData st' !! i = Some row'
          /\ employee row' = employee row
          /\ (id (employee row) <> E -> row' = row)
          /\ length (attendance row') = length (attendance row)
          /\ (forall j a, attendance row !! j = Some a ->
                exists a', attendance row' !! j = Some a'
                  /\ a_date a' = a_date a
                  /\ a_checkInTime a' = a_checkInTime a
                  /\ a_comment a' = a_comment a
                  /\ (id (employee row) = E -> a_date a = D -> a_status a' = S)
                  /\ (a_date a <> D -> a' = a)))
  /\ editEmployeeId st' = None /\ editDate st' = None /\ editStatus st' = Present
  /\ dateRange st' = dateRange st /\ viewMode st' = viewMode st
  /\ isLoading st' = isLoading st /\ showFines st' = showFines st.
Proof.
  intros Hg S st'. subst S st'. unfold saveEdit. rewrite Hg.
  cbn [attendanceData editEmployeeId editDate editStatus dateRange viewMode
       isLoading showFines set_edit set_attendanceData].
  split; [apply length_fmap|].
  split; [|repeat split].
  intros i row Hi. rewrite list_lookup_fmap, Hi. cbn [fmap option_fmap option_map].
  eexists; split; [reflexivity|].
  destruct (Z.eqb_spec (id (employee row)) E) as [HE|HE]; cbn [employee attendance].
  - split; [reflexivity|]. split; [contradiction|]. split; [apply length_fmap|].
    intros j a Hj. rewrite list_lookup_fmap, Hj. cbn [fmap option_fmap option_map].
    eexists; split; [reflexivity|]. unfold getTime.
    destruct (Z.eqb_spec (a_date a) D) as [HD|HD]; cbn; repeat split; auto; contradiction.
  - split; [reflexivity|]. split; [reflexivity|]. split; [reflexivity|].
    intros j a Hj. exists a. repeat split; auto. contradiction.
Qed.

End PageFacts.

(** ** The page over the remote API *)
Lemma Promise_all_rejected {A : Type} (promises : list (Settled A)) (e : JSError) :
  Rejected e ∈ promises -> exists e', Promise_all promises = Rejected e'.
Proof.
  induction promises as [|p rest IH]; intros Hin.
  - apply elem_of_nil in Hin. contradiction.
  - apply elem_of_cons in Hin. destruct Hin as [<-|Hin]; cbn.
    + eauto.
    + destruct p as [v|e0]; [|eauto].
      destruct (IH Hin) as [e' ->]. eauto.
Qed.

Lemma Promise_all_fulfilled {A B : Type} (f : A -> Settled B) (g : A -> B) (l : list A) :
  (forall x, x ∈ l -> f x = Fulfilled (g x)) ->
  Promise_all (f <$> l) = Fulfilled (g <$> l).
Proof.
  induction l as [|x l IH]; intros H; [reflexivity|].
  cbn. rewrite (H x) by (apply elem_of_cons; auto).
  rewrite IH; [reflexivity|]. intros y Hy. apply H. apply elem_of_cons. auto.
Qed.

Lemma Object_assign_lookup (d : Tmp.Employee -> list Tmp.AttendanceRecord)
    (l : list Tmp.Employee) (acc : gmap Z (list Tmp.AttendanceRecord)) (k : Z) :
  Tmp.Object_assign acc ((fun e => {[ Tmp.id e := d e ]}) <$> l) !! k
  = match last (filter (fun e => Tmp.id e = k) l) with
    | Some e => Some (d e)
    | None => acc !! k
    end.
Proof.
  revert acc. induction l as [|x l IH]; intros acc; [reflexivity|].
  unfold Tmp.Object_assign in *. cbn [fmap list_fmap foldl]. rewrite IH.
  destruct (decide (Tmp.id x = k)) as [Hx|Hx].
  - rewrite filter_cons_True by exact Hx. rewrite last_cons.
    destruct (last (filter (fun e => Tmp.id e = k) l)); [reflexivity|].
    subst k. rewrite lookup_union_l', lookup_singleton_eq; [reflexivity|].
    rewrite lookup_singleton_eq. eauto.
  - rewrite filter_cons_False by exact Hx.
    destruct (last (filter (fun e => Tmp.id e = k) l)); [reflexivity|].
    rewrite lookup_union_r; [reflexivity|]. apply lookup_singleton_ne. exact Hx.
Qed.

Lemma filter_id_none (l : list Tmp.Employee) (k : Z) :
  (forall e, e ∈ l -> Tmp.id e <> k) -> filter (fun e => Tmp.id e = k) l = [].
Proof.
  intros H. destruct (filter (fun e => Tmp.id e = k) l) as [|y l'] eqn:Hf; [reflexivity|].
  assert (Hy : y ∈ filter (fun e => Tmp.id e = k) l) by (rewrite Hf; apply elem_of_cons; auto).
  apply list_elem_of_filter in Hy. destruct Hy as [Hk Hy]. destruct (H y Hy Hk).
Qed.

Lemma filter_unique_id (l : list Tmp.Employee) (e : Tmp.Employee) :
  NoDup (Tmp.id <$> l) -> e ∈ l -> filter (fun x => Tmp.id x = Tmp.id e) l = [e].
Proof.
  induction l as [|x l IH]; intros Hnd Hin; [apply elem_of_nil in Hin; contradiction|].
  cbn in Hnd. apply NoDup_cons in Hnd. destruct Hnd as [Hx Hnd].
  assert (Hnone : forall y, Tmp.id y ∉ Tmp.id <$> l -> filter (fun x => Tmp.id x = Tmp.id y) l = []).
  { intros y Hy. apply filter_id_none. intros z Hz Heq.
    apply Hy. rewrite <- Heq. apply list_elem_of_fmap. eauto. }
  apply elem_of_cons in Hin. destruct Hin as [->|Hin].
  - rewrite filter_cons_True by reflexivity. rewrite Hnone by exact Hx. reflexivity.
  - rewrite filter_cons_False; [apply IH; assumption|].
    intros Heq. apply Hx. rewrite Heq. apply list_elem_of_fmap. eauto.
Qed.

Lemma fetchRecords_fulfilled (w : Tmp.World) (range : DateRange) (e : Tmp.Employee)
    (response : Response (list Tmp.AttendanceRecord)) (data : list Tmp.AttendanceRecord) :
  Tmp.getRecords w (Tmp.recordsUrl w range e) = Fulfilled response ->
  ok response = true -> json response = Fulfilled data ->
  Tmp.fetchRecords w range e = Fulfilled {[ Tmp.id e := data ]}.
Proof. intros Hr Hok Hj. unfold Tmp.fetchRecords. rewrite Hr, Hok, Hj. reflexivity. Qed.

(** What a load that succeeds leaves: one request per employee, in order,
    and, for employees with distinct ids, a mapping that holds the records
    fetched for each employee and nothing else. *)
Lemma fetchAttendanceData_fulfilled (w : Tmp.World) (st : Tmp.State)
    (d : Tmp.Employee -> list Tmp.AttendanceRecord) :
  NoDup (Tmp.id <$> Tmp.employees st) ->
  (forall e, e ∈ Tmp.employees st ->
     exists response,
       Tmp.getRecords w (Tmp.recordsUrl w (Tmp.dateRange st) e) = Fulfilled response
       /\ ok response = true /\ json response = Fulfilled (d e)) ->
  Tmp.fetchAttendanceData w st
  = ((fun e => Fetched (Tmp.recordsRequest w (Tmp.dateRange st) e)) <$> Tmp.employees st,
     Tmp.set_isLoading false
       (Tmp.set_attendanceData
          (Tmp.Object_assign ∅ ((fun e => {[ Tmp.id e := d e ]}) <$> Tmp.employees st))
          (Tmp.set_isLoading true st)))
  /\ (forall e, e ∈ Tmp.employees st ->
       Tmp.Object_assign ∅ ((fun e => {[ Tmp.id e := d e ]}) <$> Tmp.employees st) !! Tmp.id e
       = Some (d e))
  /\ (forall k, (forall e, e ∈ Tmp.employees st -> Tmp.id e <> k) ->
       Tmp.Object_assign ∅ ((fun e => {[ Tmp.id e := d e ]}) <$> Tmp.employees st) !! k = None).
Proof.
  intros Hnd Hall.
  assert (Hall' : forall e, e ∈ Tmp.employees st ->
            Tmp.fetchRecords w (Tmp.dateRange st) e = Fulfilled {[ Tmp.id e := d e ]}).
  { intros e He. destruct (Hall e He) as (response & Hr & Hok & Hj).
    exact (fetchRecords_fulfilled w _ e response (d e) Hr Hok Hj). }
  assert (Hk : forall k, Tmp.Object_assign ∅ ((fun e => {[ Tmp.id e := d e ]}) <$> Tmp.employees st) !! k
                         = d <$> last (filter (fun e => Tmp.id e = k) (Tmp.employees st))).
  { intros k. rewrite Object_assign_lookup.
    destruct (last _); [reflexivity|apply lookup_empty]. }
  split; [|split].
  - unfold Tmp.fetchAttendanceData.
    rewrite (Promise_all_fulfilled _ (fun e => {[ Tmp.id e := d e ]}) _ Hall'). reflexivity.
  - intros e He. rewrite Hk, (filter_unique_id _ _ Hnd He). reflexivity.
  - intros k Hno. rewrite Hk, (filter_id_none _ _ Hno). reflexivity.
Qed.

Section TmpFacts.
Import Tmp.

Variable w : World.

Lemma fetchAttendanceData_no_put (st : State) :
  List.filter isPut (fetchAttendanceData w st).1 = [].
Proof.
  unfold fetchAttendanceData.
  assert (Hreq : List.filter isPut
            ((fun employee => Fetched (recordsRequest w (dateRange st) employee)) <$> employees st) = []).
  { induction (employees st) as [|e l IH]; [reflexivity|]. cbn. exact IH. }
  destruct (Promise_all _); cbn [fst].
  - exact Hreq.
  - rewrite List.filter_app, Hreq. reflexivity.
Qed.

(** C7: with an edit session open (the employee id a safe integer, which
    is written in decimal digits), [saveEdit] makes one PUT request, to
    [/api/attendance], whose body is the serialized object of the five
    fields of the session (user id, date, status, comment, time); for
    employee 2, date 2024-03-05, status OFFICIAL_LEAVE, comment "medical"
    and an empty time the body is the text of the scenario.  When the route
    answers 2xx with JSON, the table is loaded again for the current range:
    one request for records is made per employee, with the dates of the
    range, and nothing else is fetched; the session is reset and only the
    mapping and the loading flag may differ otherwise; when these fetches
    succeed (employees with distinct ids) the mapping is replaced by the
    records fetched, each employee's id holding its records and no other id
    being present; when one of them fails the mapping is kept. *)
Theorem C7_saveEdit_put (st : State) (E : Z) (D : string) :
  editGuard st = Some (E, D) ->
  Z.abs E < 2 ^ 53 ->
  let edit := JObject [ ("userId", JNumber E);
                        ("attendanceDate", JString D);
                        ("status", JString (statusText (editStatus st)));
                        ("comment", JString (editComment st));
                        ("time", JString (editTime st)) ] in
  let put := {| url := "/api/attendance"; method := "PUT";
                headers := [("Content-Type", "application/json")];
                body := Some (stringify edit) |} in
  let result := saveEdit w st in
  List.filter isPut result.1 = [Fetched put]
  /\ (E = 2 -> D = "2024-03-05" -> editStatus st = OFFICIAL_LEAVE ->
      editComment st = "medical" -> editTime st = EmptyString ->
      stringify edit = scenarioBody)
  /\ (forall response data,
        putAttendance w (stringify edit) = Fulfilled response ->
        ok response = true -> json response = Fulfilled data ->
        let requests :=
          (fun employee =>
             Fetched {| url := API_BASE_URL w +:+ "/attendance/records?userId="
                               +:+ string_of_Z (id employee)
                               +:+ "&startDate=" +:+ format_yyyy_MM_dd (from (dateRange st))
                               +:+ "&endDate=" +:+ format_yyyy_MM_dd (to (dateRange st));
                        method := "GET"; headers := []; body := None |})
            <$> employees st in
        let sent := [ConsoleLog "Request body:"; Fetched put; ConsoleLog "Server response:"] in
        (exists rest, result.1 = sent ++ requests ++ rest /\ forall r, Fetched r ∉ rest)
        /\ result.2 = set_edit None None PRESENT EmptyString EmptyString
                        (set_isLoading false
                           (set_attendanceData (attendanceData result.2) st))
        /\ (forall records : Employee -> list AttendanceRecord,
              NoDup (id <$> employees st) ->
              (forall e, e ∈ employees st ->
                 exists answer,
                   getRecords w (recordsUrl w (dateRange st) e) = Fulfilled answer
                   /\ ok answer = true /\ json answer = Fulfilled (records e)) ->
              result.1 = sent ++ requests
              /\ (forall e, e ∈ employees st ->
                    attendanceData result.2 !! id e = Some (records e))
              /\ (forall k, (forall e, e ∈ employees st -> id e <> k) ->
                            attendanceData result.2 !! k = None))
        /\ (forall failed reason,
              failed ∈ employees st ->
              fetchRecords w (dateRange st) failed = Rejected reason ->
              attendanceData result.2 = attendanceData st)).
Proof.
  intros Hg _ edit put result.
  assert (Hr : result =
    let sent := [ConsoleLog "Request body:"; Fetched put] in
    match putAttendance w (stringify edit) with
    | Rejected error => (sent ++ saveEdit_catch error, st)
    | Fulfilled response =>
        if negb (ok response) then
          match text response with
          | Rejected error => (sent ++ saveEdit_catch error, st)
          | Fulfilled errorText =>
              (sent ++ saveEdit_catch
                 (Error ("HTTP error! status: " +:+ string_of_Z (Fetch.status response)
                         +:+ ", message: " +:+ errorText)),
               st)
          end
        else
          match json response with
          | Rejected error => (sent ++ saveEdit_catch error, st)
          | Fulfilled data =>
              let '(events, st1) := fetchAttendanceData w st in
              (sent ++ [ConsoleLog "Server response:"] ++ events,
               set_edit None None PRESENT EmptyString EmptyString st1)
          end
    end).
  { subst result. unfold saveEdit. rewrite Hg. reflexivity. }
  clearbody result. subst result. cbv zeta.
  split; [|split].
  - destruct (putAttendance w (stringify edit)) as [response|error]; [|reflexivity].
    destruct (ok response); cbn [negb].
    + destruct (json response) as [data|error]; [|reflexivity].
      pose proof (fetchAttendanceData_no_put st) as Hnp.
      destruct (fetchAttendanceData w st) as [events st1]. cbn [fst] in *.
      cbn. rewrite Hnp. reflexivity.
    + destruct (text response); reflexivity.
  - intros -> -> Hs Hc Ht. subst edit. rewrite Hs, Hc, Ht. reflexivity.
  - intros response data -> Hok ->. rewrite Hok. cbn [negb].
    fold (recordsUrl w (dateRange st)).
    change (fun employee : Employee =>
              Fetched {| url := recordsUrl w (dateRange st) employee; method := "GET";
                         headers := []; body := None |})
      with (fun employee : Employee => Fetched (recordsRequest w (dateRange st) employee)).
    split; [|split; [|split]].
    + unfold fetchAttendanceData. destruct (Promise_all _); cbn.
      * exists []. rewrite app_nil_r. split; [reflexivity|]. intros r. apply not_elem_of_nil.
      * eexists. split; [reflexivity|]. intros r Hr.
        apply list_elem_of_singleton in Hr. discriminate Hr.
    + unfold fetchAttendanceData. destruct (Promise_all _); reflexivity.
    + intros records Hnd Hall.
      destruct (fetchAttendanceData_fulfilled w st records Hnd Hall) as (-> & Hin & Hout).
      cbn. auto.
    + intros failed reason Hin Hf. unfold fetchAttendanceData.
      destruct (Promise_all_rejected (fetchRecords w (dateRange st) <$> employees st) reason)
        as [e' ->].
      { rewrite <- Hf. apply list_elem_of_fmap. eauto. }
      reflexivity.
Qed.

(** C2, as the code has it: when the fetch of the records of some employee
    fails, the load fails as a whole.  One request has been made for each
    employee, in order (none is repeated), the error is logged, loading is
    over, and the attendance mapping is the one from before the load: the
    records fetched for the other employees are not merged into it. *)
Theorem C2_failed_fetch_keeps_mapping (st : State) (failed : Employee) (reason : JSError) :
  failed ∈ employees st ->
  fetchRecords w (dateRange st) failed = Rejected reason ->
  let result := fetchAttendanceData w st in
  attendanceData result.2 = attendanceData st
  /\ isLoading result.2 = false
  /\ exists error,
       result.1 = ((fun employee => Fetched (recordsRequest w (dateRange st) employee))
                     <$> employees st)
                  ++ [ConsoleError "Error fetching attendance data:" error].
Proof.
  intros Hin Hf result. subst result. unfold fetchAttendanceData.
  destruct (Promise_all_rejected (fetchRecords w (dateRange st) <$> employees st) reason)
    as [e' ->].
  { rewrite <- Hf. apply list_elem_of_fmap. eauto. }
  cbn. eauto.
Qed.

End TmpFacts.

(** C2 as the specification has it fails: in the sample world the fetch for
    employee 2 fails and the one for employee 1, the only other employee,
    succeeds, and after the load the records of employee 1 are not in the
    mapping. *)
Lemma C2_counterexample :
  ~ (forall (w : Tmp.World) (st : Tmp.State) (failed : Tmp.Employee) (reason : JSError),
       failed ∈ Tmp.employees st ->
       Tmp.fetchRecords w (Tmp.dateRange st) failed = Rejected reason ->
       (forall other, other ∈ Tmp.employees st -> other <> failed ->
          exists data, Tmp.fetchRecords w (Tmp.dateRange st) other
                       = Fulfilled {[ Tmp.id other := data ]}) ->
       let mapping := Tmp.attendanceData (Tmp.fetchAttendanceData w st).2 in
       mapping !! Tmp.id failed = None
       /\ forall other data,
            other ∈ Tmp.employees st -> other <> failed ->
            Tmp.fetchRecords w (Tmp.dateRange st) other = Fulfilled {[ Tmp.id other := data ]} ->
            mapping !! Tmp.id other = Some data).
Proof.
  intros H.
  set (john := {| Tmp.id := 1; Tmp.name := "John Doe";
                  Tmp.remainingLeaveDays := 3; Tmp.latePenaltyPoints := 0 |}).
  set (jane := {| Tmp.id := 2; Tmp.name := "Jane Smith";
                  Tmp.remainingLeaveDays := 5; Tmp.latePenaltyPoints := 1 |}).
  assert (Hjohn : Tmp.fetchRecords Tmp.sampleWorld (Tmp.dateRange Tmp.sampleState) john
                  = Fulfilled {[ 1 := Tmp.sampleRecords ]}) by (vm_compute; reflexivity).
  assert (Hjane : Tmp.fetchRecords Tmp.sampleWorld (Tmp.dateRange Tmp.sampleState) jane
                  = Rejected (Error "Failed to fetch attendance data")) by (vm_compute; reflexivity).
  assert (Hin1 : john ∈ Tmp.employees Tmp.sampleState) by (apply elem_of_cons; left; reflexivity).
  assert (Hin2 : jane ∈ Tmp.employees Tmp.sampleState).
  { apply elem_of_cons; right. apply elem_of_cons; left. reflexivity. }
  destruct (H Tmp.sampleWorld Tmp.sampleState jane _ Hin2 Hjane) as [_ Hother].
  - intros other Ho Hne.
    apply elem_of_cons in Ho. destruct Ho as [-> | Ho]; [exists Tmp.sampleRecords; exact Hjohn|].
    apply elem_of_cons in Ho. destruct Ho as [-> | Ho]; [contradiction|].
    apply elem_of_nil in Ho. contradiction.
  - assert (Hne : john <> jane) by discriminate.
    specialize (Hother john Tmp.sampleRecords Hin1 Hne Hjohn).
    vm_compute in Hother. discriminate Hother.
Qed.

(** ** Ranges and workdays *)

(** C4: for [start <= end_] the workdays are in ascending order; a date is
    among them exactly when it is the midnight of a day from the day of
    [start] to the day of [end_] that is neither a Sunday (0) nor a Saturday
    (6), so no Saturday or Sunday is kept and no other day is dropped; a
    range of seven days has five workdays.  [dateRangeArray] of the remote
    page is the same list. *)
Theorem C4_workdays (start end_ : Date) :
  start <= end_ ->
  let workdays := Page.weekDaysOf start end_ in
  StronglySorted Z.lt workdays
  /\ (forall date, date ∈ workdays <->
        exists k, Day start <= k <= Day end_ /\ date = MakeDate k 0
                  /\ WeekDay date <> 0 /\ WeekDay date <> 6)
  /\ Forall (fun date => WeekDay date <> 0 /\ WeekDay date <> 6) workdays
  /\ (Day end_ = Day start + 6 -> length workdays = 5%nat)
  /\ (forall st : Tmp.State,
        Tmp.dateRange st = {| from := start; to := end_ |} -> Tmp.dateRangeArray st = workdays).
Proof.
  intros Hle workdays.
  assert (Hmem : forall date, date ∈ workdays <->
            exists k, Day start <= k <= Day end_ /\ date = MakeDate k 0
                      /\ WeekDay date <> 0 /\ WeekDay date <> 6).
  { intros date. subst workdays. rewrite weekDaysOf_spec by exact Hle.
    rewrite list_elem_of_In, List.filter_In, <- list_elem_of_In, list_elem_of_fmap.
    rewrite negb_true_iff, <- not_true_iff_false, isWeekend_spec.
    split.
    - intros [(k & -> & Hk) Hw]. apply elem_of_seqZ in Hk.
      exists k. repeat split; try lia; intros E; apply Hw; auto.
    - intros (k & Hk & -> & H0 & H6). split.
      + exists k. split; [reflexivity|]. apply elem_of_seqZ. lia.
      + intros [E|E]; contradiction. }
  split; [|split; [exact Hmem|split; [|split]]].
  - subst workdays. rewrite weekDaysOf_spec by exact Hle.
    apply StronglySorted_List_filter.
    eapply StronglySorted_fmap; [|apply StronglySorted_seqZ].
    intros x y Hxy. unfold MakeDate, msPerDay. lia.
  - apply Forall_forall. intros date Hd. apply Hmem in Hd.
    destruct Hd as (k & _ & _ & H0 & H6). auto.
  - intros H7. subst workdays. rewrite weekDaysOf_spec by exact Hle.
    replace (Day end_ - Day start + 1) with 7 by lia.
    apply seven_days_five_workdays.
  - intros st Hst. unfold Tmp.dateRangeArray. rewrite Hst. reflexivity.
Qed.

(** The week from Sunday 3 to Saturday 9 March 2024. *)
Lemma C4_workdays_witness :
  let start := mkDate 2024 2 3 0 0 0 0 in
  let end_ := mkDate 2024 2 9 23 59 59 999 in
  start <= end_
  /\ length (Page.weekDaysOf start end_) = 5%nat.
Proof.
  split; [vm_compute; discriminate|].
  apply (C4_workdays (mkDate 2024 2 3 0 0 0 0) (mkDate 2024 2 9 23 59 59 999)).
  - vm_compute. discriminate.
  - vm_compute. reflexivity.
Defined.

(** The workdays of a week that goes from a Sunday to the next Saturday. *)
Lemma week_workdays (d : Z) :
  (d + 4) mod 7 = 0 ->
  Page.weekDaysOf (MakeDate d 0) (MakeDate d 0 + 7 * msPerDay - 1)
  = (fun i => MakeDate d 0 + i * msPerDay) <$> [1; 2; 3; 4; 5].
Proof.
  intros Hd.
  assert (Hs : Day (MakeDate d 0) = d) by (apply Day_MakeDate; unfold msPerDay; lia).
  assert (He : Day (MakeDate d 0 + 7 * msPerDay - 1) = d + 6).
  { unfold Day, MakeDate. dlia. }
  rewrite weekDaysOf_spec by (unfold msPerDay; lia).
  rewrite Hs, He. replace (d + 6 - d + 1) with 7 by lia.
  change (seqZ d 7) with [0 + d; 1 + d; 2 + d; 3 + d; 4 + d; 5 + d; 6 + d].
  cbn [fmap list_fmap List.filter].
  rewrite !isWeekend_midnight.
  replace ((0 + d + 4) mod 7) with 0 by dlia.
  replace ((1 + d + 4) mod 7) with 1 by dlia.
  replace ((2 + d + 4) mod 7) with 2 by dlia.
  replace ((3 + d + 4) mod 7) with 3 by dlia.
  replace ((4 + d + 4) mod 7) with 4 by dlia.
  replace ((5 + d + 4) mod 7) with 5 by dlia.
  replace ((6 + d + 4) mod 7) with 6 by dlia.
  cbn. unfold MakeDate. repeat (f_equal; try lia).
Qed.

(** C3 as the specification has it fails for the week: on Wednesday 6 March
    2024 the range starts on a Sunday, not on a Monday. *)
Lemma C3_counterexample :
  ~ (forall (today : Date) (st : Page.State),
       WeekDay today = 3 ->
       let range := Page.dateRange (Page.handleViewModeChange today week st) in
       WeekDay (from range) = 1 /\ WeekDay (to range) = 0).
Proof.
  intros H.
  specialize (H (mkDate 2024 2 6 10 30 0 0)
                (Page.initialState (mkDate 2024 2 6 10 30 0 0)) eq_refl).
  vm_compute in H. destruct H as [H _]. discriminate H.
Qed.

(** C3, as the code has it.  [handleViewModeChange] selects the mode and sets
    the range, from the current time [today]:
    day: from [today] to [today];
    week: from the midnight that starts the Sunday on or before [today] to
    the last millisecond of the Saturday six days later; the workdays of that
    range are the five days after that Sunday, Monday to Friday;
    month: from the midnight that starts day 1 of the month of [today] to the
    last millisecond of the last day of that month;
    all: from the time of day of [today] on the same day of the same month one
    year earlier (on the last day of that month if it is shorter) to [today].
    Both pages compute the same range. *)
Theorem C3_view_mode_ranges (today : Date) (st : Page.State) (st2 : Tmp.State) :
  let range mode := Page.dateRange (Page.handleViewModeChange today mode st) in
  range day = {| from := today; to := today |}
  /\ (WeekDay (from (range week)) = 0
      /\ TimeWithinDay (from (range week)) = 0
      /\ from (range week) <= today < from (range week) + 7 * msPerDay
      /\ to (range week) = from (range week) + 7 * msPerDay - 1
      /\ WeekDay (to (range week)) = 6
      /\ Page.weekDaysOf (from (range week)) (to (range week))
         = (fun i => from (range week) + i * msPerDay) <$> [1; 2; 3; 4; 5])
  /\ (getFullYear (from (range month)) = getFullYear today
      /\ getMonth (from (range month)) = getMonth today
      /\ getDate (from (range month)) = 1
      /\ TimeWithinDay (from (range month)) = 0
      /\ getFullYear (to (range month)) = getFullYear today
      /\ getMonth (to (range month)) = getMonth today
      /\ getDate (to (range month)) = daysInMonth (InLeapYear today) (getMonth today)
      /\ TimeWithinDay (to (range month)) = msPerDay - 1
      /\ from (range month) <= today <= to (range month))
  /\ (to (range all) = today
      /\ getFullYear (from (range all)) = getFullYear today - 1
      /\ getMonth (from (range all)) = getMonth today
      /\ getDate (from (range all))
         = Z.min (getDate today) (daysInMonth (leapDay (getFullYear today - 1)) (getMonth today))
      /\ TimeWithinDay (from (range all)) = TimeWithinDay today
      /\ from (range all) <= today)
  /\ (forall mode, Page.viewMode (Page.handleViewModeChange today mode st) = mode)
  /\ (forall mode, Tmp.dateRange (Tmp.handleViewModeChange today mode st2) = range mode).
Proof.
  intros range.
  destruct (startOfWeek_spec today) as (Hs1 & Hs2 & Hs3).
  destruct (endOfWeek_spec today) as (He1 & He2 & He3).
  destruct (startOfMonth_spec today) as (Hm1 & Hm2 & Hm3 & Hm4 & Hm5).
  destruct (endOfMonth_spec today) as (Hn1 & Hn2 & Hn3 & Hn4 & Hn5).
  destruct (subMonths_12_spec today) as (Ha1 & Ha2 & Ha3 & Ha4 & Ha5).
  subst range. cbn [Page.handleViewModeChange Page.dateRange Page.set_view from to].
  split; [reflexivity|].
  split; [|split; [|split; [|split]]].
  - repeat (split; [assumption|]).
    rewrite He1. rewrite startOfWeek_eq.
    apply week_workdays. pose proof (WeekDay_bounds today). unfold WeekDay in *. dlia.
  - repeat (split; [assumption|]). assumption.
  - split; [reflexivity|]. repeat (split; [assumption|]). assumption.
  - intros []; reflexivity.
  - intros []; reflexivity.
Qed.

(** ** Days that have not come yet *)

(** C1 as the specification has it fails on the day of today: on Wednesday
    6 March 2024 at 10:30 the workday of index 2 of the week is that
    Wednesday, and employee 1 has the status of the pattern there. *)
Lemma C1_counterexample :
  ~ (forall (today start end_ : Date) (employeeId : Z) (index : nat) (date : Date),
       Page.weekDaysOf start end_ !! index = Some date ->
       Day today <= Day date ->
       Page.status (Page.getStatus (Page.weekDaysOf start end_) today employeeId index)
       = Page.NotYet).
Proof.
  intros H.
  specialize (H Page.sampleToday (startOfWeek Page.sampleToday) (endOfWeek Page.sampleToday)
                1 2%nat (mkDate 2024 2 6 0 0 0 0)).
  assert (H1 : Page.weekDaysOf (startOfWeek Page.sampleToday) (endOfWeek Page.sampleToday)
               !! 2%nat = Some (mkDate 2024 2 6 0 0 0 0)) by (vm_compute; reflexivity).
  assert (H2 : Day Page.sampleToday <= Day (mkDate 2024 2 6 0 0 0 0))
    by (vm_compute; discriminate).
  specialize (H H1 H2). vm_compute in H. discriminate H.
Qed.

Lemma not_before (date today : Date) :
  Day today < Day date \/ (Day today = Day date /\ TimeWithinDay today <= TimeWithinDay date) ->
  isBefore date today = false.
Proof.
  intros H. unfold isBefore. apply Z.ltb_ge.
  pose proof (MakeDate_Day date) as Hd. pose proof (MakeDate_Day today) as Ht.
  pose proof (TimeWithinDay_bounds date). pose proof (TimeWithinDay_bounds today).
  unfold MakeDate, msPerDay in *. lia.
Qed.

(** C1, as the code has it: [getStatus] returns [{ status: "Not Yet" }],
    whatever the employee id and its pattern, when the workday is a day after
    today, or is the day of today with a time of day that is not before the
    current one (the workdays enumerated are midnights: for the day of today
    this is the case only when the current time is midnight). *)
Theorem C1_not_yet_from_now (weekDays : list Date) (today : Date)
    (employeeId : Z) (index : nat) (date : Date) :
  weekDays !! index = Some date ->
  Day today < Day date \/ (Day today = Day date /\ TimeWithinDay today <= TimeWithinDay date) ->
  Page.getStatus weekDays today employeeId index = Page.notYetInfo.
Proof.
  intros Hd Hn. unfold Page.getStatus. rewrite Hd, (not_before _ _ Hn). reflexivity.
Qed.

(** Thursday 7 March, seen from Wednesday 6 March at 10:30. *)
Lemma C1_not_yet_from_now_witness :
  let weekDays := Page.weekDaysOf (startOfWeek Page.sampleToday) (endOfWeek Page.sampleToday) in
  weekDays !! 3%nat = Some (mkDate 2024 2 7 0 0 0 0)
  /\ Day Page.sampleToday < Day (mkDate 2024 2 7 0 0 0 0)
  /\ Page.getStatus weekDays Page.sampleToday 1 3 = Page.notYetInfo.
Proof.
  split; [vm_compute; reflexivity|]. split; [vm_compute; reflexivity|].
  apply (C1_not_yet_from_now _ Page.sampleToday 1 3%nat (mkDate 2024 2 7 0 0 0 0)).
  - vm_compute. reflexivity.
  - left. vm_compute. reflexivity.
Defined.

(** ** Instances on the sample data *)

(** Employee 7 on Monday 4 March, seen from Wednesday 6 March. *)
Lemma C10_unknown_employee_witness :
  let weekDays := Page.weekDaysOf (startOfWeek Page.sampleToday) (endOfWeek Page.sampleToday) in
  weekDays !! 0%nat = Some (mkDate 2024 2 4 0 0 0 0)
  /\ mkDate 2024 2 4 0 0 0 0 < Page.sampleToday
  /\ Page.getStatus weekDays Page.sampleToday 7 0 = Page.notYetInfo.
Proof.
  split; [vm_compute; reflexivity|]. split; [vm_compute; reflexivity|].
  apply (C10_unknown_employee _ Page.sampleToday 7 0%nat (mkDate 2024 2 4 0 0 0 0)).
  - vm_compute. reflexivity.
  - vm_compute. reflexivity.
  - discriminate.
  - discriminate.
  - discriminate.
Defined.

Lemma sampleLoaded_balances :
  Forall (fun row => (0 <= Page.balance row)%Q) (Page.attendanceData Page.sampleLoaded).
Proof. repeat constructor; vm_compute; discriminate. Defined.

(** The button -1 of employee 3, whose balance is 1. *)
Lemma C5_vacation_days_floor_witness :
  Forall (fun row => (0 <= Page.balance row)%Q) (Page.attendanceData Page.sampleLoaded)
  /\ Forall (fun row => (0 <= Page.balance row)%Q)
            (Page.attendanceData (Page.handleVacationDayChange 3 (- (1)) Page.sampleLoaded)).
Proof.
  split; [exact sampleLoaded_balances|].
  apply (C5_vacation_days_floor Page.sampleLoaded 3 (- (1))%Q sampleLoaded_balances).
Defined.

(** Saving the sample edit session. *)
Lemma C6_saveEdit_frame_witness :
  Page.editGuard Page.sampleEditing = Some (1, mkDate 2024 2 5 0 0 0 0)
  /\ length (Page.attendanceData (Page.saveEdit Page.sampleEditing))
     = length (Page.attendanceData Page.sampleEditing).
Proof.
  split; [reflexivity|].
  apply (C6_saveEdit_frame Page.sampleEditing 1 (mkDate 2024 2 5 0 0 0 0) eq_refl).
Defined.

(** Saving the edit session of the scenario, in the world where every fetch
    succeeds: the table loaded again shows the day that was saved. *)
Lemma C7_saveEdit_put_witness :
  let result := Tmp.saveEdit Tmp.savedWorld Tmp.sampleState in
  Tmp.editGuard Tmp.sampleState = Some (2, "2024-03-05")
  /\ Z.abs 2 < 2 ^ 53
  /\ List.filter Tmp.isPut result.1
     = [Fetched {| url := "/api/attendance"; method := "PUT";
                   headers := [("Content-Type", "application/json")];
                   body := Some Tmp.scenarioBody |}]
  /\ Tmp.attendanceData Tmp.sampleState = ∅
  /\ Tmp.attendanceData result.2 !! 1 = Some Tmp.sampleRecords
  /\ Tmp.attendanceData result.2 !! 2 = Some Tmp.savedRecords
  /\ Tmp.editEmployeeId result.2 = None.
Proof.
  intros result. subst result.
  pose proof (C7_saveEdit_put Tmp.savedWorld Tmp.sampleState 2 "2024-03-05" eq_refl eq_refl)
    as (Hput & _ & Hreload).
  destruct (Hreload _ (JObject [("message", JString "updated")]) eq_refl eq_refl eq_refl)
    as (_ & Hstate & Hok & _).
  destruct (Hok (fun e => if Tmp.id e =? 2 then Tmp.savedRecords else Tmp.sampleRecords))
    as (_ & Hin & _).
  { cbn. apply NoDup_cons. split; [|apply NoDup_singleton].
    intros H. apply list_elem_of_singleton in H. discriminate H. }
  { intros e He. cbn in He.
    apply elem_of_cons in He. destruct He as [->|He];
      [|apply list_elem_of_singleton in He; subst e];
      (eexists; split; [reflexivity|]; split; [reflexivity|]); vm_compute; reflexivity. }
  split; [reflexivity|]. split; [reflexivity|]. split; [exact Hput|]. split; [reflexivity|].
  split; [|split].
  - apply (Hin {| Tmp.id := 1; Tmp.name := "John Doe";
                  Tmp.remainingLeaveDays := 3; Tmp.latePenaltyPoints := 0 |}).
    apply elem_of_cons; left; reflexivity.
  - apply (Hin {| Tmp.id := 2; Tmp.name := "Jane Smith";
                  Tmp.remainingLeaveDays := 5; Tmp.latePenaltyPoints := 1 |}).
    apply elem_of_cons; right; apply elem_of_cons; left; reflexivity.
  - rewrite Hstate. reflexivity.
Defined.

(** The load of the sample state, where the fetch for employee 2 fails. *)
Lemma C2_failed_fetch_keeps_mapping_witness :
  let failed := {| Tmp.id := 2; Tmp.name := "Jane Smith";
                   Tmp.remainingLeaveDays := 5; Tmp.latePenaltyPoints := 1 |} in
  failed ∈ Tmp.employees Tmp.sampleState
  /\ Tmp.fetchRecords Tmp.sampleWorld (Tmp.dateRange Tmp.sampleState) failed
     = Rejected (Error "Failed to fetch attendance data")
  /\ Tmp.attendanceData (Tmp.fetchAttendanceData Tmp.sampleWorld Tmp.sampleState).2
     = Tmp.attendanceData Tmp.sampleState.
Proof.
  assert (Hin : {| Tmp.id := 2; Tmp.name := "Jane Smith";
                   Tmp.remainingLeaveDays := 5; Tmp.latePenaltyPoints := 1 |}
                ∈ Tmp.employees Tmp.sampleState).
  { apply elem_of_cons; right. apply elem_of_cons; left. reflexivity. }
  assert (Hf : Tmp.fetchRecords Tmp.sampleWorld (Tmp.dateRange Tmp.sampleState)
                 {| Tmp.id := 2; Tmp.name := "Jane Smith";
                    Tmp.remainingLeaveDays := 5; Tmp.latePenaltyPoints := 1 |}
               = Rejected (Error "Failed to fetch attendance data")).
  { vm_compute. reflexivity. }
  split; [exact Hin|]. split; [exact Hf|].
  apply (C2_failed_fetch_keeps_mapping Tmp.sampleWorld Tmp.sampleState _ _ Hin Hf).
Defined.

(** ** More on the page over generated mock data *)

Lemma weekDaysOf_one_day (today : Date) :
  Page.weekDaysOf today today = if isWeekend today then [] else [MakeDate (Day today) 0].
Proof.
  rewrite weekDaysOf_spec by lia.
  replace (Day today - Day today + 1) with 1 by lia.
  change (seqZ (Day today) 1) with [0 + Day today]. cbn [fmap list_fmap List.filter].
  replace (0 + Day today) with (Day today) by lia.
  assert (E : isWeekend (MakeDate (Day today) 0) = isWeekend today).
  { unfold isWeekend, getDay, WeekDay. rewrite Day_MakeDate by (unfold msPerDay; lia). reflexivity. }
  rewrite E. destruct (isWeekend today); reflexivity.
Qed.

Lemma fetchAttendanceData_rows (today start end_ : Date) :
  Page.fetchAttendanceData today start end_
  = (fun employee =>
       {| Page.employee := employee;
          Page.attendance :=
            imap (fun index date =>
                    Page.entryOf date
                      (Page.getStatus (Page.weekDaysOf start end_) today (Page.id employee) index))
                 (Page.weekDaysOf start end_) |}) <$> Page.employees.
Proof. reflexivity. Qed.

(** X1: for every view mode the range that [handleViewModeChange] sets goes
    from a time that is not after the current time to one that is not before
    it, in both pages. *)
Theorem X1_range_contains_today (today : Date) (mode : ViewMode)
    (st : Page.State) (st2 : Tmp.State) :
  let range := Page.dateRange (Page.handleViewModeChange today mode st) in
  from range <= today <= to range
  /\ Tmp.dateRange (Tmp.handleViewModeChange today mode st2) = range.
Proof.
  destruct (startOfWeek_spec today) as (_ & _ & Hs).
  destruct (endOfWeek_spec today) as (He & _ & _).
  destruct (startOfMonth_spec today) as (_ & _ & _ & _ & Hm).
  destruct (endOfMonth_spec today) as (_ & _ & _ & _ & Hn).
  destruct (subMonths_12_spec today) as (_ & _ & _ & _ & Ha).
  destruct mode; cbn; (split; [lia|reflexivity]).
Qed.

(** X2: the view of the current day.  On a Saturday or a Sunday the table has
    no column at all.  On another day it has the one column of that day, and
    the cells are those of index 0 of the patterns (Vacation, Late at 10:15,
    Present at 09:50) as soon as midnight has passed, whatever the date is. *)
Theorem X2_day_view (today : Date) (st : Page.State) :
  let st' := Page.loadEffect today (Page.handleViewModeChange today day st) in
  let cells row := (fun a => (Page.a_date a, Page.a_status a, Page.a_checkInTime a))
                     <$> Page.attendance row in
  (isWeekend today = true ->
     Page.headerDates st' = [] /\ cells <$> Page.attendanceData st' = [[]; []; []])
  /\ (isWeekend today = false -> 0 < TimeWithinDay today ->
      Page.headerDates st' = [MakeDate (Day today) 0]
      /\ cells <$> Page.attendanceData st'
         = [ [(MakeDate (Day today) 0, Page.Vacation, None)];
             [(MakeDate (Day today) 0, Page.Late, Some "10:15")];
             [(MakeDate (Day today) 0, Page.Present, Some "09:50")] ]).
Proof.
  intros st' cells. subst st' cells.
  unfold Page.loadEffect, Page.headerDates.
  cbn [Page.handleViewModeChange Page.dateRange Page.set_view Page.set_isLoading
       Page.set_attendanceData Page.attendanceData from to].
  rewrite fetchAttendanceData_rows, weekDaysOf_one_day.
  split.
  - intros ->. split; reflexivity.
  - intros -> Ht.
    assert (Hb : isBefore (MakeDate (Day today) 0) today = true).
    { unfold isBefore. apply Z.ltb_lt. pose proof (MakeDate_Day today) as E.
      unfold MakeDate in *. lia. }
    cbn. unfold Page.getStatus. cbn. rewrite Hb. cbn. split; reflexivity.
Qed.

Lemma X2_day_view_witness :
  isWeekend Page.sampleToday = false
  /\ 0 < TimeWithinDay Page.sampleToday
  /\ Page.headerDates (Page.loadEffect Page.sampleToday
                         (Page.handleViewModeChange Page.sampleToday day Page.sampleLoaded))
     = [MakeDate (Day Page.sampleToday) 0].
Proof.
  split; [reflexivity|]. split; [reflexivity|].
  apply (X2_day_view Page.sampleToday Page.sampleLoaded); reflexivity.
Defined.

Lemma week_range_workdays (today : Date) :
  Page.weekDaysOf (startOfWeek today) (endOfWeek today)
  = (fun i => MakeDate (Day today - WeekDay today) 0 + i * msPerDay) <$> [1; 2; 3; 4; 5].
Proof.
  destruct (endOfWeek_spec today) as (-> & _ & _). rewrite startOfWeek_eq.
  apply week_workdays. pose proof (WeekDay_bounds today). unfold WeekDay in *. dlia.
Qed.

(** X3: the status of a day depends on its index in the range shown, not on
    its date.  From Tuesday to Friday, once midnight has passed, the week
    view shows employee 1 as Present at 09:40 on the current day (the cell of
    index [WeekDay today - 1] of the first row), while the view of the day
    shows the same employee on Vacation on the same day. *)
Theorem X3_status_depends_on_view (today : Date) (st : Page.State) :
  2 <= WeekDay today <= 5 -> 0 < TimeWithinDay today ->
  let weekView := Page.loadEffect today (Page.handleViewModeChange today week st) in
  let dayView := Page.loadEffect today (Page.handleViewModeChange today day st) in
  exists rowW rowD,
    Page.attendanceData weekView !! 0%nat = Some rowW
    /\ Page.attendanceData dayView !! 0%nat = Some rowD
    /\ Page.id (Page.employee rowW) = 1 /\ Page.id (Page.employee rowD) = 1
    /\ Page.attendance rowW !! Z.to_nat (WeekDay today - 1)
       = Some {| Page.a_date := MakeDate (Day today) 0; Page.a_status := Page.Present;
                 Page.a_checkInTime := Some "09:40"; Page.a_comment := None |}
    /\ Page.attendance rowD
       = [ {| Page.a_date := MakeDate (Day today) 0; Page.a_status := Page.Vacation;
              Page.a_checkInTime := None; Page.a_comment := None |} ].
Proof.
  intros Hw Ht weekView dayView. subst weekView dayView.
  unfold Page.loadEffect.
  cbn [Page.handleViewModeChange Page.dateRange Page.set_view Page.set_isLoading
       Page.set_attendanceData Page.attendanceData from to].
  rewrite !fetchAttendanceData_rows, weekDaysOf_one_day.
  assert (Hwe : isWeekend today = false).
  { unfold isWeekend, getDay. destruct (Z.eqb_spec (WeekDay today) 0); [lia|].
    destruct (Z.eqb_spec (WeekDay today) 6); [lia|]. reflexivity. }
  rewrite Hwe.
  assert (Hb : isBefore (MakeDate (Day today) 0) today = true).
  { unfold isBefore. apply Z.ltb_lt. pose proof (MakeDate_Day today) as E.
    unfold MakeDate in *. lia. }
  set (idx := Z.to_nat (WeekDay today - 1)).
  assert (Hc : (WeekDay today = 2 /\ idx = 1%nat) \/ (WeekDay today = 3 /\ idx = 2%nat)
               \/ (WeekDay today = 4 /\ idx = 3%nat) \/ (WeekDay today = 5 /\ idx = 4%nat))
    by (subst idx; lia).
  assert (Hl : Page.weekDaysOf (startOfWeek today) (endOfWeek today) !! idx
               = Some (MakeDate (Day today) 0)).
  { rewrite week_range_workdays.
    destruct Hc as [[E ->]|[[E ->]|[[E ->]|[E ->]]]];
      cbn [fmap list_fmap lookup list_lookup]; f_equal; unfold MakeDate; lia. }
  assert (Hidx : (idx mod 10 =? 0)%nat = false).
  { destruct Hc as [[_ ->]|[[_ ->]|[[_ ->]|[_ ->]]]]; reflexivity. }
  eexists; eexists. split; [reflexivity|]. split; [reflexivity|].
  split; [reflexivity|]. split; [reflexivity|]. split.
  - cbn [Page.attendance]. rewrite list_lookup_imap, Hl. cbn [fmap option_fmap option_map].
    unfold Page.getStatus. rewrite Hl, Hb. cbn [negb Page.id]. rewrite Hidx. reflexivity.
  - cbn. unfold Page.getStatus. cbn. rewrite Hb. reflexivity.
Qed.

Lemma X3_status_depends_on_view_witness :
  2 <= WeekDay Page.sampleToday <= 5
  /\ 0 < TimeWithinDay Page.sampleToday
  /\ exists rowW rowD,
       Page.attendanceData (Page.loadEffect Page.sampleToday
          (Page.handleViewModeChange Page.sampleToday week Page.sampleLoaded)) !! 0%nat = Some rowW
       /\ Page.attendanceData (Page.loadEffect Page.sampleToday
          (Page.handleViewModeChange Page.sampleToday day Page.sampleLoaded)) !! 0%nat = Some rowD
       /\ Page.id (Page.employee rowW) = 1 /\ Page.id (Page.employee rowD) = 1
       /\ Page.attendance rowW !! Z.to_nat (WeekDay Page.sampleToday - 1)
          = Some {| Page.a_date := MakeDate (Day Page.sampleToday) 0; Page.a_status := Page.Present;
                    Page.a_checkInTime := Some "09:40"; Page.a_comment := None |}
       /\ Page.attendance rowD
          = [ {| Page.a_date := MakeDate (Day Page.sampleToday) 0; Page.a_status := Page.Vacation;
                 Page.a_checkInTime := None; Page.a_comment := None |} ].
Proof.
  assert (H1 : 2 <= WeekDay Page.sampleToday <= 5) by (split; discriminate).
  assert (H2 : 0 < TimeWithinDay Page.sampleToday) by reflexivity.
  split; [exact H1|]. split; [exact H2|].
  exact (X3_status_depends_on_view Page.sampleToday Page.sampleLoaded H1 H2).
Defined.

(** X4: the generated table has one row for each of the three employees, in
    order; every row has the workdays of the range as the dates of its
    cells, in order, so the rows are aligned with the header, which shows
    the dates of the first row; no cell has a comment. *)
Theorem X4_table_shape (today : Date) (st : Page.State) :
  let st' := Page.loadEffect today st in
  let workdays := Page.weekDaysOf (from (Page.dateRange st)) (to (Page.dateRange st)) in
  Page.employee <$> Page.attendanceData st' = Page.employees
  /\ Forall (fun row => Page.a_date <$> Page.attendance row = workdays
                        /\ Forall (fun a => Page.a_comment a = None) (Page.attendance row))
            (Page.attendanceData st')
  /\ Page.headerDates st' = workdays
  /\ Page.isLoading st' = false.
Proof.
  intros st' workdays. subst st'. unfold Page.loadEffect, Page.headerDates.
  cbn [Page.set_isLoading Page.set_attendanceData Page.attendanceData Page.dateRange
       Page.isLoading].
  rewrite fetchAttendanceData_rows. fold workdays.
  assert (Hd : forall f : nat -> Date -> Page.StatusInfo,
            Page.a_date <$> imap (fun index date => Page.entryOf date (f index date)) workdays
            = workdays).
  { intros f. apply list_eq. intros i. rewrite list_lookup_fmap, list_lookup_imap.
    destruct (workdays !! i); reflexivity. }
  split; [reflexivity|]. split; [|split; [|reflexivity]].
  - repeat constructor; cbn [Page.attendance]; try apply Hd;
      apply Forall_forall; intros a Ha; apply elem_of_lookup_imap in Ha;
      destruct Ha as (i & date & -> & _); reflexivity.
  - cbn. apply Hd.
Qed.

(** X5: in the generated table a cell is disabled (and empty) exactly when
    the midnight that starts its day is not before the current time; every
    other cell shows a status of the employee's pattern and can be edited. *)
Theorem X5_disabled_cells (today start end_ : Date) (row : Page.EmployeeRow)
    (j : nat) (a : Page.AttendanceEntry) :
  row ∈ Page.fetchAttendanceData today start end_ ->
  Page.attendance row !! j = Some a ->
  (Page.cellDisabled a = true <-> today <= Page.a_date a)
  /\ (Page.cellDisabled a = true -> Page.cellText a = [])
  /\ (Page.cellDisabled a = false ->
      forall st, Page.editDate (Page.cellClick row a st) = Some (Page.a_date a)
                 /\ Page.editEmployeeId (Page.cellClick row a st) = Some (Page.id (Page.employee row))
                 /\ Page.editStatus (Page.cellClick row a st) = Page.a_status a).
Proof.
  intros Hrow Ha. rewrite fetchAttendanceData_rows in Hrow.
  apply list_elem_of_fmap in Hrow. destruct Hrow as (e & -> & He).
  cbn [Page.attendance] in Ha. rewrite list_lookup_imap in Ha.
  destruct (Page.weekDaysOf start end_ !! j) as [date|] eqn:Hj; [|discriminate].
  cbn in Ha. injection Ha as <-.
  assert (Hs : (today <= date /\ Page.getStatus (Page.weekDaysOf start end_) today (Page.id e) j
                                 = Page.notYetInfo)
               \/ (date < today
                   /\ Page.status (Page.getStatus (Page.weekDaysOf start end_) today (Page.id e) j)
                      <> Page.NotYet)).
  { unfold Page.getStatus. rewrite Hj. unfold isBefore.
    destruct (Z.ltb_spec date today) as [Hlt|Hge]; [right|left; auto].
    split; [exact Hlt|]. cbn [negb].
    unfold Page.employees in He.
    repeat (apply elem_of_cons in He; destruct He as [->|He]);
      [| | |apply elem_of_nil in He; contradiction]; cbn [Page.id].
    - destruct (j mod 10 =? 0)%nat; discriminate.
    - destruct (j mod 5 =? 0)%nat; discriminate.
    - pose proof (Nat.mod_upper_bound j 5 ltac:(lia)) as Hm.
      destruct (j mod 5)%nat as [|[|[|[|[|k]]]]]; try discriminate. lia. }
  unfold Page.cellDisabled, Page.cellText, Page.cellClick, Page.handleEdit.
  cbn [Page.entryOf Page.a_status Page.a_date Page.employee].
  destruct Hs as [[Hge ->]|[Hlt Hne]].
  - cbn. repeat split; try lia; try discriminate; auto.
  - destruct (Page.status _) eqn:Hst; try contradiction; cbn;
      repeat split; try lia; try discriminate; auto.
Qed.

(** The cell of Thursday 7 March in the first row of the sample week. *)
Lemma X5_disabled_cells_witness :
  exists row a,
    row ∈ Page.fetchAttendanceData Page.sampleToday (startOfWeek Page.sampleToday)
                                    (endOfWeek Page.sampleToday)
    /\ Page.attendance row !! 3%nat = Some a
    /\ (Page.cellDisabled a = true <-> Page.sampleToday <= Page.a_date a).
Proof.
  assert (Hrows : exists row rows,
            Page.fetchAttendanceData Page.sampleToday (startOfWeek Page.sampleToday)
                                     (endOfWeek Page.sampleToday) = row :: rows
            /\ exists a, Page.attendance row !! 3%nat = Some a).
  { eexists; eexists; split; [vm_compute; reflexivity|]. eexists. reflexivity. }
  destruct Hrows as (row & rows & Hr & a & Ha).
  exists row, a.
  assert (Hin : row ∈ Page.fetchAttendanceData Page.sampleToday (startOfWeek Page.sampleToday)
                                                 (endOfWeek Page.sampleToday)).
  { rewrite Hr. apply elem_of_cons. left. reflexivity. }
  split; [exact Hin|]. split; [exact Ha|].
  apply (X5_disabled_cells _ _ _ row 3%nat a Hin Ha).
Defined.

Lemma getStatus_cases (weekDays : list Date) (today : Date) (employeeId : Z) (index : nat) :
  let s := Page.getStatus weekDays today employeeId index in
  s = Page.notYetInfo
  \/ s = {| Page.status := Page.Vacation; Page.checkInTime := None; Page.comment := None |}
  \/ s = {| Page.status := Page.Present; Page.checkInTime := Some "09:40"; Page.comment := None |}
  \/ s = {| Page.status := Page.Late; Page.checkInTime := Some "10:15"; Page.comment := None |}
  \/ s = {| Page.status := Page.Absent; Page.checkInTime := None; Page.comment := None |}
  \/ s = {| Page.status := Page.Present; Page.checkInTime := Some "09:50"; Page.comment := None |}
  \/ s = {| Page.status := Page.OfficialLeave; Page.checkInTime := None; Page.comment := None |}.
Proof.
  cbv zeta. unfold Page.getStatus, Page.notYetInfo.
  destruct (negb _); [auto|].
  destruct employeeId as [|p|p]; [auto| |auto].
  destruct p as [[p|p|]|[p|p|]|]; auto.
  - destruct (index mod 5)%nat as [|[|[|[|[|k]]]]]; cbn; auto 10.
  - destruct (index mod 5 =? 0)%nat; auto 10.
  - destruct (index mod 10 =? 0)%nat; auto 10.
Qed.

(** X6: whatever the arguments, the result of [getStatus] has a check-in
    time exactly when its status is Present or Late, and never a comment. *)
Theorem X6_getStatus_time (weekDays : list Date) (today : Date) (employeeId : Z) (index : nat) :
  let s := Page.getStatus weekDays today employeeId index in
  (is_Some (Page.checkInTime s) <-> Page.status s = Page.Present \/ Page.status s = Page.Late)
  /\ Page.comment s = None.
Proof.
  intros s. subst s.
  destruct (getStatus_cases weekDays today employeeId index) as [E|[E|[E|[E|[E|[E|E]]]]]];
    rewrite E; cbn; (split; [|reflexivity]);
    (split; [intros [x Hx]; first [discriminate Hx | auto]
            |intros [H|H]; first [discriminate H | eauto]]).
Qed.

(** ** Leave days, fines and colours *)

Lemma Math_max_spec (x : Q) :
  ((0 <= x)%Q -> (Page.Math_max 0 x == x)%Q) /\ ((x <= 0)%Q -> (Page.Math_max 0 x == 0)%Q).
Proof.
  unfold Page.Math_max. split; intros H.
  - apply Q.max_r. exact H.
  - apply Q.max_l. exact H.
Qed.

Lemma handleVacationDayChange_lookup (st : Page.State) (employeeId : Z) (change : Q)
    (i : nat) (row : Page.EmployeeRow) :
  Page.attendanceData st !! i = Some row ->
  Page.attendanceData (Page.handleVacationDayChange employeeId change st) !! i
  = Some (if Page.id (Page.employee row) =? employeeId
          then {| Page.employee :=
                    {| Page.id := Page.id (Page.employee row);
                       Page.name := Page.name (Page.employee row);
                       Page.remainingVacationDays :=
                         Page.Math_max 0 (Page.remainingVacationDays (Page.employee row) + change);
                       Page.accumulatedFine := Page.accumulatedFine (Page.employee row) |};
                  Page.attendance := Page.attendance row |}
          else row).
Proof.
  intros Hi. unfold Page.handleVacationDayChange.
  cbn [Page.attendanceData Page.set_attendanceData].
  rewrite list_lookup_fmap, Hi. reflexivity.
Qed.

(** X7: with a balance that is not negative, a leave-day button is disabled
    exactly when its change would make the balance negative; so a click on
    a button that is enabled never reaches the floor: the new balance is the
    old one plus the change. *)
Theorem X7_enabled_buttons_exact (st : Page.State) (i : nat) (row : Page.EmployeeRow)
    (control : Page.VacationControl) :
  Page.attendanceData st !! i = Some row ->
  control ∈ Page.vacationControls row ->
  (0 <= Page.balance row)%Q ->
  (Page.disabled control = true <-> (Page.balance row + Page.change control < 0)%Q)
  /\ (Page.disabled control = false ->
      exists row',
        Page.attendanceData
          (Page.handleVacationDayChange (Page.id (Page.employee row)) (Page.change control) st) !! i
        = Some row'
        /\ (Page.balance row' == Page.balance row + Page.change control)%Q).
Proof.
  intros Hi Hc Hb.
  assert (Hiff : Page.disabled control = true
                 <-> (Page.balance row + Page.change control < 0)%Q).
  { unfold Page.vacationControls in Hc. fold (Page.balance row) in Hc.
    repeat (apply elem_of_cons in Hc; destruct Hc as [->|Hc]);
      [| | | |apply elem_of_nil in Hc; contradiction];
      cbn [Page.disabled Page.change]; try rewrite lessThan_spec;
      split; intros H; try discriminate H; lra. }
  split; [exact Hiff|]. intros Hd.
  rewrite (handleVacationDayChange_lookup _ _ _ _ _ Hi), Z.eqb_refl.
  eexists; split; [reflexivity|]. unfold Page.balance at 1. cbn.
  apply Math_max_spec. fold (Page.balance row).
  destruct (Qlt_le_dec (Page.balance row + Page.change control) 0) as [Hlt|Hle]; [|exact Hle].
  apply Hiff in Hlt. congruence.
Qed.

Lemma sampleLoaded_third_row :
  exists row, Page.attendanceData Page.sampleLoaded !! 2%nat = Some row
              /\ (Page.balance row == 1)%Q.
Proof. eexists. split; [vm_compute; reflexivity|]. reflexivity. Defined.

(** The button -1 of employee 3, whose balance is 1. *)
Lemma X7_enabled_buttons_exact_witness :
  exists row control,
    Page.attendanceData Page.sampleLoaded !! 2%nat = Some row
    /\ control ∈ Page.vacationControls row
    /\ (0 <= Page.balance row)%Q
    /\ (Page.disabled control = true <-> (Page.balance row + Page.change control < 0)%Q).
Proof.
  destruct sampleLoaded_third_row as (row & Hrow & Hbal).
  exists row, {| Page.label := "-1"; Page.change := - (1);
                 Page.disabled := Page.lessThan (Page.balance row) 1 |}.
  assert (Hc : {| Page.label := "-1"; Page.change := - (1);
                  Page.disabled := Page.lessThan (Page.balance row) 1 |}
               ∈ Page.vacationControls row).
  { unfold Page.vacationControls. fold (Page.balance row).
    do 3 (apply elem_of_cons; right). apply elem_of_cons; left. reflexivity. }
  assert (Hb : (0 <= Page.balance row)%Q) by (rewrite Hbal; discriminate).
  split; [exact Hrow|]. split; [exact Hc|]. split; [exact Hb|].
  apply (X7_enabled_buttons_exact Page.sampleLoaded 2%nat row _ Hrow Hc Hb).
Defined.

(** X8: every click on a leave-day button can be undone.  For a balance
    that is a multiple of one half, not negative and below 2^51 (on these
    numbers the additions and comparisons of the source are exact in
    floating point too), a click on a button that is enabled gives the
    balance plus the change, again a multiple of one half that is not
    negative; the button of the opposite change is then enabled, and a click
    on it gives the balance from before.  The other fields of the row are
    kept. *)
Theorem X8_change_and_back (st : Page.State) (i : nat) (row : Page.EmployeeRow)
    (control : Page.VacationControl) (k : Z) :
  Page.attendanceData st !! i = Some row ->
  control ∈ Page.vacationControls row ->
  Page.disabled control = false ->
  (Page.balance row == inject_Z k * (1 # 2))%Q -> 0 <= k < 2 ^ 52 ->
  let e := Page.id (Page.employee row) in
  let st1 := Page.handleVacationDayChange e (Page.change control) st in
  exists row1 k1 back row2,
    Page.attendanceData st1 !! i = Some row1
    /\ (Page.balance row1 == Page.balance row + Page.change control)%Q
    /\ (Page.balance row1 == inject_Z k1 * (1 # 2))%Q /\ 0 <= k1 <= k + 2
    /\ back ∈ Page.vacationControls row1
    /\ (Page.change back == - Page.change control)%Q
    /\ Page.disabled back = false
    /\ Page.attendanceData (Page.handleVacationDayChange e (Page.change back) st1) !! i
       = Some row2
    /\ (Page.balance row2 == Page.balance row)%Q
    /\ Page.attendance row2 = Page.attendance row
    /\ Page.id (Page.employee row2) = e
    /\ Page.name (Page.employee row2) = Page.name (Page.employee row)
    /\ Page.accumulatedFine (Page.employee row2) = Page.accumulatedFine (Page.employee row).
Proof.
  intros Hi Hc Hd Hk Hb e st1. subst e st1.
  assert (Hk0 : (0 <= inject_Z k)%Q) by (rewrite (Zle_Qle 0 k) in Hb; apply Hb).
  pose proof (handleVacationDayChange_lookup st (Page.id (Page.employee row))
                (Page.change control) i row Hi) as H1.
  rewrite Z.eqb_refl in H1.
  set (row1 := {| Page.employee :=
                    {| Page.id := Page.id (Page.employee row);
                       Page.name := Page.name (Page.employee row);
                       Page.remainingVacationDays :=
                         Page.Math_max 0 (Page.remainingVacationDays (Page.employee row)
                                          + Page.change control);
                       Page.accumulatedFine := Page.accumulatedFine (Page.employee row) |};
                  Page.attendance := Page.attendance row |}) in *.
  assert (Hsum : (0 <= Page.balance row + Page.change control)%Q
                 /\ exists k1, (Page.balance row + Page.change control
                                == inject_Z k1 * (1 # 2))%Q /\ 0 <= k1 <= k + 2).
  { unfold Page.vacationControls in Hc. fold (Page.balance row) in Hc.
    repeat (apply elem_of_cons in Hc; destruct Hc as [->|Hc]);
      [| | | |apply elem_of_nil in Hc; contradiction];
      cbn [Page.disabled Page.change] in *.
    - split; [lra|]. exists (k + 2).
      split; [rewrite inject_Z_plus; change (inject_Z 2) with 2%Q; lra|lia].
    - split; [lra|]. exists (k + 1).
      split; [rewrite inject_Z_plus; change (inject_Z 1) with 1%Q; lra|lia].
    - assert (Hge : ~ (Page.balance row < 1 # 2)%Q).
      { intros Hlt. apply lessThan_spec in Hlt. congruence. }
      assert (H1k : (1 <= inject_Z k)%Q) by lra.
      change 1%Q with (inject_Z 1) in H1k. rewrite <- Zle_Qle in H1k.
      split; [lra|]. exists (k - 1).
      split; [unfold Z.sub; rewrite inject_Z_plus, inject_Z_opp;
              change (inject_Z 1) with 1%Q; lra
             |lia].
    - assert (Hge : ~ (Page.balance row < 1)%Q).
      { intros Hlt. apply lessThan_spec in Hlt. congruence. }
      assert (H2k : (2 <= inject_Z k)%Q) by lra.
      change 2%Q with (inject_Z 2) in H2k. rewrite <- Zle_Qle in H2k.
      split; [lra|]. exists (k - 2).
      split; [unfold Z.sub; rewrite inject_Z_plus, inject_Z_opp;
              change (inject_Z 2) with 2%Q; lra
             |lia]. }
  destruct Hsum as (Hpos & k1 & Hk1 & Hb1).
  assert (Hbal1 : (Page.balance row1 == Page.balance row + Page.change control)%Q).
  { unfold Page.balance at 1. cbn. fold (Page.balance row). apply Math_max_spec. exact Hpos. }
  assert (Hback : exists back,
            back ∈ Page.vacationControls row1
            /\ (Page.change back == - Page.change control)%Q
            /\ Page.disabled back = false).
  { unfold Page.vacationControls in Hc. fold (Page.balance row) in Hc.
    unfold Page.vacationControls. fold (Page.balance row1).
    repeat (apply elem_of_cons in Hc; destruct Hc as [->|Hc]);
      [| | | |apply elem_of_nil in Hc; contradiction];
      cbn [Page.disabled Page.change] in *.
    - exists {| Page.label := "-1"; Page.change := - (1);
                Page.disabled := Page.lessThan (Page.balance row1) 1 |}.
      split; [do 3 (apply elem_of_cons; right); apply elem_of_cons; left; reflexivity|].
      split; [reflexivity|]. cbn [Page.disabled].
      destruct (Page.lessThan (Page.balance row1) 1) eqn:Hl; [|reflexivity].
      apply lessThan_spec in Hl. lra.
    - exists {| Page.label := "-0.5"; Page.change := - (1 # 2);
                Page.disabled := Page.lessThan (Page.balance row1) (1 # 2) |}.
      split; [do 2 (apply elem_of_cons; right); apply elem_of_cons; left; reflexivity|].
      split; [reflexivity|]. cbn [Page.disabled].
      destruct (Page.lessThan (Page.balance row1) (1 # 2)) eqn:Hl; [|reflexivity].
      apply lessThan_spec in Hl. lra.
    - exists {| Page.label := "+0.5"; Page.change := 1 # 2; Page.disabled := false |}.
      split; [apply elem_of_cons; right; apply elem_of_cons; left; reflexivity|].
      split; reflexivity.
    - exists {| Page.label := "+1"; Page.change := 1; Page.disabled := false |}.
      split; [apply elem_of_cons; left; reflexivity|].
      split; reflexivity. }
  destruct Hback as (back & Hin & Hopp & Hen).
  pose proof (handleVacationDayChange_lookup
                (Page.handleVacationDayChange (Page.id (Page.employee row))
                   (Page.change control) st)
                (Page.id (Page.employee row)) (Page.change back) i row1 H1) as H2.
  cbn [Page.employee Page.id row1] in H2. rewrite Z.eqb_refl in H2.
  exists row1, k1, back. eexists.
  split; [exact H1|]. split; [exact Hbal1|].
  split; [rewrite Hbal1; exact Hk1|]. split; [exact Hb1|].
  split; [exact Hin|]. split; [exact Hopp|]. split; [exact Hen|].
  split; [exact H2|].
  split; [|repeat split].
  assert (Hsum2 : (Page.balance row1 + Page.change back == Page.balance row)%Q)
    by (rewrite Hbal1, Hopp; lra).
  transitivity (Page.balance row1 + Page.change back)%Q; [|exact Hsum2].
  apply (Math_max_spec (Page.balance row1 + Page.change back)).
  rewrite Hsum2. lra.
Qed.

(** The button -1 of employee 3, whose balance is 1. *)
Lemma X8_change_and_back_witness :
  exists row control row1,
    Page.attendanceData Page.sampleLoaded !! 2%nat = Some row
    /\ control ∈ Page.vacationControls row
    /\ Page.disabled control = false
    /\ (Page.balance row == inject_Z 2 * (1 # 2))%Q /\ 0 <= 2 < 2 ^ 52
    /\ Page.attendanceData
         (Page.handleVacationDayChange (Page.id (Page.employee row)) (Page.change control)
            Page.sampleLoaded) !! 2%nat = Some row1
    /\ (Page.balance row1 == Page.balance row + Page.change control)%Q.
Proof.
  destruct sampleLoaded_third_row as (row & Hrow & Hbal).
  assert (Hd : Page.lessThan (Page.balance row) 1 = false).
  { destruct (Page.lessThan (Page.balance row) 1) eqn:Hl; [|reflexivity].
    apply lessThan_spec in Hl. rewrite Hbal in Hl. discriminate Hl. }
  assert (Hc : {| Page.label := "-1"; Page.change := - (1);
                  Page.disabled := Page.lessThan (Page.balance row) 1 |}
               ∈ Page.vacationControls row).
  { unfold Page.vacationControls. fold (Page.balance row).
    do 3 (apply elem_of_cons; right). apply elem_of_cons; left. reflexivity. }
  assert (Hk : (Page.balance row == inject_Z 2 * (1 # 2))%Q) by (rewrite Hbal; reflexivity).
  assert (Hb : 0 <= 2 < 2 ^ 52) by (split; [discriminate|reflexivity]).
  destruct (X8_change_and_back Page.sampleLoaded 2%nat row _ 2 Hrow Hc Hd Hk Hb)
    as (row1 & k1 & back & row2 & H1 & H2 & _).
  exists row, {| Page.label := "-1"; Page.change := - (1);
                 Page.disabled := Page.lessThan (Page.balance row) 1 |}, row1.
  auto 10.
Defined.

(** X9: changing leave days and saving an edit do not interfere: done in
    either order they give the same state. *)
Theorem X9_vacation_commutes_with_save (st : Page.State) (employeeId : Z) (change : Q) :
  Page.saveEdit (Page.handleVacationDayChange employeeId change st)
  = Page.handleVacationDayChange employeeId change (Page.saveEdit st).
Proof.
  unfold Page.saveEdit.
  assert (Hg : Page.editGuard (Page.handleVacationDayChange employeeId change st)
               = Page.editGuard st) by reflexivity.
  rewrite Hg. destruct (Page.editGuard st) as [[E D]|]; [|reflexivity].
  unfold Page.handleVacationDayChange, Page.set_edit, Page.set_attendanceData.
  cbn [Page.attendanceData Page.editDate Page.editEmployeeId Page.editStatus Page.dateRange
       Page.viewMode Page.isLoading Page.showFines].
  f_equal. rewrite <- !list_fmap_compose. apply list_fmap_ext. intros i row _. cbn.
  destruct (Page.id (Page.employee row) =? employeeId) eqn:H1;
    destruct (Page.id (Page.employee row) =? E) eqn:HE;
    cbn; rewrite ?H1, ?HE; reflexivity.
Qed.

(** X10: a click on the name of an employee shows the fine (the penalty in
    the remote page) when it was hidden and hides it when it was shown, for
    this employee only; both pages start with everything hidden; two clicks
    leave what is shown as it was; no other slot of the state changes: the
    table (the employees and the records in the remote page), every slot of
    the edit session, the range, the view mode and the loading flag are
    those from before. *)
Theorem X10_toggle (employeeId k : Z) (now : Date) (st : Page.State) (st2 : Tmp.State) :
  let st' := Page.toggleFine employeeId st in
  let st2' := Tmp.togglePenalty employeeId st2 in
  Page.fineShown (Page.initialState now) k = false
  /\ Tmp.penaltyShown (Tmp.initialState now) k = false
  /\ Page.fineShown st' k
     = (if decide (k = employeeId) then negb (Page.fineShown st k) else Page.fineShown st k)
  /\ Page.fineShown (Page.toggleFine employeeId st') k = Page.fineShown st k
  /\ (Page.attendanceData st' = Page.attendanceData st
      /\ Page.editDate st' = Page.editDate st
      /\ Page.editEmployeeId st' = Page.editEmployeeId st
      /\ Page.editStatus st' = Page.editStatus st
      /\ Page.dateRange st' = Page.dateRange st
      /\ Page.viewMode st' = Page.viewMode st
      /\ Page.isLoading st' = Page.isLoading st)
  /\ Tmp.penaltyShown st2' k
     = (if decide (k = employeeId) then negb (Tmp.penaltyShown st2 k) else Tmp.penaltyShown st2 k)
  /\ Tmp.penaltyShown (Tmp.togglePenalty employeeId st2') k = Tmp.penaltyShown st2 k
  /\ (Tmp.employees st2' = Tmp.employees st2
      /\ Tmp.attendanceData st2' = Tmp.attendanceData st2
      /\ Tmp.editDate st2' = Tmp.editDate st2
      /\ Tmp.editEmployeeId st2' = Tmp.editEmployeeId st2
      /\ Tmp.editStatus st2' = Tmp.editStatus st2
      /\ Tmp.editTime st2' = Tmp.editTime st2
      /\ Tmp.editComment st2' = Tmp.editComment st2
      /\ Tmp.dateRange st2' = Tmp.dateRange st2
      /\ Tmp.viewMode st2' = Tmp.viewMode st2
      /\ Tmp.isLoading st2' = Tmp.isLoading st2).
Proof.
  intros st' st2'. subst st' st2'.
  assert (H1 : forall st, Page.fineShown (Page.toggleFine employeeId st) k
               = (if decide (k = employeeId) then negb (Page.fineShown st k)
                  else Page.fineShown st k)).
  { intros s. unfold Page.toggleFine, Page.fineShown at 1.
    cbn [Page.showFines Page.set_showFines].
    destruct (decide (k = employeeId)) as [->|Hne].
    - rewrite lookup_insert_eq. reflexivity.
    - rewrite lookup_insert_ne by congruence. reflexivity. }
  assert (H2 : forall st, Tmp.penaltyShown (Tmp.togglePenalty employeeId st) k
               = (if decide (k = employeeId) then negb (Tmp.penaltyShown st k)
                  else Tmp.penaltyShown st k)).
  { intros s. unfold Tmp.togglePenalty, Tmp.penaltyShown at 1.
    cbn [Tmp.showPenalties Tmp.set_showPenalties].
    destruct (decide (k = employeeId)) as [->|Hne].
    - rewrite lookup_insert_eq. reflexivity.
    - rewrite lookup_insert_ne by congruence. reflexivity. }
  split; [reflexivity|]. split; [reflexivity|]. split; [apply H1|]. split.
  { rewrite H1, H1. destruct (decide (k = employeeId)); [apply negb_involutive|reflexivity]. }
  split; [repeat split|]. split; [apply H2|]. split.
  { rewrite H2, H2. destruct (decide (k = employeeId)); [apply negb_involutive|reflexivity]. }
  repeat split.
Qed.

(** X11: [getStatusColor] gives different classes to different statuses, in
    both pages: the colour of a cell tells its status. *)
Theorem X11_colour_tells_status :
  (forall a b : Page.AttendanceStatus, Page.getStatusColor a = Page.getStatusColor b -> a = b)
  /\ (forall a b : Tmp.AttendanceStatus, Tmp.getStatusColor a = Tmp.getStatusColor b -> a = b).
Proof.
  split; intros [] []; cbn; intros H; first [reflexivity | discriminate H].
Qed.

(** ** The edit dialog of the page over generated mock data *)

Lemma saveEdit_lookup (st : Page.State) (E : Z) (D : Date) (i j : nat)
    (row : Page.EmployeeRow) (a : Page.AttendanceEntry) :
  Page.editGuard st = Some (E, D) ->
  Page.attendanceData st !! i = Some row ->
  Page.attendance row !! j = Some a ->
  exists row',
    Page.attendanceData (Page.saveEdit st) !! i = Some row'
    /\ Page.employee row' = Page.employee row
    /\ Page.attendance row' !! j
       = Some (if (Page.id (Page.employee row) =? E) && (Page.a_date a =? D)
               then {| Page.a_date := Page.a_date a; Page.a_status := Page.editStatus st;
                       Page.a_checkInTime := Page.a_checkInTime a;
                       Page.a_comment := Page.a_comment a |}
               else a).
Proof.
  intros Hg Hi Hj. unfold Page.saveEdit. rewrite Hg.
  cbn [Page.attendanceData Page.set_edit Page.set_attendanceData].
  rewrite list_lookup_fmap, Hi. cbn [fmap option_fmap option_map].
  eexists; split; [reflexivity|].
  destruct (Page.id (Page.employee row) =? E); cbn [Page.employee Page.attendance andb].
  - split; [reflexivity|]. rewrite list_lookup_fmap, Hj. reflexivity.
  - split; [reflexivity|exact Hj].
Qed.

(** X12: the whole edit of a cell.  For a cell that is not "Not Yet", of an
    employee whose id is not 0: the click opens the session on that cell,
    the selector sets the status [S], and Save gives the cell the status [S],
    keeps its date, check-in time and comment, and closes the session. *)
Theorem X12_edit_cell (st : Page.State) (i j : nat) (row : Page.EmployeeRow)
    (a : Page.AttendanceEntry) (S : Page.AttendanceStatus) :
  Page.attendanceData st !! i = Some row ->
  Page.attendance row !! j = Some a ->
  Page.a_status a <> Page.NotYet ->
  Page.id (Page.employee row) <> 0 ->
  let st' := Page.saveEdit (Page.setEditStatus S (Page.cellClick row a st)) in
  exists row',
    Page.attendanceData st' !! i = Some row'
    /\ Page.employee row' = Page.employee row
    /\ Page.attendance row' !! j
       = Some {| Page.a_date := Page.a_date a; Page.a_status := S;
                 Page.a_checkInTime := Page.a_checkInTime a;
                 Page.a_comment := Page.a_comment a |}
    /\ Page.editGuard st' = None.
Proof.
  intros Hi Hj Hs Hid st'.
  set (st1 := Page.setEditStatus S (Page.cellClick row a st)).
  assert (Hst1 : Page.attendanceData st1 = Page.attendanceData st
                 /\ Page.editStatus st1 = S
                 /\ Page.editGuard st1 = Some (Page.id (Page.employee row), Page.a_date a)).
  { subst st1. unfold Page.cellClick, Page.handleEdit, Page.setEditStatus, Page.editGuard.
    destruct (Page.a_status a); try contradiction; cbn;
      (destruct (Z.eqb_spec (Page.id (Page.employee row)) 0); [contradiction|]); auto. }
  destruct Hst1 as (Hd & He & Hg).
  rewrite <- Hd in Hi.
  destruct (saveEdit_lookup st1 _ _ i j row a Hg Hi Hj) as (row' & H1 & H2 & H3).
  exists row'. rewrite !Z.eqb_refl, He in H3. cbn [andb] in H3.
  split; [exact H1|]. split; [exact H2|]. split; [exact H3|].
  subst st'. fold st1. unfold Page.saveEdit. rewrite Hg. reflexivity.
Qed.

Lemma sampleLoaded_first_cell :
  exists row a,
    Page.attendanceData Page.sampleLoaded !! 0%nat = Some row
    /\ Page.attendance row !! 1%nat = Some a
    /\ Page.a_status a = Page.Present
    /\ Page.id (Page.employee row) = 1.
Proof. eexists; eexists. split; [vm_compute; reflexivity|]. repeat split. Defined.

(** Employee 1 on Tuesday 5 March, set to Absent. *)
Lemma X12_edit_cell_witness :
  exists row a row',
    Page.attendanceData Page.sampleLoaded !! 0%nat = Some row
    /\ Page.attendance row !! 1%nat = Some a
    /\ Page.a_status a <> Page.NotYet
    /\ Page.id (Page.employee row) <> 0
    /\ Page.attendanceData
         (Page.saveEdit (Page.setEditStatus Page.Absent (Page.cellClick row a Page.sampleLoaded)))
         !! 0%nat = Some row'
    /\ Page.employee row' = Page.employee row.
Proof.
  destruct sampleLoaded_first_cell as (row & a & Hrow & Ha & Hs & Hid).
  assert (H1 : Page.a_status a <> Page.NotYet) by (rewrite Hs; discriminate).
  assert (H2 : Page.id (Page.employee row) <> 0) by (rewrite Hid; discriminate).
  destruct (X12_edit_cell Page.sampleLoaded 0%nat 1%nat row a Page.Absent Hrow Ha H1 H2)
    as (row' & H3 & H4 & _).
  exists row, a, row'. auto 10.
Defined.

Lemma eachDayOfInterval_reversed (start end_ : Date) :
  end_ < start -> eachDayOfInterval start end_ = reverse (eachDayOfInterval end_ start).
Proof.
  intros H. unfold eachDayOfInterval.
  destruct (Z.ltb_spec end_ start); [|lia].
  destruct (Z.ltb_spec start end_); [lia|]. reflexivity.
Qed.

Lemma eachDayOfInterval_NoDup (start end_ : Date) : NoDup (eachDayOfInterval start end_).
Proof.
  assert (H : forall a b, a <= b -> NoDup (eachDayOfInterval a b)).
  { intros a b Hab. rewrite eachDayOfInterval_spec by exact Hab.
    apply NoDup_fmap_2_strong; [|apply NoDup_seqZ].
    intros x y _ _ Hxy. unfold MakeDate, msPerDay in Hxy. lia. }
  destruct (Z.le_gt_cases start end_) as [Hle|Hgt]; [apply H; exact Hle|].
  rewrite eachDayOfInterval_reversed by lia. rewrite reverse_Permutation. apply H. lia.
Qed.

Lemma weekDaysOf_NoDup (start end_ : Date) : NoDup (Page.weekDaysOf start end_).
Proof.
  unfold Page.weekDaysOf. apply NoDup_ListNoDup, List.NoDup_filter, NoDup_ListNoDup.
  apply eachDayOfInterval_NoDup.
Qed.

Lemma saveEdit_same_status (st : Page.State) (E : Z) (D : Date) :
  Page.editGuard st = Some (E, D) ->
  (forall row a, row ∈ Page.attendanceData st -> Page.id (Page.employee row) = E ->
                 a ∈ Page.attendance row -> Page.a_date a = D ->
                 Page.a_status a = Page.editStatus st) ->
  Page.attendanceData (Page.saveEdit st) = Page.attendanceData st.
Proof.
  intros Hg Hsame. unfold Page.saveEdit. rewrite Hg.
  cbn [Page.attendanceData Page.set_edit Page.set_attendanceData].
  rewrite <- (list_fmap_id (Page.attendanceData st)) at 2.
  apply list_fmap_ext. intros i row Hi. cbn.
  destruct (Z.eqb_spec (Page.id (Page.employee row)) E) as [HE|HE]; [|reflexivity].
  destruct row as [emp att]. cbn [Page.employee Page.attendance] in *. f_equal.
  rewrite <- (list_fmap_id att) at 2.
  apply list_fmap_ext. intros j a Hj. cbn. unfold getTime.
  destruct (Z.eqb_spec (Page.a_date a) D) as [HD|HD]; [|reflexivity].
  destruct a as [d s0 t c]. cbn in *. f_equal. symmetry.
  apply (Hsame {| Page.employee := emp; Page.attendance := att |}
               {| Page.a_date := d; Page.a_status := s0; Page.a_checkInTime := t;
                  Page.a_comment := c |}).
  - apply list_elem_of_lookup. eauto.
  - exact HE.
  - apply list_elem_of_lookup. eauto.
  - exact HD.
Qed.

(** X13: after a load, opening the dialog of a cell and saving without
    choosing another status leaves the table as it is, and closes the
    session: a row is found by the id of its employee and a cell by its date,
    and both are unique in the generated table. *)
Theorem X13_save_without_change (today : Date) (st0 : Page.State) (i j : nat)
    (row : Page.EmployeeRow) (a : Page.AttendanceEntry) :
  let st := Page.loadEffect today st0 in
  Page.attendanceData st !! i = Some row ->
  Page.attendance row !! j = Some a ->
  Page.a_status a <> Page.NotYet ->
  Page.attendanceData (Page.saveEdit (Page.cellClick row a st)) = Page.attendanceData st
  /\ Page.editGuard (Page.saveEdit (Page.cellClick row a st)) = None.
Proof.
  intros st Hi Hj Hs.
  set (W := Page.weekDaysOf (from (Page.dateRange st0)) (to (Page.dateRange st0))).
  assert (Hrows : Page.attendanceData st
            = (fun employee =>
                 {| Page.employee := employee;
                    Page.attendance :=
                      imap (fun index date =>
                              Page.entryOf date (Page.getStatus W today (Page.id employee) index))
                           W |}) <$> Page.employees) by reflexivity.
  assert (Hrow : exists emp, emp ∈ Page.employees
                   /\ row = {| Page.employee := emp;
                               Page.attendance :=
                                 imap (fun index date =>
                                         Page.entryOf date
                                           (Page.getStatus W today (Page.id emp) index)) W |}).
  { rewrite Hrows, list_lookup_fmap in Hi.
    destruct (Page.employees !! i) as [emp|] eqn:He; [|discriminate].
    injection Hi as <-. exists emp. split; [|reflexivity].
    apply list_elem_of_lookup. eauto. }
  destruct Hrow as (emp & Hemp & ->). cbn [Page.attendance] in Hj.
  assert (Hid : Page.id emp <> 0).
  { unfold Page.employees in Hemp.
    repeat (apply elem_of_cons in Hemp; destruct Hemp as [->|Hemp]); try discriminate.
    apply elem_of_nil in Hemp. contradiction. }
  set (row := {| Page.employee := emp; Page.attendance := _ |}) in *.
  set (st1 := Page.cellClick row a st).
  assert (Hst1 : Page.attendanceData st1 = Page.attendanceData st
                 /\ Page.editStatus st1 = Page.a_status a
                 /\ Page.editGuard st1 = Some (Page.id emp, Page.a_date a)).
  { subst st1. unfold Page.cellClick, Page.handleEdit, Page.editGuard.
    destruct (Page.a_status a); try contradiction; cbn;
      (destruct (Z.eqb_spec (Page.id emp) 0); [contradiction|]); auto. }
  destruct Hst1 as (Hd & He & Hg).
  split; [|unfold Page.saveEdit; rewrite Hg; reflexivity].
  rewrite <- Hd. apply (saveEdit_same_status st1 _ _ Hg).
  intros row2 a2 Hr2 Hid2 Ha2 Hdate. rewrite He, Hd, Hrows in *.
  apply list_elem_of_fmap in Hr2. destruct Hr2 as (emp2 & -> & Hemp2).
  cbn [Page.employee Page.attendance] in *.
  assert (emp2 = emp).
  { unfold Page.employees in Hemp, Hemp2.
    repeat (apply elem_of_cons in Hemp; destruct Hemp as [->|Hemp]);
      repeat (apply elem_of_cons in Hemp2; destruct Hemp2 as [->|Hemp2]);
      try reflexivity; try discriminate Hid2;
      try (apply elem_of_nil in Hemp; contradiction);
      try (apply elem_of_nil in Hemp2; contradiction). }
  subst emp2.
  apply list_elem_of_lookup in Ha2. destruct Ha2 as (j2 & Hj2).
  rewrite list_lookup_imap in Hj, Hj2.
  destruct (W !! j) as [d|] eqn:Hwj; [|discriminate].
  destruct (W !! j2) as [d2|] eqn:Hwj2; [|discriminate].
  cbn in Hj, Hj2. injection Hj as <-. injection Hj2 as <-. cbn in Hdate. subst d2.
  assert (j2 = j) by (eapply NoDup_lookup; [apply weekDaysOf_NoDup|exact Hwj2|exact Hwj]).
  subst j2. reflexivity.
Qed.

(** Employee 1 on Tuesday 5 March. *)
Lemma X13_save_without_change_witness :
  exists row a,
    Page.attendanceData Page.sampleLoaded !! 0%nat = Some row
    /\ Page.attendance row !! 1%nat = Some a
    /\ Page.a_status a <> Page.NotYet
    /\ Page.attendanceData (Page.saveEdit (Page.cellClick row a Page.sampleLoaded))
       = Page.attendanceData Page.sampleLoaded.
Proof.
  destruct sampleLoaded_first_cell as (row & a & Hrow & Ha & Hs & Hid).
  assert (H1 : Page.a_status a <> Page.NotYet) by (rewrite Hs; discriminate).
  exists row, a. split; [exact Hrow|]. split; [exact Ha|]. split; [exact H1|].
  apply (X13_save_without_change Page.sampleToday
           (Page.handleViewModeChange Page.sampleToday week
              (Page.initialState Page.sampleToday)) 0%nat 1%nat row a Hrow Ha H1).
Defined.

(** ** More on the page over the remote API *)

(** X14: when the employees have distinct ids and the fetch of the records
    succeeds for every one of them, the load makes one request per employee,
    in order, ends loading and replaces the mapping: the id of every
    employee is mapped to the records fetched for this employee, and an id
    of no employee is absent, whatever the mapping held before.  No other
    slot of the state changes. *)
Theorem X14_load_replaces_mapping (w : Tmp.World) (st : Tmp.State)
    (d : Tmp.Employee -> list Tmp.AttendanceRecord) :
  NoDup (Tmp.id <$> Tmp.employees st) ->
  (forall e, e ∈ Tmp.employees st ->
     exists response,
       Tmp.getRecords w (Tmp.recordsUrl w (Tmp.dateRange st) e) = Fulfilled response
       /\ ok response = true /\ json response = Fulfilled (d e)) ->
  let result := Tmp.fetchAttendanceData w st in
  result.1 = (fun e => Fetched (Tmp.recordsRequest w (Tmp.dateRange st) e)) <$> Tmp.employees st
  /\ Tmp.isLoading result.2 = false
  /\ (forall e, e ∈ Tmp.employees st -> Tmp.attendanceData result.2 !! Tmp.id e = Some (d e))
  /\ (forall k, (forall e, e ∈ Tmp.employees st -> Tmp.id e <> k) ->
                Tmp.attendanceData result.2 !! k = None)
  /\ result.2 = Tmp.set_isLoading false (Tmp.set_attendanceData (Tmp.attendanceData result.2) st).
Proof.
  intros Hnd Hall result. subst result.
  destruct (fetchAttendanceData_fulfilled w st d Hnd Hall) as (-> & Hin & Hout).
  cbn [fst snd Tmp.isLoading Tmp.set_isLoading Tmp.attendanceData Tmp.set_attendanceData].
  split; [reflexivity|]. split; [reflexivity|]. split; [exact Hin|]. split; [exact Hout|].
  reflexivity.
Qed.

(** A world that answers with one record for employee 1 and with none for
    employee 2; the mapping held records for an employee 7 before. *)
Lemma X14_load_replaces_mapping_witness :
  let w := {| Tmp.API_BASE_URL := "http://api";
              Tmp.getRecords := fun url =>
                Fulfilled {| status := 200; contentType := Some "application/json";
                             json := Fulfilled
                               (if String.eqb url (Tmp.recordsUrl Tmp.sampleWorld
                                                     (Tmp.dateRange Tmp.sampleState)
                                                     {| Tmp.id := 2; Tmp.name := "Jane Smith";
                                                        Tmp.remainingLeaveDays := 5;
                                                        Tmp.latePenaltyPoints := 1 |})
                                then [] else Tmp.sampleRecords);
                             text := Fulfilled "[...]" |};
              Tmp.putAttendance := Tmp.putAttendance Tmp.sampleWorld |} in
  let st := Tmp.set_attendanceData {[ 7 := Tmp.sampleRecords ]} Tmp.sampleState in
  let d := fun e => if Tmp.id e =? 2 then [] else Tmp.sampleRecords in
  NoDup (Tmp.id <$> Tmp.employees st)
  /\ (forall e, e ∈ Tmp.employees st ->
        exists response,
          Tmp.getRecords w (Tmp.recordsUrl w (Tmp.dateRange st) e) = Fulfilled response
          /\ ok response = true /\ json response = Fulfilled (d e))
  /\ Tmp.attendanceData st !! 7 = Some Tmp.sampleRecords
  /\ Tmp.attendanceData (Tmp.fetchAttendanceData w st).2 !! 7 = None
  /\ Tmp.attendanceData (Tmp.fetchAttendanceData w st).2 !! 1 = Some Tmp.sampleRecords
  /\ Tmp.attendanceData (Tmp.fetchAttendanceData w st).2 !! 2 = Some [].
Proof.
  intros w st d.
  assert (Hnd : NoDup (Tmp.id <$> Tmp.employees st)).
  { cbn. apply NoDup_cons. split; [|apply NoDup_singleton].
    intros H. apply list_elem_of_singleton in H. discriminate H. }
  assert (Hall : forall e, e ∈ Tmp.employees st ->
            exists response,
              Tmp.getRecords w (Tmp.recordsUrl w (Tmp.dateRange st) e) = Fulfilled response
              /\ ok response = true /\ json response = Fulfilled (d e)).
  { intros e He. cbn in He.
    apply elem_of_cons in He. destruct He as [->|He];
      [|apply list_elem_of_singleton in He; subst e];
      (eexists; split; [reflexivity|]; split; [reflexivity|]); vm_compute; reflexivity. }
  assert (H1 : {| Tmp.id := 1; Tmp.name := "John Doe";
                  Tmp.remainingLeaveDays := 3; Tmp.latePenaltyPoints := 0 |} ∈ Tmp.employees st)
    by (apply elem_of_cons; left; reflexivity).
  assert (H2 : {| Tmp.id := 2; Tmp.name := "Jane Smith";
                  Tmp.remainingLeaveDays := 5; Tmp.latePenaltyPoints := 1 |} ∈ Tmp.employees st)
    by (apply elem_of_cons; right; apply elem_of_cons; left; reflexivity).
  assert (H7 : forall e, e ∈ Tmp.employees st -> Tmp.id e <> 7).
  { intros e He. cbn in He.
    apply elem_of_cons in He. destruct He as [->|He];
      [|apply list_elem_of_singleton in He; subst e]; discriminate. }
  destruct (X14_load_replaces_mapping w st d Hnd Hall) as (_ & _ & Hin & Hout & _).
  split; [exact Hnd|]. split; [exact Hall|]. split; [reflexivity|].
  split; [exact (Hout 7 H7)|]. split; [exact (Hin _ H1)|exact (Hin _ H2)].
Defined.

Lemma saveEdit_unfold (w : Tmp.World) (st : Tmp.State) (E : Z) (D : string) :
  Tmp.editGuard st = Some (E, D) ->
  Tmp.saveEdit w st =
    let requestBody := Tmp.requestBody E D st in
    let sent := [ConsoleLog "Request body:"; Fetched (Tmp.putRequest requestBody)] in
    match Tmp.putAttendance w (stringify requestBody) with
    | Rejected error => (sent ++ Tmp.saveEdit_catch error, st)
    | Fulfilled response =>
        if negb (ok response) then
          match text response with
          | Rejected error => (sent ++ Tmp.saveEdit_catch error, st)
          | Fulfilled errorText =>
              (sent ++ Tmp.saveEdit_catch
                 (Error ("HTTP error! status: " +:+ string_of_Z (status response)
                         +:+ ", message: " +:+ errorText)),
               st)
          end
        else
          match json response with
          | Rejected error => (sent ++ Tmp.saveEdit_catch error, st)
          | Fulfilled data =>
              let '(events, st1) := Tmp.fetchAttendanceData w st in
              (sent ++ [ConsoleLog "Server response:"] ++ events,
               Tmp.set_edit None None Tmp.PRESENT EmptyString EmptyString st1)
          end
    end.
Proof. intros Hg. unfold Tmp.saveEdit. rewrite Hg. reflexivity. Qed.

(** X15: when the write fails (the [fetch] rejects, the answer is not 2xx, or
    the body of a 2xx answer is not JSON), [saveEdit] has made the PUT and
    nothing else: no records are fetched again, the state is the one from
    before, with the edit session still open, and the error is logged and
    shown in an alert. *)
Theorem X15_failed_save (w : Tmp.World) (st : Tmp.State) (E : Z) (D : string) :
  Tmp.editGuard st = Some (E, D) ->
  match Tmp.putAttendance w (stringify (Tmp.requestBody E D st)) with
  | Rejected _ => True
  | Fulfilled response => ok response = false \/ exists e, json response = Rejected e
  end ->
  (Tmp.saveEdit w st).2 = st
  /\ exists error,
       (Tmp.saveEdit w st).1
       = [ ConsoleLog "Request body:";
           Fetched (Tmp.putRequest (Tmp.requestBody E D st));
           ConsoleError "Error updating attendance:" error;
           Alert ("Failed to update attendance: " +:+ errorToString error) ].
Proof.
  intros Hg Hfail. rewrite (saveEdit_unfold w st E D Hg). cbv zeta.
  destruct (Tmp.putAttendance w _) as [response|error]; [|cbn; eauto].
  destruct (ok response) eqn:Hok; cbn [negb].
  - destruct Hfail as [Hf|[e He]]; [discriminate|]. rewrite He. cbn. eauto.
  - destruct (text response); cbn; eauto.
Qed.

(** The sample session, with a write route that answers 503. *)
Lemma X15_failed_save_witness :
  let w := {| Tmp.API_BASE_URL := "http://api";
              Tmp.getRecords := Tmp.getRecords Tmp.sampleWorld;
              Tmp.putAttendance := fun _ =>
                Fulfilled {| status := 503; contentType := Some "text/plain";
                             json := Rejected (SyntaxError "Unexpected token");
                             text := Fulfilled "Service Unavailable" |} |} in
  Tmp.editGuard Tmp.sampleState = Some (2, "2024-03-05")
  /\ (Tmp.saveEdit w Tmp.sampleState).2 = Tmp.sampleState.
Proof.
  intros w. split; [reflexivity|].
  apply (X15_failed_save w Tmp.sampleState 2 "2024-03-05" eq_refl).
  left. reflexivity.
Defined.

Lemma append_nonempty (s1 s2 : string) : s2 <> EmptyString -> s1 +:+ s2 <> EmptyString.
Proof. intros H. destruct s1; cbn; [exact H|discriminate]. Qed.

Lemma format_nonempty (date : Date) : format_yyyy_MM_dd date <> EmptyString.
Proof. unfold format_yyyy_MM_dd. apply append_nonempty. discriminate. Qed.

Lemma saveEdit_put (w : Tmp.World) (st : Tmp.State) (E : Z) (D : string) :
  Tmp.editGuard st = Some (E, D) ->
  List.filter Tmp.isPut (Tmp.saveEdit w st).1 = [Fetched (Tmp.putRequest (Tmp.requestBody E D st))].
Proof.
  intros Hg. rewrite (saveEdit_unfold w st E D Hg). cbv zeta.
  destruct (Tmp.putAttendance w _) as [response|error]; [|reflexivity].
  destruct (ok response); cbn [negb].
  - destruct (json response) as [data|error]; [|reflexivity].
    pose proof (fetchAttendanceData_no_put w st) as Hnp.
    destruct (Tmp.fetchAttendanceData w st) as [events st1]. cbn [fst] in *.
    cbn. rewrite Hnp. reflexivity.
  - destruct (text response); reflexivity.
Qed.

(** X16: [saveEdit] does something only for a session whose employee id is
    not 0 and whose date is not empty: otherwise it makes no request, logs
    nothing and leaves the state, session included, as it is.  A click on a
    cell opens such a session unless the id of the employee is 0: the cells
    of an employee with id 0 cannot be saved. *)
Theorem X16_nothing_saved_for_id_0 (w : Tmp.World) (st : Tmp.State) :
  ((Tmp.saveEdit w st).1 = [] <-> Tmp.editGuard st = None)
  /\ (Tmp.editGuard st = None -> (Tmp.saveEdit w st).2 = st)
  /\ (forall employeeId date status time comment,
        Tmp.editGuard (Tmp.handleEdit employeeId date status time comment st) = None
        <-> employeeId = 0 \/ date = EmptyString)
  /\ (forall employee date,
        Tmp.editGuard (Tmp.cellClick employee date st) = None <-> Tmp.id employee = 0).
Proof.
  assert (Hh : forall employeeId date status time comment,
             Tmp.editGuard (Tmp.handleEdit employeeId date status time comment st) = None
             <-> employeeId = 0 \/ date = EmptyString).
  { intros e d s t c. unfold Tmp.editGuard, Tmp.handleEdit. cbn.
    destruct (Z.eqb_spec e 0) as [He|He]; cbn; [split; auto|].
    destruct (String.eqb_spec d EmptyString) as [Hd|Hd]; [split; auto|].
    split; [discriminate|]. intros [H|H]; contradiction. }
  split; [|split; [|split; [exact Hh|]]].
  - split.
    + intros Hev. destruct (Tmp.editGuard st) as [[E D]|] eqn:Hg; [|reflexivity].
      pose proof (saveEdit_put w st E D Hg) as Hp. rewrite Hev in Hp. discriminate Hp.
    + intros Hg. unfold Tmp.saveEdit. rewrite Hg. reflexivity.
  - intros Hg. unfold Tmp.saveEdit. rewrite Hg. reflexivity.
  - intros e date. unfold Tmp.cellClick. rewrite Hh. split; [|auto].
    intros [H|H]; [exact H|]. destruct (format_nonempty date H).
Qed.

(** X17: a click on a cell followed by Save, for an employee whose id is not
    0, sends as the one PUT what the cell shows: the id, the date of the
    column as yyyy-MM-dd, the status of the record, its comment and its
    time, an empty text standing for a comment or a time that is absent.
    The cell of a day without record can be clicked as well, and then the
    status sent is NOT_YET, with an empty comment and an empty time. *)
Theorem X17_click_then_save (w : Tmp.World) (st : Tmp.State)
    (employee : Tmp.Employee) (date : Date) :
  Tmp.id employee <> 0 ->
  let record := Tmp.cellRecord st employee date in
  let st1 := Tmp.cellClick employee date st in
  List.filter Tmp.isPut (Tmp.saveEdit w st1).1
  = [Fetched (Tmp.putRequest
       (JObject [ ("userId", JNumber (Tmp.id employee));
                  ("attendanceDate", JString (format_yyyy_MM_dd date));
                  ("status", JString (Tmp.statusText (Tmp.cellStatus record)));
                  ("comment", JString (Tmp.orEmpty (Tmp.cellComment record)));
                  ("time", JString (Tmp.orEmpty (Tmp.cellTime record))) ]))]
  /\ (record = Tmp.Placeholder ->
      List.filter Tmp.isPut (Tmp.saveEdit w st1).1
      = [Fetched (Tmp.putRequest
           (JObject [ ("userId", JNumber (Tmp.id employee));
                      ("attendanceDate", JString (format_yyyy_MM_dd date));
                      ("status", JString "NOT_YET");
                      ("comment", JString EmptyString);
                      ("time", JString EmptyString) ]))]).
Proof.
  intros Hid record st1.
  assert (Hg : Tmp.editGuard st1 = Some (Tmp.id employee, format_yyyy_MM_dd date)).
  { subst st1. unfold Tmp.cellClick, Tmp.handleEdit, Tmp.editGuard. cbn.
    destruct (Z.eqb_spec (Tmp.id employee) 0); [contradiction|]. cbn.
    destruct (String.eqb_spec (format_yyyy_MM_dd date) EmptyString) as [H|_]; [|reflexivity].
    destruct (format_nonempty date H). }
  assert (H : List.filter Tmp.isPut (Tmp.saveEdit w st1).1
              = [Fetched (Tmp.putRequest
                   (JObject [ ("userId", JNumber (Tmp.id employee));
                              ("attendanceDate", JString (format_yyyy_MM_dd date));
                              ("status", JString (Tmp.statusText (Tmp.cellStatus record)));
                              ("comment", JString (Tmp.orEmpty (Tmp.cellComment record)));
                              ("time", JString (Tmp.orEmpty (Tmp.cellTime record))) ]))]).
  { rewrite (saveEdit_put w st1 _ _ Hg). reflexivity. }
  split; [exact H|]. intros Hr. rewrite H, Hr. reflexivity.
Qed.

(** Employee 1 on Wednesday 6 March, for which the sample state has no record. *)
Lemma X17_click_then_save_witness :
  let employee := {| Tmp.id := 1; Tmp.name := "John Doe";
                     Tmp.remainingLeaveDays := 3; Tmp.latePenaltyPoints := 0 |} in
  Tmp.id employee <> 0
  /\ List.filter Tmp.isPut
       (Tmp.saveEdit Tmp.sampleWorld
          (Tmp.cellClick employee (mkDate 2024 2 6 0 0 0 0) Tmp.sampleState)).1
     = [Fetched (Tmp.putRequest
          (JObject [ ("userId", JNumber 1);
                     ("attendanceDate", JString "2024-03-06");
                     ("status", JString "NOT_YET");
                     ("comment", JString EmptyString);
                     ("time", JString EmptyString) ]))].
Proof.
  intros employee.
  assert (Hid : Tmp.id employee <> 0) by discriminate.
  split; [exact Hid|].
  apply (X17_click_then_save Tmp.sampleWorld Tmp.sampleState employee
           (mkDate 2024 2 6 0 0 0 0) Hid).
  reflexivity.
Defined.

(** X18: the record a cell shows.  It is the first record of the employee
    whose date is the date of the column written as yyyy-MM-dd; the cell
    shows the placeholder, with status NOT_YET and neither time nor
    comment, exactly when the mapping has no records for the id of the
    employee or none of them has that date. *)
Theorem X18_cell_record (st : Tmp.State) (employee : Tmp.Employee) (date : Date) :
  let D := format_yyyy_MM_dd date in
  (forall r, Tmp.cellRecord st employee date = Tmp.Found r ->
     exists records i,
       Tmp.attendanceData st !! Tmp.id employee = Some records
       /\ records !! i = Some r
       /\ Tmp.attendanceDate r = D
       /\ forall j r', (j < i)%nat -> records !! j = Some r' -> Tmp.attendanceDate r' <> D)
  /\ (Tmp.cellRecord st employee date = Tmp.Placeholder <->
      forall records, Tmp.attendanceData st !! Tmp.id employee = Some records ->
                      forall r, r ∈ records -> Tmp.attendanceDate r <> D)
  /\ (Tmp.cellRecord st employee date = Tmp.Placeholder ->
      Tmp.cellStatus (Tmp.cellRecord st employee date) = Tmp.NOT_YET
      /\ Tmp.cellTime (Tmp.cellRecord st employee date) = None
      /\ Tmp.cellComment (Tmp.cellRecord st employee date) = None).
Proof.
  intros D.
  assert (Hfind : forall records,
            match List.find (fun r => String.eqb (Tmp.attendanceDate r) D) records with
            | Some r => exists i, records !! i = Some r /\ Tmp.attendanceDate r = D
                          /\ forall j r', (j < i)%nat -> records !! j = Some r' ->
                                          Tmp.attendanceDate r' <> D
            | None => forall r, r ∈ records -> Tmp.attendanceDate r <> D
            end).
  { induction records as [|x l IH]; cbn.
    - intros r Hr. apply elem_of_nil in Hr. contradiction.
    - destruct (String.eqb_spec (Tmp.attendanceDate x) D) as [Hx|Hx].
      + exists 0%nat. split; [reflexivity|]. split; [exact Hx|]. intros j r' Hj. lia.
      + destruct (List.find _ l) as [r|].
        * destruct IH as (i & Hi & Hd & Hfirst). exists (S i).
          split; [exact Hi|]. split; [exact Hd|].
          intros [|j] r' Hj Hr'; cbn in Hr'; [injection Hr' as <-; exact Hx|].
          apply (Hfirst j r'); [lia|exact Hr'].
        * intros r Hr. apply elem_of_cons in Hr. destruct Hr as [->|Hr]; [exact Hx|].
          apply IH. exact Hr. }
  unfold Tmp.cellRecord. fold D.
  destruct (Tmp.attendanceData st !! Tmp.id employee) as [records|] eqn:Hm.
  - specialize (Hfind records).
    destruct (List.find _ records) as [r|].
    + destruct Hfind as (i & Hi & Hd & Hfirst).
      split; [|split].
      * intros r0 Hr0. injection Hr0 as <-. exists records, i. auto.
      * split; [discriminate|]. intros H. exfalso.
        apply (H records eq_refl r); [|exact Hd]. apply list_elem_of_lookup. eauto.
      * discriminate.
    + split; [discriminate|]. split; [|auto].
      split; [|reflexivity]. intros _ records0 Hr0. injection Hr0 as <-. exact Hfind.
  - split; [discriminate|]. split; [|auto].
    split; [|reflexivity]. intros _ records0 Hr0. discriminate Hr0.
Qed.

(** X19: the effect of the page starts [fetchEmployees] and
    [fetchAttendanceData] together, so the records are fetched for the
    employees known before the effect, not for the list it fetches.  The
    first effect, which starts without employees, makes no request for
    records and leaves the mapping empty, so that every cell is the
    placeholder, while the employees are set to the list fetched. *)
Theorem X19_effect_uses_known_employees (users : Settled (Response (list Tmp.Employee)))
    (w : Tmp.World) (st : Tmp.State) :
  let r := Tmp.effect users w st in
  r.1.2 = (Tmp.fetchAttendanceData w st).1
  /\ (exists rest,
        r.1.2 = ((fun e => Fetched (Tmp.recordsRequest w (Tmp.dateRange st) e)) <$> Tmp.employees st)
                ++ rest
        /\ forall request, Fetched request ∉ rest)
  /\ Tmp.attendanceData r.2 = Tmp.attendanceData (Tmp.fetchAttendanceData w st).2
  /\ Tmp.isLoading r.2 = false
  /\ (forall response data,
        users = Fulfilled response -> ok response = true -> json response = Fulfilled data ->
        Tmp.employees r.2 = data)
  /\ (Tmp.employees st = [] ->
      r.1.2 = [] /\ Tmp.attendanceData r.2 = ∅
      /\ forall employee date, Tmp.cellRecord r.2 employee date = Tmp.Placeholder)
  /\ (forall now, Tmp.employees (Tmp.initialState now) = []).
Proof.
  intros r. subst r. unfold Tmp.effect.
  destruct (Tmp.fetchEmployees users w st) as [events1 st1] eqn:H1.
  destruct (Tmp.fetchAttendanceData w st) as [events2 st2] eqn:H2.
  cbn [fst snd Tmp.attendanceData Tmp.set_attendanceData Tmp.set_isLoading Tmp.isLoading
       Tmp.employees].
  assert (Hl : Tmp.isLoading st2 = false
               /\ exists rest,
                    events2 = ((fun e => Fetched (Tmp.recordsRequest w (Tmp.dateRange st) e))
                                 <$> Tmp.employees st) ++ rest
                    /\ forall request, Fetched request ∉ rest).
  { unfold Tmp.fetchAttendanceData in H2.
    destruct (Promise_all _); injection H2 as <- <-; (split; [reflexivity|]).
    - exists []. rewrite app_nil_r. split; [reflexivity|]. intros q. apply not_elem_of_nil.
    - eexists. split; [reflexivity|]. intros q Hq.
      apply list_elem_of_singleton in Hq. discriminate. }
  destruct Hl as (Hload & Hrest).
  split; [reflexivity|]. split; [exact Hrest|]. split; [reflexivity|]. split; [exact Hload|].
  split; [|split; [|reflexivity]].
  - intros response data -> Hok Hj. unfold Tmp.fetchEmployees in H1.
    rewrite Hok, Hj in H1. cbn in H1. injection H1 as <- <-. reflexivity.
  - intros He. unfold Tmp.fetchAttendanceData in H2. rewrite He in H2. cbn in H2.
    injection H2 as <- <-. split; [reflexivity|]. split; [reflexivity|].
    intros employee date. unfold Tmp.cellRecord. cbn. rewrite lookup_empty. reflexivity.
Qed.

Lemma X19_effect_uses_known_employees_witness :
  let users := Fulfilled {| status := 200; contentType := Some "application/json";
                            json := Fulfilled Tmp.sampleEmployees;
                            text := Fulfilled "[...]" |} in
  let st := Tmp.initialState Page.sampleToday in
  Tmp.employees st = []
  /\ (Tmp.effect users Tmp.sampleWorld st).1.2 = []
  /\ Tmp.employees (Tmp.effect users Tmp.sampleWorld st).2 = Tmp.sampleEmployees.
Proof.
  intros users st. split; [reflexivity|]. split.
  - apply (X19_effect_uses_known_employees users Tmp.sampleWorld st). reflexivity.
  - eapply (X19_effect_uses_known_employees users Tmp.sampleWorld st); reflexivity.
Defined.

(** X20: the remote page never computes a balance.  A click on a leave-day
    button makes one PUT to the vacation-days endpoint of the employee, with
    the change as body.  When the answer is 2xx the users endpoint is
    fetched again: if that succeeds the employees become the list fetched
    and no other slot of the state changes, and if it fails the error is
    logged and the state is the one from before.  When the PUT is rejected
    or its answer is not 2xx, the error is logged, the users endpoint is not
    fetched and the state is the one from before. *)
Theorem X20_remote_vacation_change (numberText : Q -> string)
    (answer : Settled (Response JSON)) (users : Settled (Response (list Tmp.Employee)))
    (w : Tmp.World) (employeeId : Z) (change : Q) (st : Tmp.State) :
  let r := Tmp.handleVacationDayChange numberText answer users w employeeId change st in
  let request :=
    {| url := Tmp.API_BASE_URL w +:+ "/attendance/" +:+ string_of_Z employeeId +:+ "/vacation-days";
       method := "PUT"; headers := [("Content-Type", "application/json")];
       body := Some ("{" +:+ Tmp.quoted "change" +:+ ":" +:+ numberText change +:+ "}") |} in
  let again := {| url := Tmp.API_BASE_URL w +:+ "/users"; method := "GET";
                  headers := []; body := None |} in
  (forall response, answer = Fulfilled response -> ok response = true ->
     (forall response' data,
        users = Fulfilled response' -> ok response' = true -> json response' = Fulfilled data ->
        r = ([Fetched request; Fetched again], Tmp.set_employees data st))
     /\ (match users with
         | Rejected _ => True
         | Fulfilled response' => ok response' = false \/ exists e, json response' = Rejected e
         end ->
         exists error,
           r = ([Fetched request; Fetched again;
                 ConsoleError "Error fetching employees:" error], st)))
  /\ ((forall response, answer = Fulfilled response -> ok response = false) ->
      exists error,
        r = ([Fetched request; ConsoleError "Error updating vacation days:" error], st)).
Proof.
  intros r request again. subst r. unfold Tmp.handleVacationDayChange.
  fold (Tmp.vacationRequest w employeeId
          ("{" +:+ Tmp.quoted "change" +:+ ":" +:+ numberText change +:+ "}")).
  change (Tmp.vacationRequest w employeeId _) with request.
  split.
  - intros response -> Hok. rewrite Hok. cbn [negb].
    unfold Tmp.fetchEmployees. fold again. change (Tmp.usersRequest w) with again. split.
    + intros response' data -> Hok' Hj. rewrite Hok', Hj. reflexivity.
    + destruct users as [response'|error]; [|eauto].
      intros [Hok'|[e Hj]].
      * rewrite Hok'. cbn. eauto.
      * destruct (ok response'); cbn [negb]; [rewrite Hj|]; eauto.
  - intros Hno. destruct answer as [response|error]; [|eauto].
    rewrite (Hno response eq_refl). cbn. eauto.
Qed.

(** A change of half a day that the server accepts, after which the users
    endpoint answers with the sample employees. *)
Lemma X20_remote_vacation_change_witness :
  let answer := Fulfilled {| status := 200; contentType := Some "application/json";
                             json := Fulfilled (JObject []); text := Fulfilled "{}" |} in
  let users := Fulfilled {| status := 200; contentType := Some "application/json";
                            json := Fulfilled Tmp.sampleEmployees;
                            text := Fulfilled "[...]" |} in
  let st := Tmp.initialState Page.sampleToday in
  ok {| status := 200; contentType := Some "application/json";
        json := Fulfilled (JObject []); text := Fulfilled "{}" |} = true
  /\ (Tmp.handleVacationDayChange (fun _ => "0.5") answer users Tmp.sampleWorld 2 (1 # 2) st).2
     = Tmp.set_employees Tmp.sampleEmployees st.
Proof.
  intros answer users st. split; [reflexivity|].
  destruct (X20_remote_vacation_change (fun _ => "0.5") answer users Tmp.sampleWorld 2 (1 # 2) st)
    as [H _].
  destruct (H _ eq_refl eq_refl) as [H1 _].
  rewrite (H1 _ Tmp.sampleEmployees eq_refl eq_refl eq_refl). reflexivity.
Defined.

(** ** More on the API route *)

(** X21: the route answers with one of three statuses.  It answers 405
    exactly when the method is not PUT, 200 exactly when the method is PUT
    and the exchange with the upstream service does not fail, and 500
    otherwise; it makes at most one request upstream, and none for a method
    other than PUT. *)
Theorem X21_handler_statuses (API_BASE_URL : string)
    (upstream : Request -> Settled (Response JSON)) (req : Proxy.NextApiRequest) :
  let r := Proxy.handler API_BASE_URL upstream req in
  let failure := Proxy.upstreamFailure (upstream (Proxy.upstreamRequest API_BASE_URL req)) in
  (Proxy.statusCode r.2 = 405 <-> Proxy.req_method req <> "PUT")
  /\ (Proxy.statusCode r.2 = 200 <-> Proxy.req_method req = "PUT" /\ failure = false)
  /\ (Proxy.statusCode r.2 = 500 <-> Proxy.req_method req = "PUT" /\ failure = true)
  /\ (length (List.filter (fun e => match e with Fetched _ => true | _ => false end) r.1)
      = if String.eqb (Proxy.req_method req) "PUT" then 1%nat else 0%nat).
Proof.
  intros r failure. subst r failure. unfold Proxy.handler, Proxy.upstreamFailure.
  destruct (String.eqb_spec (Proxy.req_method req) "PUT") as [Hm|Hm].
  - destruct (upstream _) as [response|error]; cbn;
      [destruct (ok response); cbn;
       [destruct (Proxy.isJson (contentType response));
        [destruct (json response)|destruct (text response)]|]|];
      cbn; repeat split; try (intros; discriminate); try (intros [? ?]; discriminate);
      try (intros; contradiction); auto.
  - cbn. repeat split; try (intros; discriminate); try (intros [? ?]; contradiction); auto.
Qed.

(** ** Dates as text *)

Lemma pad_4_digits (n : Z) :
  0 <= n <= 9999 -> String.length (pad 4 n) = 4%nat /\ digitsValue (pad 4 n) = n.
Proof.
  intros Hn.
  assert (Hall : forallb (fun n => (String.length (pad 4 n) =? 4)%nat && (digitsValue (pad 4 n) =? n))
                         (seqZ 0 10000) = true) by (vm_compute; reflexivity).
  rewrite forallb_forall in Hall.
  specialize (Hall n). rewrite andb_true_iff, Nat.eqb_eq, Z.eqb_eq in Hall. apply Hall.
  apply list_elem_of_In, elem_of_seqZ. lia.
Qed.

Lemma pad_2_digits (n : Z) :
  0 <= n <= 99 -> String.length (pad 2 n) = 2%nat /\ digitsValue (pad 2 n) = n.
Proof.
  intros Hn.
  assert (Hall : forallb (fun n => (String.length (pad 2 n) =? 2)%nat && (digitsValue (pad 2 n) =? n))
                         (seqZ 0 100) = true) by (vm_compute; reflexivity).
  rewrite forallb_forall in Hall.
  specialize (Hall n). rewrite andb_true_iff, Nat.eqb_eq, Z.eqb_eq in Hall. apply Hall.
  apply list_elem_of_In, elem_of_seqZ. lia.
Qed.

Lemma append_inj_length (a1 a2 b1 b2 : string) :
  String.length a1 = String.length a2 -> a1 +:+ b1 = a2 +:+ b2 -> a1 = a2 /\ b1 = b2.
Proof.
  revert a2. induction a1 as [|c a1 IH]; intros [|c2 a2] Hl Heq; cbn in *; try discriminate.
  - auto.
  - injection Heq as -> Heq. injection Hl as Hl.
    destruct (IH a2 Hl Heq) as [-> ->]. auto.
Qed.

Lemma format_same_day (d1 d2 : Date) :
  Day d1 = Day d2 -> format_yyyy_MM_dd d1 = format_yyyy_MM_dd d2.
Proof.
  intros H. unfold format_yyyy_MM_dd, getFullYear, getMonth, getDate, DateFromTime,
    MonthFromTime, InLeapYear, DayWithinYear, YearFromTime. rewrite H. reflexivity.
Qed.

(** A date of the years 1 to 9999 is written with ten characters, and two
    such dates written alike are on the same day. *)
Lemma format_length_inj (d1 d2 : Date) :
  1 <= getFullYear d1 <= 9999 -> 1 <= getFullYear d2 <= 9999 ->
  String.length (format_yyyy_MM_dd d1) = 10%nat
  /\ (format_yyyy_MM_dd d1 = format_yyyy_MM_dd d2 -> Day d1 = Day d2).
Proof.
  intros Hy1 Hy2.
  destruct (civil_fields d1) as (Hm1 & Hd1 & Hday1).
  destruct (civil_fields d2) as (Hm2 & Hd2 & Hday2).
  assert (Hdim : forall t, daysInMonth (InLeapYear t) (MonthFromTime t) <= 31).
  { intros t. pose proof (leapDay_bounds (YearFromTime t)) as Hl. fold (InLeapYear t) in Hl.
    unfold daysInMonth. destruct (MonthFromTime t) as [|p|p]; try lia.
    do 4 (try destruct p as [p|p|]); lia. }
  pose proof (Hdim d1). pose proof (Hdim d2).
  destruct (pad_4_digits (getFullYear d1)) as [L1 V1]; [lia|].
  destruct (pad_4_digits (getFullYear d2)) as [L2 V2]; [lia|].
  destruct (pad_2_digits (getMonth d1 + 1)) as [L3 V3]; [unfold getMonth; lia|].
  destruct (pad_2_digits (getMonth d2 + 1)) as [L4 V4]; [unfold getMonth; lia|].
  destruct (pad_2_digits (getDate d1)) as [L5 V5]; [unfold getDate; lia|].
  destruct (pad_2_digits (getDate d2)) as [L6 V6]; [unfold getDate; lia|].
  unfold format_yyyy_MM_dd. cbv zeta.
  replace (0 <? getFullYear d1) with true by (symmetry; apply Z.ltb_lt; lia).
  replace (0 <? getFullYear d2) with true by (symmetry; apply Z.ltb_lt; lia).
  split.
  - rewrite !length_append, L1, L3, L5. reflexivity.
  - intros Heq.
    assert (Hdash : forall a b : string, "-" +:+ a = "-" +:+ b -> a = b).
    { intros a b Hab. simpl in Hab. injection Hab as Hab. exact Hab. }
    apply append_inj_length in Heq; [|congruence]. destruct Heq as [Ey Heq].
    apply Hdash in Heq.
    apply append_inj_length in Heq; [|congruence]. destruct Heq as [Em Heq].
    apply Hdash in Heq. rename Heq into Ed.
    assert (getFullYear d1 = getFullYear d2) by congruence.
    assert (getMonth d1 + 1 = getMonth d2 + 1) by congruence.
    assert (getDate d1 = getDate d2) by congruence.
    unfold getFullYear, getMonth, getDate in *.
    rewrite Hday1, Hday2. f_equal; lia.
Qed.

(** X22: the record of a cell depends on the day of the column only, not on
    its time of day; and, for the years 1 to 9999, a record found for the
    columns of two dates means that both are the same day: the cells of two
    different days never show the same record. *)
Theorem X22_cell_record_by_day (st : Tmp.State) (employee : Tmp.Employee) (d1 d2 : Date) :
  (Day d1 = Day d2 -> Tmp.cellRecord st employee d1 = Tmp.cellRecord st employee d2)
  /\ (1 <= getFullYear d1 <= 9999 -> 1 <= getFullYear d2 <= 9999 ->
      forall r, Tmp.cellRecord st employee d1 = Tmp.Found r ->
                Tmp.cellRecord st employee d2 = Tmp.Found r ->
                Day d1 = Day d2).
Proof.
  split.
  - intros H. unfold Tmp.cellRecord. rewrite (format_same_day d1 d2 H). reflexivity.
  - intros Hy1 Hy2 r H1 H2.
    assert (Hdate : forall d, Tmp.cellRecord st employee d = Tmp.Found r ->
                              Tmp.attendanceDate r = format_yyyy_MM_dd d).
    { intros d Hd. unfold Tmp.cellRecord in Hd.
      destruct (Tmp.attendanceData st !! Tmp.id employee) as [records|]; [|discriminate].
      destruct (List.find _ records) as [r0|] eqn:Hf; [|discriminate].
      injection Hd as ->. apply List.find_some in Hf. destruct Hf as [_ Hf].
      apply String.eqb_eq in Hf. exact Hf. }
    apply (format_length_inj d1 d2 Hy1 Hy2).
    rewrite <- (Hdate d1 H1), <- (Hdate d2 H2). reflexivity.
Qed.

(** Tuesday 5 March 2024 at midnight and at 10:30, in a state that holds the
    sample records for employee 1. *)
Lemma X22_cell_record_by_day_witness :
  let st := Tmp.set_attendanceData {[ 1 := Tmp.sampleRecords ]} Tmp.sampleState in
  let employee := {| Tmp.id := 1; Tmp.name := "John Doe";
                     Tmp.remainingLeaveDays := 3; Tmp.latePenaltyPoints := 0 |} in
  let d1 := mkDate 2024 2 5 0 0 0 0 in
  let d2 := mkDate 2024 2 5 10 30 0 0 in
  (Day d1 = Day d2 /\ Tmp.cellRecord st employee d1 = Tmp.cellRecord st employee d2)
  /\ (1 <= getFullYear d1 <= 9999 /\ 1 <= getFullYear d2 <= 9999
      /\ (exists r, Tmp.cellRecord st employee d1 = Tmp.Found r
                    /\ Tmp.cellRecord st employee d2 = Tmp.Found r)
      /\ Day d1 = Day d2).
Proof.
  intros st employee d1 d2.
  assert (H : Day d1 = Day d2) by reflexivity.
  assert (Hy1 : 1 <= getFullYear d1 <= 9999) by (vm_compute; split; discriminate).
  assert (Hy2 : 1 <= getFullYear d2 <= 9999) by (vm_compute; split; discriminate).
  assert (H1 : Tmp.cellRecord st employee d1
               = Tmp.Found {| Tmp.attendanceDate := "2024-03-05"; Tmp.status := Tmp.PRESENT;
                              Tmp.time := Some "09:40"; Tmp.comment := None |})
    by (vm_compute; reflexivity).
  assert (H2 : Tmp.cellRecord st employee d2
               = Tmp.Found {| Tmp.attendanceDate := "2024-03-05"; Tmp.status := Tmp.PRESENT;
                              Tmp.time := Some "09:40"; Tmp.comment := None |})
    by (vm_compute; reflexivity).
  split.
  - split; [exact H|]. apply (X22_cell_record_by_day st employee d1 d2). exact H.
  - split; [exact Hy1|]. split; [exact Hy2|]. split; [eauto|].
    exact (proj2 (X22_cell_record_by_day st employee d1 d2) Hy1 Hy2 _ H1 H2).
Defined.

(** The year of the era: dates of the years 0 and 1 of [getFullYear] are
    written with the same year, which is why the years from 1 on are taken
    above. *)
Example format_year_of_era :
  getFullYear (MakeDate (MakeDay 0 0 3) 0) = 0
  /\ getFullYear (MakeDate (MakeDay 1 0 3) 0) = 1
  /\ format_yyyy_MM_dd (MakeDate (MakeDay 0 0 3) 0) = "0001-01-03"
  /\ format_yyyy_MM_dd (MakeDate (MakeDay 1 0 3) 0) = "0001-01-03"
  /\ format_yyyy_MM_dd (MakeDate (MakeDay (-1) 0 3) 0) = "0002-01-03".
Proof. vm_compute. repeat split. Qed.

(** ** The text of the request body *)

Lemma chars_append (a b : string) :
  list_ascii_of_string (a +:+ b) = list_ascii_of_string a ++ list_ascii_of_string b.
Proof. induction a as [|c a IH]; [reflexivity|]. simpl. rewrite IH. reflexivity. Qed.

Lemma quoteChar_printable (c : ascii) :
  forallb (fun c => (32 <=? nat_of_ascii c)%nat) (list_ascii_of_string (quoteChar c)) = true.
Proof. destruct c as [[] [] [] [] [] [] [] []]; reflexivity. Qed.

Lemma quote_printable (s : string) :
  forallb (fun c => (32 <=? nat_of_ascii c)%nat) (list_ascii_of_string (quote s)) = true.
Proof.
  unfold quote. rewrite !chars_append, !forallb_app.
  assert (H : forallb (fun c => (32 <=? nat_of_ascii c)%nat)
                      (list_ascii_of_string (quoteChars s)) = true).
  { induction s as [|c s IH]; [reflexivity|].
    change (quoteChars (String c s)) with (quoteChar c +:+ quoteChars s).
    rewrite chars_append, forallb_app, quoteChar_printable, IH. reflexivity. }
  rewrite H. reflexivity.
Qed.

Lemma string_of_Z_printable (n : Z) :
  forallb (fun c => (32 <=? nat_of_ascii c)%nat) (list_ascii_of_string (string_of_Z n)) = true.
Proof.
  unfold string_of_Z, NilZero.string_of_int.
  assert (Hu : forall d, forallb (fun c => (32 <=? nat_of_ascii c)%nat)
                                 (list_ascii_of_string (NilEmpty.string_of_uint d)) = true).
  { induction d; simpl; auto. }
  assert (Hz : forall d, forallb (fun c => (32 <=? nat_of_ascii c)%nat)
                                 (list_ascii_of_string (NilZero.string_of_uint d)) = true).
  { intros d. unfold NilZero.string_of_uint. destruct d; try apply Hu. reflexivity. }
  destruct (Z.to_int n); simpl; auto.
Qed.

(** X24: whatever the texts of the edit session are (a comment with line
    breaks or quotation marks, say), the body that [saveEdit] sends has no
    control character: every character of it has a code of 32 at least. *)
Theorem X24_body_is_printable (E : Z) (D : string) (st : Tmp.State) :
  forallb (fun c => (32 <=? nat_of_ascii c)%nat)
          (list_ascii_of_string (stringify (Tmp.requestBody E D st))) = true.
Proof.
  unfold Tmp.requestBody. cbn [stringify].
  repeat rewrite chars_append. repeat rewrite forallb_app.
  rewrite !quote_printable, string_of_Z_printable. reflexivity.
Qed.
